(** * Authentication and session core of the takteeki backend

    A shallow embedding of [src/services/auth.service.ts], the two
    repositories it drives ([RefreshToken.repository.ts] and the
    [UserRepository] class), the [RefreshToken] entity and the e-mail
    chains of [src/routes/auth.routes.ts], followed by the properties of
    the refresh-token state machine.

    Conventions.
    - JavaScript strings are [string]s over code units below 256.
    - A JavaScript number that holds an integer is kept exact in [Z];
      [NaN] is a separate constructor.
    - [new Date()] and the other sources of nondeterminism of a request
      (random bytes, salts, generated primary keys) are read from an
      explicit [Env].
    - An [async] method that talks to the database is a function from the
      database to a completion and a database: a [throw] keeps the writes
      made before it.
    - The database refuses what PostgreSQL refuses of these tables: a text
      that holds U+0000, an invalid timestamp, a text longer than its
      [varchar] column, a second row under a unique column; the query
      then throws a [QueryFailedError].
    - Local time follows the zone of the process, daylight saving
      included. *)

From Stdlib Require Import ZArith List String Ascii Bool Lia.
From Stdlib Require Decimal DecimalString DecimalN.
Import ListNotations.

Local Open Scope string_scope.
Local Open Scope Z_scope.

(** ** JavaScript values used by the service *)

(** [Number], restricted to what [parseInt] and [getDate] can produce. *)
Inductive Number : Type :=
| NaN : Number
| Int (z : Z) : Number.

(** [a + b] on numbers. *)
Definition num_add (a b : Number) : Number :=
  match a, b with
  | Int x, Int y => Int (x + y)
  | _, _ => NaN
  end.

(** [String.prototype.replace(pattern, replacement)] with a string
    pattern: only the first occurrence is replaced. *)
Fixpoint replace (pattern replacement s : string) : string :=
  if prefix pattern s
  then replacement ++ substring (length pattern) (length s - length pattern)%nat s
  else match s with
       | EmptyString => EmptyString
       | String c rest => String c (replace pattern replacement rest)
       end.

(** White space skipped by [parseInt] (the code units below 256 of
    [StrWhiteSpaceChar]). *)
Definition isStrWhiteSpaceChar (c : ascii) : bool :=
  let n := N_of_ascii c in
  ((9 <=? n) && (n <=? 13) || (n =? 32) || (n =? 160))%N.

Fixpoint skipWhiteSpace (s : string) : string :=
  match s with
  | String c rest => if isStrWhiteSpaceChar c then skipWhiteSpace rest else s
  | EmptyString => EmptyString
  end.

Definition digitValue (c : ascii) : option Z :=
  let n := Z.of_N (N_of_ascii c) in
  if (48 <=? n) && (n <=? 57) then Some (n - 48) else None.

(** The longest prefix of decimal digits, read as an integer; [acc] is
    [None] until a digit has been seen. *)
Fixpoint digits (s : string) (acc : option Z) : option Z :=
  match s with
  | String c rest =>
      match digitValue c with
      | Some d =>
          digits rest (Some (10 * match acc with Some a => a | None => 0 end + d))
      | None => acc
      end
  | EmptyString => acc
  end.

(** [parseInt(s, 10)]. *)
Definition parseInt (s : string) : Number :=
  let s1 := skipWhiteSpace s in
  let '(sign, s2) :=
    match s1 with
    | String "-" rest => (-1, rest)
    | String "+" rest => (1, rest)
    | _ => (1, s1)
    end in
  match digits s2 None with
  | Some v => Int (sign * v)
  | None => NaN
  end.

(** ** Dates

    A [Date] is its time value, milliseconds since the epoch, or invalid.
    Local time follows the zone of the process: a standard offset
    [LocalTZA] and a daylight-saving adjustment [DaylightSavingTA] that
    depends on the instant (ECMAScript 5.1, 15.9.1.7 to 15.9.1.9). *)
Inductive Date : Type :=
| InvalidDate : Date
| TimeValue (t : Z) : Date.

Definition msPerDay : Z := 86400000.
Definition maxTimeValue : Z := 8640000000000000.

Definition Day (t : Z) : Z := t / msPerDay.
Definition TimeWithinDay (t : Z) : Z := t mod msPerDay.

Definition TimeClip (t : Z) : Date :=
  if Z.abs t <=? maxTimeValue then TimeValue t else InvalidDate.

(** Day of the month (1..31) of day number [d] counted from the epoch, in
    the proleptic Gregorian calendar. *)
Definition dayOfMonth (d : Z) : Z :=
  let z := d + 719468 in
  let era := z / 146097 in
  let doe := z - era * 146097 in
  let yoe := (doe - doe / 1460 + doe / 36524 - doe / 146096) / 365 in
  let doy := doe - (365 * yoe + yoe / 4 - yoe / 100) in
  let mp := (5 * doy + 2) / 153 in
  doy - (153 * mp + 2) / 5 + 1.

Definition DateFromTime (t : Z) : Z := dayOfMonth (Day t).

Section LocalTime.
Variable LocalTZA : Z.
Variable DaylightSavingTA : Z -> Z.

Definition LocalTime (t : Z) : Z := t + LocalTZA + DaylightSavingTA t.
Definition UTC (t : Z) : Z :=
  t - LocalTZA - DaylightSavingTA (t - LocalTZA).

(** [d.getDate()]. *)
Definition getDate (d : Date) : Number :=
  match d with
  | InvalidDate => NaN
  | TimeValue t => Int (DateFromTime (LocalTime t))
  end.

(** [d.setDate(dt)]: the first day of [d]'s month is [Day] minus the
    day of the month plus one; [MakeDay] counts [dt - 1] days from
    it, [MakeDate] puts the time within the day back. *)
Definition setDate (d : Date) (dt : Number) : Date :=
  match d, dt with
  | TimeValue t, Int n =>
      let lt := LocalTime t in
      let firstOfMonth := Day lt - (DateFromTime lt - 1) in
      let newDate := (firstOfMonth + n - 1) * msPerDay + TimeWithinDay lt in
      TimeClip (UTC newDate)
  | _, _ => InvalidDate
  end.
End LocalTime.

(** [a < b] on dates: a comparison of time values, false when either
    side is invalid. *)
Definition date_lt (a b : Date) : bool :=
  match a, b with
  | TimeValue x, TimeValue y => x <? y
  | _, _ => false
  end.

(** ** Types of [src/types/auth.ts] *)

Inductive UserRole : Type := USER | ADMIN | MODERATOR.

Definition UserRole_eqb (a b : UserRole) : bool :=
  match a, b with
  | USER, USER | ADMIN, ADMIN | MODERATOR, MODERATOR => true
  | _, _ => false
  end.

Module JWTPayload.
Record t : Type := { userId : string; email : string; role : UserRole }.
End JWTPayload.

Module RegisterDto.
Record t : Type :=
  { name : string; email : string; password : string; role : option UserRole }.
End RegisterDto.

Module LoginDto.
Record t : Type := { email : string; password : string }.
End LoginDto.

Module RefreshTokenDto.
Record t : Type := { refreshToken : string }.
End RefreshTokenDto.

(** ** Errors

    [AppError] is the class of [middleware/errorHandler]; the other
    constructors are what the libraries throw. *)
Inductive Exception : Type :=
| AppError (message : string) (statusCode : Z)
| JsonWebTokenError (message : string)
| TokenExpiredError
| QueryFailedError (message : string).

Inductive Completion (A : Type) : Type :=
| Return (a : A)
| Throw (e : Exception).
Arguments Return {A} a.
Arguments Throw {A} e.

(** ** The [jsonwebtoken] contract

    A signed token is kept structured: the claims it carries and its
    signature.  [iat] and [exp] are in seconds, as the library stores them.
    The signature algorithm is a parameter. *)
Module jwt.
Record Claims : Type :=
  { payload : JWTPayload.t; iat : Z; exp : Z }.

Inductive Token : Type :=
| Malformed (raw : string)
| Compact (claims : Claims) (signature : string).

Section Codec.
Variable HS256 : string -> Claims -> string.

(** [jwt.sign(payload, secret, { expiresIn })] at clock [clock]
    (seconds). *)
Definition sign (p : JWTPayload.t) (secret : string) (expiresIn clock : Z)
  : Token :=
  let claims := {| payload := p; iat := clock; exp := clock + expiresIn |} in
  Compact claims (HS256 secret claims).

(** [jwt.verify(token, secret)] at clock [clock] (seconds). *)
Definition verify (token : Token) (secret : string) (clock : Z)
  : Completion Claims :=
  match token with
  | Malformed _ => Throw (JsonWebTokenError "jwt malformed")
  | Compact claims signature =>
      if (signature =? HS256 secret claims)%string then
        if exp claims <=? clock then Throw TokenExpiredError
        else Return claims
      else Throw (JsonWebTokenError "invalid signature")
  end.
End Codec.
End jwt.

(** ** Configuration and libraries

    The [jwt] block of [config/env] is a parameter, with [expiresIn] given
    in seconds.  The cryptographic and
    validation libraries are parameters as well. *)
Module JwtConfig.
Record t : Type :=
  { secret : string; expiresIn : Z; refreshExpiresIn : string }.
End JwtConfig.

Module Config.
Record t : Type := { jwt : JwtConfig.t }.
End Config.

Class Platform : Type :=
  { config : Config.t;
    (** time zone of the process: standard offset and daylight-saving
        adjustment, in milliseconds; the adjustment is less than a day *)
    LocalTZA : Z;
    DaylightSavingTA : Z -> Z;
    DaylightSavingTA_range : forall t : Z, 0 <= DaylightSavingTA t < msPerDay;
    (** jsonwebtoken's signature *)
    HS256 : string -> jwt.Claims -> string;
    (** [bcrypt.hash(password, salt)] and [bcrypt.compare(password, hash)] *)
    bcrypt_hash : string -> string -> string;
    bcrypt_compare : string -> string -> bool;
    (** express-validator's [trim], [isEmail] and [normalizeEmail] *)
    trim : string -> string;
    isEmail : string -> bool;
    normalizeEmail : string -> string }.

(** What one request reads from its environment. *)
Module Env.
Record t : Type :=
  { (** [new Date()] / [Date.now()], milliseconds *)
    now : Z;
    (** [crypto.randomBytes(64).toString('hex')] *)
    randomBytes : string;
    (** [bcrypt.genSalt(10)] *)
    genSalt : string;
    (** primary key generated for a row inserted by the request *)
    uuid : string }.
End Env.

(** ** Entities *)

(** Modelled from the spec: [entities/User.entity.ts] and the
    [BaseEntity] it extends are missing.  The columns are those the
    service reads, with the soft-delete marker of section 3; a saved user
    is active by default, as the register-then-refresh scenario of
    section 8 needs; the e-mail is unique, enforced at creation and at
    update (section 3). *)
Module User.
Record t : Type :=
  { id : string;
    name : string;
    email : string;
    password : string;
    role : UserRole;
    isActive : bool;
    deletedAt : option Z }.
End User.

(** [entities/RefreshToken.entity.ts]; of [BaseEntity] only [deletedAt]
    is read by the queries. *)
Module RefreshToken.
Record t : Type :=
  { token : string;
    userId : string;
    expiresAt : Date;
    isActive : bool;
    userAgent : option string;
    ipAddress : option string;
    deletedAt : option Z }.

(** A row as [findOne] returns it with [relations: ['user']]. *)
Record loaded : Type := { row : t; user : option User.t }.

(** The row with [{ isActive: false }] written over it. *)
Definition deactivate (r : t) : t :=
  {| token := token r; userId := userId r; expiresAt := expiresAt r;
     isActive := false; userAgent := userAgent r; ipAddress := ipAddress r;
     deletedAt := deletedAt r |}.
End RefreshToken.

(** ** The database and the [async] monad *)

Record Database : Type :=
  { users : list User.t; refresh_tokens : list RefreshToken.t }.

Definition Async (A : Type) : Type := Database -> Completion A * Database.

Definition ret {A : Type} (a : A) : Async A := fun db => (Return a, db).

Definition throw {A : Type} (e : Exception) : Async A := fun db => (Throw e, db).

Definition bind {A B : Type} (m : Async A) (k : A -> Async B) : Async B :=
  fun db =>
    match m db with
    | (Return a, db') => k a db'
    | (Throw e, db') => (Throw e, db')
    end.

Declare Scope async_scope.
Delimit Scope async_scope with async.
Notation "x <- m ;; k" := (bind m (fun x => k))
  (at level 61, m at next level, right associativity) : async_scope.

Definition isNull {A : Type} (o : option A) : bool :=
  match o with None => true | Some _ => false end.

(** PostgreSQL refuses a text value or parameter that holds U+0000; the
    query then fails with a [QueryFailedError]. *)
Fixpoint acceptsText (s : string) : bool :=
  match s with
  | EmptyString => true
  | String c rest => negb (Ascii.eqb c Ascii.zero) && acceptsText rest
  end.

Definition invalidByteSequence {A : Type} : Async A :=
  throw (QueryFailedError "invalid byte sequence for encoding UTF8: 0x00").

(** [result.affected !== undefined && result.affected > 0]. *)
Definition affected_positive (affected : nat) : bool :=
  negb (Nat.eqb affected 0).

Local Open Scope async_scope.

(** [Partial<User>] as [update] receives it: the columns to write. *)
Module UserData.
Record t : Type :=
  { name : option string;
    email : option string;
    password : option string;
    role : option UserRole;
    isActive : option bool }.

Definition orElse {A : Type} (o : option A) (old : A) : A :=
  match o with Some v => v | None => old end.

(** The texts among the columns to write are ones the database accepts. *)
Definition acceptsTexts (d : t) : bool :=
  match name d with Some v => acceptsText v | None => true end
  && match email d with Some v => acceptsText v | None => true end
  && match password d with Some v => acceptsText v | None => true end.

(** The row with the given columns written over it. *)
Definition write (d : t) (u : User.t) : User.t :=
  {| User.id := User.id u;
     User.name := orElse (name d) (User.name u);
     User.email := orElse (email d) (User.email u);
     User.password := orElse (password d) (User.password u);
     User.role := orElse (role d) (User.role u);
     User.isActive := orElse (isActive d) (User.isActive u);
     User.deletedAt := User.deletedAt u |}.
End UserData.

(** ** [UserRepository] *)
Module UserRepository.

(** [where: { id, deletedAt: IsNull() }] *)
Definition byId (id : string) (u : User.t) : bool :=
  (User.id u =? id)%string && isNull (User.deletedAt u).

(** [where: { email, deletedAt: IsNull() }] *)
Definition byEmail (email : string) (u : User.t) : bool :=
  (User.email u =? email)%string && isNull (User.deletedAt u).

Definition findById (id : string) : Async (option User.t) :=
  fun db => (Return (find (byId id) (users db)), db).

Definition findByEmail (email : string) : Async (option User.t) :=
  fun db => (Return (find (byEmail email) (users db)), db).

(** Modelled from the spec: the e-mail column is unique (section 3), so
    an insert is refused when a row, soft-deleted or not, already has the
    e-mail. *)
Definition emailTaken (email : string) (rows : list User.t) : bool :=
  existsb (fun u => (User.email u =? email)%string) rows.

(** [create(userData)] with the fields the service passes; [uuid] is
    the generated primary key.  The insert is refused when a text holds
    U+0000 and when the e-mail is taken. *)
Definition create (uuid name email password : string) (role : UserRole)
  : Async User.t :=
  fun db =>
    if negb (acceptsText name && acceptsText email && acceptsText password)
    then invalidByteSequence db
    else if emailTaken email (users db)
    then (Throw (QueryFailedError
                   "duplicate key value violates unique constraint"), db)
    else
      let user :=
        {| User.id := uuid; User.name := name; User.email := email;
           User.password := password; User.role := role;
           User.isActive := true; User.deletedAt := None |} in
      (Return user,
       {| users := (users db ++ [user])%list;
          refresh_tokens := refresh_tokens db |}).

(** [where: { deletedAt: IsNull() }] *)
Definition findAll : Async (list User.t) :=
  fun db => (Return (filter (fun u => isNull (User.deletedAt u)) (users db)), db).

(** Modelled from the spec: the uniqueness of the e-mail is enforced at
    update too (section 3).  An update collides when it would write, over
    a row under the key, the e-mail of a row under another key. *)
Definition emailCollides (id : string) (userData : UserData.t)
  (rows : list User.t) : bool :=
  match UserData.email userData with
  | Some email =>
      existsb (fun u => (User.id u =? id)%string) rows
      && existsb (fun u => negb (User.id u =? id)%string
                           && (User.email u =? email)%string) rows
  | None => false
  end.

(** [update(id, userData)]: the rows under the primary key are written,
    unless a text holds U+0000 or the unique e-mail column refuses it;
    then the row is read back with [findById]. *)
Definition update (id : string) (userData : UserData.t)
  : Async (option User.t) :=
  _ <- (fun db =>
          if negb (UserData.acceptsTexts userData)
          then invalidByteSequence db
          else if emailCollides id userData (users db)
          then (Throw (QueryFailedError
                         "duplicate key value violates unique constraint"), db)
          else
            (Return tt,
             {| users :=
                  map (fun u => if (User.id u =? id)%string
                                then UserData.write userData u else u) (users db);
                refresh_tokens := refresh_tokens db |})) ;;
  findById id.

(** The row with the delete date set. *)
Definition markDeleted (now : Z) (u : User.t) : User.t :=
  {| User.id := User.id u; User.name := User.name u;
     User.email := User.email u; User.password := User.password u;
     User.role := User.role u; User.isActive := User.isActive u;
     User.deletedAt := Some now |}.

(** [delete(id)]: [softDelete(id)] stamps the rows under the primary
    key at [now]. *)
Definition delete (now : Z) (id : string) : Async bool :=
  fun db =>
    let affected :=
      List.length (filter (fun u => (User.id u =? id)%string) (users db)) in
    (Return (affected_positive affected),
     {| users :=
          map (fun u => if (User.id u =? id)%string
                        then markDeleted now u else u) (users db);
        refresh_tokens := refresh_tokens db |}).

End UserRepository.

(** ** [RefreshTokenRepository] *)
Module RefreshTokenRepository.

(** [where: { token, isActive: true, deletedAt: IsNull() }] *)
Definition activeByToken (token : string) (r : RefreshToken.t) : bool :=
  (RefreshToken.token r =? token)%string
  && RefreshToken.isActive r
  && isNull (RefreshToken.deletedAt r).

(** [{ token }] *)
Definition byToken (token : string) (r : RefreshToken.t) : bool :=
  (RefreshToken.token r =? token)%string.

(** [{ userId, isActive: true }] *)
Definition activeByUserId (userId : string) (r : RefreshToken.t) : bool :=
  (RefreshToken.userId r =? userId)%string && RefreshToken.isActive r.

(** [repository.update(criteria, { isActive: false })] on the table. *)
Definition update_isActive_false (criteria : RefreshToken.t -> bool)
  (rows : list RefreshToken.t) : list RefreshToken.t :=
  map (fun r => if criteria r then RefreshToken.deactivate r else r) rows.

(** The [user] relation: the join leaves out soft-deleted users. *)
Definition load (db : Database) (r : RefreshToken.t) : RefreshToken.loaded :=
  {| RefreshToken.row := r;
     RefreshToken.user :=
       find (UserRepository.byId (RefreshToken.userId r)) (users db) |}.

(** What the [refresh_tokens] table can hold: a text token, a valid
    timestamp, and as user agent and address, when given, texts of at most
    255 and 45 characters ([varchar(255)] and [varchar(45)] in the
    entity). *)
Definition storable (r : RefreshToken.t) : bool :=
  acceptsText (RefreshToken.token r)
  && match RefreshToken.expiresAt r with
     | TimeValue _ => true
     | InvalidDate => false
     end
  && match RefreshToken.userAgent r with
     | Some userAgent => acceptsText userAgent && Nat.leb (length userAgent) 255
     | None => true
     end
  && match RefreshToken.ipAddress r with
     | Some ipAddress => acceptsText ipAddress && Nat.leb (length ipAddress) 45
     | None => true
     end.

(** [create(tokenData)]: the insert is refused when the row cannot be
    stored or when the unique [token] column already has the token. *)
Definition create (tokenData : RefreshToken.t) : Async RefreshToken.t :=
  fun db =>
    if negb (storable tokenData)
    then (Throw (QueryFailedError "invalid input value for a column"), db)
    else if existsb (byToken (RefreshToken.token tokenData)) (refresh_tokens db)
    then (Throw (QueryFailedError
                   "duplicate key value violates unique constraint"), db)
    else (Return tokenData,
          {| users := users db;
             refresh_tokens := (refresh_tokens db ++ [tokenData])%list |}).

Definition findByToken (token : string) : Async (option RefreshToken.loaded) :=
  fun db =>
    if negb (acceptsText token) then invalidByteSequence db
    else
      (Return (option_map (load db)
                 (find (activeByToken token) (refresh_tokens db))), db).

Definition revokeToken (token : string) : Async bool :=
  fun db =>
    if negb (acceptsText token) then invalidByteSequence db
    else
      let affected := List.length (filter (byToken token) (refresh_tokens db)) in
      (Return (affected_positive affected),
       {| users := users db;
          refresh_tokens :=
            update_isActive_false (byToken token) (refresh_tokens db) |}).

Definition revokeAllUserTokens (userId : string) : Async bool :=
  fun db =>
    let affected :=
      List.length (filter (activeByUserId userId) (refresh_tokens db)) in
    (Return (affected_positive affected),
     {| users := users db;
        refresh_tokens :=
          update_isActive_false (activeByUserId userId) (refresh_tokens db) |}).

(** [where: { userId, isActive: true, deletedAt: IsNull() }] *)
Definition activeOfUser (userId : string) (r : RefreshToken.t) : bool :=
  (RefreshToken.userId r =? userId)%string
  && RefreshToken.isActive r
  && isNull (RefreshToken.deletedAt r).

(** [findByUserId(userId)], [order: { createdAt: 'DESC' }]: the table
    keeps its rows in the order of their creation, so the newest come
    first in the reversed selection. *)
Definition findByUserId (userId : string) : Async (list RefreshToken.t) :=
  fun db => (Return (rev (filter (activeOfUser userId) (refresh_tokens db))), db).

(** ['expiresAt < :now'] and ['isActive = :isActive'] with [false]. *)
Definition expiredInactive (now : Z) (r : RefreshToken.t) : bool :=
  date_lt (RefreshToken.expiresAt r) (TimeValue now)
  && negb (RefreshToken.isActive r).

(** [deleteExpiredTokens()] at [now]: the rows are removed for good;
    the answer is their number. *)
Definition deleteExpiredTokens (now : Z) : Async nat :=
  fun db =>
    let affected :=
      List.length (filter (expiredInactive now) (refresh_tokens db)) in
    (Return affected,
     {| users := users db;
        refresh_tokens :=
          filter (fun r => negb (expiredInactive now r)) (refresh_tokens db) |}).

(** The row with the delete date set. *)
Definition markDeleted (now : Z) (r : RefreshToken.t) : RefreshToken.t :=
  {| RefreshToken.token := RefreshToken.token r;
     RefreshToken.userId := RefreshToken.userId r;
     RefreshToken.expiresAt := RefreshToken.expiresAt r;
     RefreshToken.isActive := RefreshToken.isActive r;
     RefreshToken.userAgent := RefreshToken.userAgent r;
     RefreshToken.ipAddress := RefreshToken.ipAddress r;
     RefreshToken.deletedAt := Some now |}.

(** [delete(token)]: [softDelete({ token })] stamps the rows carrying
    the token at [now]. *)
Definition delete (now : Z) (token : string) : Async bool :=
  fun db =>
    if negb (acceptsText token) then invalidByteSequence db
    else
      let affected := List.length (filter (byToken token) (refresh_tokens db)) in
      (Return (affected_positive affected),
       {| users := users db;
          refresh_tokens :=
            map (fun r => if byToken token r then markDeleted now r else r)
              (refresh_tokens db) |}).

End RefreshTokenRepository.

(** ** Responses *)
Module PublicUser.
Record t : Type :=
  { id : string; name : string; email : string; role : UserRole }.
End PublicUser.

Module AuthResponse.
Record t : Type :=
  { token : jwt.Token; refreshToken : string; user : PublicUser.t }.
End AuthResponse.

Module RefreshTokenResponse.
Record t : Type := { token : jwt.Token; refreshToken : string }.
End RefreshTokenResponse.

(** ** [AuthService] *)
Module AuthService.
Section Service.
Context {P : Platform}.
Variable env : Env.t.

Definition hashPassword (password : string) : string :=
  let salt := Env.genSalt env in
  bcrypt_hash password salt.

Definition comparePassword (password hash : string) : bool :=
  bcrypt_compare password hash.

(** The clock [jsonwebtoken] reads: [Math.floor(Date.now() / 1000)]. *)
Definition clockTimestamp : Z := Env.now env / 1000.

Definition generateAccessToken (payload : JWTPayload.t) : jwt.Token :=
  jwt.sign HS256 payload (JwtConfig.secret (Config.jwt config))
    (JwtConfig.expiresIn (Config.jwt config)) clockTimestamp.

Definition generateRefreshToken : string := Env.randomBytes env.

Definition getRefreshTokenExpiration : Date :=
  let expiresIn := JwtConfig.refreshExpiresIn (Config.jwt config) in
  let days := parseInt (replace "d" "" expiresIn) in
  let expirationDate := TimeValue (Env.now env) in
  setDate LocalTZA DaylightSavingTA expirationDate
    (num_add (getDate LocalTZA DaylightSavingTA expirationDate) days).

Definition createRefreshToken (userId : string)
  (userAgent ipAddress : option string) : Async string :=
  let token := generateRefreshToken in
  let expiresAt := getRefreshTokenExpiration in
  _ <- RefreshTokenRepository.create
         {| RefreshToken.token := token;
            RefreshToken.userId := userId;
            RefreshToken.expiresAt := expiresAt;
            RefreshToken.isActive := true;
            RefreshToken.userAgent := userAgent;
            RefreshToken.ipAddress := ipAddress;
            RefreshToken.deletedAt := None |} ;;
  ret token.

Definition verifyToken (token : jwt.Token) : Completion jwt.Claims :=
  match jwt.verify HS256 token (JwtConfig.secret (Config.jwt config))
          clockTimestamp with
  | Return decoded => Return decoded
  | Throw _ => Throw (AppError "Invalid or expired token" 401)
  end.

Definition verifyRefreshToken (token : string) : Async JWTPayload.t :=
  refreshToken <- RefreshTokenRepository.findByToken token ;;
  match refreshToken with
  | None => throw (AppError "Invalid refresh token" 401)
  | Some refreshToken =>
      let r := RefreshToken.row refreshToken in
      if date_lt (RefreshToken.expiresAt r) (TimeValue (Env.now env)) then
        _ <- RefreshTokenRepository.revokeToken token ;;
        throw (AppError "Refresh token expired" 401)
      else if negb (RefreshToken.isActive r) then
        throw (AppError "Refresh token has been revoked" 401)
      else
        match RefreshToken.user refreshToken with
        | None => throw (AppError "User account is deactivated" 403)
        | Some user =>
            if negb (User.isActive user) then
              throw (AppError "User account is deactivated" 403)
            else
              ret {| JWTPayload.userId := User.id user;
                     JWTPayload.email := User.email user;
                     JWTPayload.role := User.role user |}
        end
  end.

Definition register (data : RegisterDto.t)
  (userAgent ipAddress : option string) : Async AuthResponse.t :=
  existingUser <- UserRepository.findByEmail (RegisterDto.email data) ;;
  match existingUser with
  | Some _ => throw (AppError "User with this email already exists" 409)
  | None =>
      let hashedPassword := hashPassword (RegisterDto.password data) in
      user <- UserRepository.create (Env.uuid env)
                (RegisterDto.name data) (RegisterDto.email data)
                hashedPassword
                (match RegisterDto.role data with
                 | Some r => r
                 | None => USER
                 end) ;;
      let accessToken :=
        generateAccessToken
          {| JWTPayload.userId := User.id user;
             JWTPayload.email := User.email user;
             JWTPayload.role := User.role user |} in
      refreshToken <- createRefreshToken (User.id user) userAgent ipAddress ;;
      ret {| AuthResponse.token := accessToken;
             AuthResponse.refreshToken := refreshToken;
             AuthResponse.user :=
               {| PublicUser.id := User.id user;
                  PublicUser.name := User.name user;
                  PublicUser.email := User.email user;
                  PublicUser.role := User.role user |} |}
  end.

Definition login (data : LoginDto.t)
  (userAgent ipAddress : option string) : Async AuthResponse.t :=
  user <- UserRepository.findByEmail (LoginDto.email data) ;;
  match user with
  | None => throw (AppError "Invalid email or password" 401)
  | Some user =>
      if negb (User.isActive user) then
        throw (AppError "Account is deactivated" 403)
      else
        let isPasswordValid :=
          comparePassword (LoginDto.password data) (User.password user) in
        if negb isPasswordValid then
          throw (AppError "Invalid email or password" 401)
        else
          let accessToken :=
            generateAccessToken
              {| JWTPayload.userId := User.id user;
                 JWTPayload.email := User.email user;
                 JWTPayload.role := User.role user |} in
          refreshToken <- createRefreshToken (User.id user) userAgent ipAddress ;;
          ret {| AuthResponse.token := accessToken;
                 AuthResponse.refreshToken := refreshToken;
                 AuthResponse.user :=
                   {| PublicUser.id := User.id user;
                      PublicUser.name := User.name user;
                      PublicUser.email := User.email user;
                      PublicUser.role := User.role user |} |}
  end.

Definition refreshToken (data : RefreshTokenDto.t)
  : Async RefreshTokenResponse.t :=
  payload <- verifyRefreshToken (RefreshTokenDto.refreshToken data) ;;
  let accessToken := generateAccessToken payload in
  ret {| RefreshTokenResponse.token := accessToken;
         RefreshTokenResponse.refreshToken :=
           RefreshTokenDto.refreshToken data |}.

Definition revokeRefreshToken (token : string) : Async bool :=
  RefreshTokenRepository.revokeToken token.

Definition revokeAllUserTokens (userId : string) : Async bool :=
  RefreshTokenRepository.revokeAllUserTokens userId.

Definition getProfile (userId : string) : Async (option User.t) :=
  UserRepository.findById userId.

End Service.
End AuthService.

(** ** [middleware/errorHandler] *)

(** A JSON answer: HTTP status, [status] and [message] of the body. *)
Module Reply.
Record t : Type := { statusCode : Z; status : string; message : string }.
End Reply.

Module ErrorHandler.

(** The [status] that the [AppError] constructor derives. *)
Definition status (statusCode : Z) : string :=
  if (400 <=? statusCode) && (statusCode <? 500) then "fail" else "error".

(** [err.message] of an exception. *)
Definition messageOf (err : Exception) : string :=
  match err with
  | AppError message _ => message
  | JsonWebTokenError message => message
  | TokenExpiredError => "jwt expired"
  | QueryFailedError message => message
  end.

(** [errorHandler], outside development mode (no stack in the body). *)
Definition errorHandler (err : Exception) : Reply.t :=
  match err with
  | AppError message statusCode =>
      {| Reply.statusCode := statusCode;
         Reply.status := status statusCode;
         Reply.message := message |}
  | _ =>
      {| Reply.statusCode := 500;
         Reply.status := "error";
         Reply.message :=
           if (messageOf err =? "")%string then "Internal Server Error"
           else messageOf err |}
  end.

End ErrorHandler.

(** ** [middleware/auth.middleware]

    A middleware answers [next()] with the request it hands on, or
    [next(err)].  The request carries the [Authorization] header and, once
    authenticated, [req.user].  [parseCompact] reads the compact
    serialization of a token. *)
Module AuthRequest.
Record t : Type :=
  { authorization : option string; user : option jwt.Claims }.
End AuthRequest.

Definition Middleware : Type := AuthRequest.t -> Completion AuthRequest.t.

Module AuthMiddleware.
Section Middlewares.
Context {P : Platform}.
Variable parseCompact : string -> jwt.Token.
Variable env : Env.t.

Definition authenticate : Middleware :=
  fun req =>
    match AuthRequest.authorization req with
    | None => Throw (AppError "No token provided" 401)
    | Some authHeader =>
        if (authHeader =? "")%string || negb (prefix "Bearer " authHeader) then
          Throw (AppError "No token provided" 401)
        else
          let token := substring 7 (length authHeader - 7) authHeader in
          match AuthService.verifyToken env (parseCompact token) with
          | Return decoded =>
              Return {| AuthRequest.authorization := Some authHeader;
                        AuthRequest.user := Some decoded |}
          | Throw (AppError message statusCode) =>
              Throw (AppError message statusCode)
          | Throw _ => Throw (AppError "Invalid token" 401)
          end
    end.

Definition authorize (roles : list UserRole) : Middleware :=
  fun req =>
    match AuthRequest.user req with
    | None => Throw (AppError "Authentication required" 401)
    | Some decoded =>
        if negb (existsb (UserRole_eqb (JWTPayload.role (jwt.payload decoded)))
                   roles) then
          Throw (AppError
                   "You do not have permission to access this resource" 403)
        else Return req
    end.

(** [requireAuth(roles?)]: an array, even an empty one, is truthy. *)
Definition requireAuth (roles : option (list UserRole)) : list Middleware :=
  (authenticate
   :: match roles with
      | Some roles => [authorize roles]
      | None => []
      end)%list.

End Middlewares.

(** The middlewares of a route, run in order until one fails. *)
Fixpoint runChain (chain : list Middleware) (req : AuthRequest.t)
  : Completion AuthRequest.t :=
  match chain with
  | [] => Return req
  | m :: rest =>
      match m req with
      | Return req' => runChain rest req'
      | Throw e => Throw e
      end
  end.

End AuthMiddleware.

(** ** The register and login routes of [routes/auth.routes.ts]

    Each [body(...)] chain runs its sanitizers and validators in order;
    [validateRequest] throws when any validator has failed, and the
    handler receives the sanitized body. *)
Module AuthRoutes.

Definition check (ok : bool) (message : string) : list string :=
  if ok then [] else [message].

Definition notEmpty (value : string) : bool :=
  negb (Nat.eqb (length value) 0).

Definition isLength (min : nat) (max : option nat) (value : string) : bool :=
  Nat.leb min (length value)
  && match max with Some m => Nat.leb (length value) m | None => true end.

(** [middleware/validateRequest]. *)
Definition validateRequest (errorMessages : list string) : Completion unit :=
  match errorMessages with
  | [] => Return tt
  | _ =>
      Throw (AppError ("Validation failed: " ++ concat ", " errorMessages) 400)
  end.

Section Routes.
Context {P : Platform}.
Variable env : Env.t.

(** [body('email').trim().notEmpty().isEmail().normalizeEmail()]:
    the value handed on and the messages of the failed validators. *)
Definition emailChain (raw : string) : string * list string :=
  let trimmed := trim raw in
  (normalizeEmail trimmed,
   (check (notEmpty trimmed) "Email is required"
    ++ check (isEmail trimmed) "Please provide a valid email")%list).

Definition nameChain (raw : string) : string * list string :=
  let trimmed := trim raw in
  (trimmed,
   (check (notEmpty trimmed) "Name is required"
    ++ check (isLength 2 (Some 255%nat) trimmed)
         "Name must be between 2 and 255 characters")%list).

(** [router.post('/register', ...)]. *)
Definition register (body : RegisterDto.t)
  (userAgent ipAddress : option string) : Async AuthResponse.t :=
  let '(name, nameErrors) := nameChain (RegisterDto.name body) in
  let '(email, emailErrors) := emailChain (RegisterDto.email body) in
  let passwordErrors :=
    (check (notEmpty (RegisterDto.password body)) "Password is required"
     ++ check (isLength 6 None (RegisterDto.password body))
          "Password must be at least 6 characters long")%list in
  match validateRequest (nameErrors ++ emailErrors ++ passwordErrors)%list with
  | Throw e => throw e
  | Return _ =>
      AuthService.register env
        {| RegisterDto.name := name;
           RegisterDto.email := email;
           RegisterDto.password := RegisterDto.password body;
           RegisterDto.role := RegisterDto.role body |}
        userAgent ipAddress
  end.

(** [router.post('/login', ...)]. *)
Definition login (body : LoginDto.t)
  (userAgent ipAddress : option string) : Async AuthResponse.t :=
  let '(email, emailErrors) := emailChain (LoginDto.email body) in
  let passwordErrors :=
    check (notEmpty (LoginDto.password body)) "Password is required" in
  match validateRequest (emailErrors ++ passwordErrors)%list with
  | Throw e => throw e
  | Return _ =>
      AuthService.login env
        {| LoginDto.email := email;
           LoginDto.password := LoginDto.password body |}
        userAgent ipAddress
  end.
(** [router.post('/refresh', ...)]. *)
Definition refresh (body : RefreshTokenDto.t) : Async RefreshTokenResponse.t :=
  match validateRequest
          (check (notEmpty (RefreshTokenDto.refreshToken body))
             "Refresh token is required") with
  | Throw e => throw e
  | Return _ => AuthService.refreshToken env body
  end.

Variable parseCompact : string -> jwt.Token.

(** [router.post('/logout', ...)]: validation, then [authenticate], then
    the handler. *)
Definition logout (req : AuthRequest.t) (body : RefreshTokenDto.t)
  : Async Reply.t :=
  match validateRequest
          (check (notEmpty (RefreshTokenDto.refreshToken body))
             "Refresh token is required") with
  | Throw e => throw e
  | Return _ =>
      match AuthMiddleware.authenticate parseCompact env req with
      | Throw e => throw e
      | Return _ =>
          _ <- AuthService.revokeRefreshToken (RefreshTokenDto.refreshToken body) ;;
          ret {| Reply.statusCode := 200;
                 Reply.status := "success";
                 Reply.message := "Logged out successfully" |}
      end
  end.

(** [router.post('/logout-all', ...)]. *)
Definition logoutAll (req : AuthRequest.t) : Async Reply.t :=
  match AuthMiddleware.authenticate parseCompact env req with
  | Throw e => throw e
  | Return authReq =>
      match AuthRequest.user authReq with
      | None =>
          ret {| Reply.statusCode := 401;
                 Reply.status := "error";
                 Reply.message := "Unauthorized" |}
      | Some user =>
          _ <- AuthService.revokeAllUserTokens
                 (JWTPayload.userId (jwt.payload user)) ;;
          ret {| Reply.statusCode := 200;
                 Reply.status := "success";
                 Reply.message := "Logged out from all devices successfully" |}
      end
  end.

(** [router.get('/admin', requireAuth([UserRole.ADMIN]), ...)]: the
    answer carries [req.user]. *)
Definition admin (req : AuthRequest.t) : Completion (Reply.t * option jwt.Claims) :=
  match AuthMiddleware.runChain
          (AuthMiddleware.requireAuth parseCompact env (Some [ADMIN])) req with
  | Throw e => Throw e
  | Return authReq =>
      Return ({| Reply.statusCode := 200;
                 Reply.status := "success";
                 Reply.message := "Welcome to admin area" |},
              AuthRequest.user authReq)
  end.

End Routes.
End AuthRoutes.

(** ** [TaskRepository.getPlayerTaskStats] *)

(** [entities/Task.entity.ts], the columns the statistics read. *)
Inductive TaskStatus : Type := pending | in_progress | completed | cancelled.

Definition TaskStatus_eqb (a b : TaskStatus) : bool :=
  match a, b with
  | pending, pending | in_progress, in_progress
  | completed, completed | cancelled, cancelled => true
  | _, _ => false
  end.

Module Task.
Record t : Type :=
  { playerId : string;
    title : string;
    status : TaskStatus;
    priority : Z;
    deletedAt : option Z }.
End Task.

Module TaskStats.
Record t : Type :=
  { total : nat; completed : nat; pending : nat; inProgress : nat }.
End TaskStats.

Module TaskRepository.

(** [where: { playerId, deletedAt: IsNull() }] *)
Definition ofPlayer (playerId : string) (t : Task.t) : bool :=
  (Task.playerId t =? playerId)%string && isNull (Task.deletedAt t).

Definition hasStatus (s : TaskStatus) (t : Task.t) : bool :=
  TaskStatus_eqb (Task.status t) s.

(** [getPlayerTaskStats(playerId)] over the tasks table. *)
Definition getPlayerTaskStats (playerId : string) (table : list Task.t)
  : TaskStats.t :=
  let tasks := filter (ofPlayer playerId) table in
  {| TaskStats.total := List.length tasks;
     TaskStats.completed := List.length (filter (hasStatus completed) tasks);
     TaskStats.pending := List.length (filter (hasStatus pending) tasks);
     TaskStats.inProgress := List.length (filter (hasStatus in_progress) tasks) |}.

End TaskRepository.

(** ** Sequences of service calls *)

Inductive Request : Type :=
| Register (data : RegisterDto.t) (userAgent ipAddress : option string)
| Login (data : LoginDto.t) (userAgent ipAddress : option string)
| Refresh (data : RefreshTokenDto.t)
| Logout (token : string)
| LogoutAll (userId : string).

(** The database a call leaves behind, whatever it answered. *)
Definition exec {A : Type} (m : Async A) (db : Database) : Database :=
  snd (m db).

Definition serve {P : Platform} (env : Env.t) (rq : Request)
  : Database -> Database :=
  match rq with
  | Register data userAgent ipAddress =>
      exec (AuthService.register env data userAgent ipAddress)
  | Login data userAgent ipAddress =>
      exec (AuthService.login env data userAgent ipAddress)
  | Refresh data => exec (AuthService.refreshToken env data)
  | Logout token => exec (AuthService.revokeRefreshToken token)
  | LogoutAll userId => exec (AuthService.revokeAllUserTokens userId)
  end.

Fixpoint run {P : Platform} (trace : list (Env.t * Request)) (db : Database)
  : Database :=
  match trace with
  | [] => db
  | (env, rq) :: rest => run rest (serve env rq db)
  end.

(** A later call that draws [token] again from [crypto.randomBytes]. *)
Definition draws (token : string) (step : Env.t * Request) : Prop :=
  Env.randomBytes (fst step) = token.

(** ASCII lower-casing, used to say that two e-mails differ by case only. *)
Definition lowerChar (c : ascii) : ascii :=
  let n := N_of_ascii c in
  if ((65 <=? n) && (n <=? 90))%N then ascii_of_N (n + 32) else c.

Fixpoint toLowerCase (s : string) : string :=
  match s with
  | EmptyString => EmptyString
  | String c rest => String (lowerChar c) (toLowerCase rest)
  end.

(** The sanitizers of the e-mail chain do not see letter case. *)
Definition CaseInsensitiveEmail (P : Platform) : Prop :=
  forall a b : string,
    toLowerCase a = toLowerCase b ->
    normalizeEmail (trim a) = normalizeEmail (trim b).

(** ** Session states

    [Known]: some row carries the token.  [Revoked]: every row that
    carries the token is flagged inactive. *)
Definition Known (token : string) (db : Database) : Prop :=
  exists r, In r (refresh_tokens db) /\ RefreshToken.token r = token.

Definition Revoked (token : string) (db : Database) : Prop :=
  forall r, In r (refresh_tokens db) ->
            RefreshToken.token r = token -> RefreshToken.isActive r = false.

(** How a service call can change the sessions table: rows are kept in
    place, possibly deactivated, and at most one row is appended, under
    the token drawn from [crypto.randomBytes], which no row carried. *)
Definition Evolves (drawn : string) (before after : list RefreshToken.t)
  : Prop :=
  exists (f : RefreshToken.t -> RefreshToken.t),
    (forall r, f r = r \/ f r = RefreshToken.deactivate r)
    /\ (after = map f before
        \/ exists fresh,
            after = (map f before ++ [fresh])%list
            /\ RefreshToken.token fresh = drawn
            /\ existsb (RefreshTokenRepository.byToken drawn) before = false).

(** The row [createRefreshToken] stores. *)
Definition issued {P : Platform} (env : Env.t) (token userId : string)
  (userAgent ipAddress : option string) : RefreshToken.t :=
  {| RefreshToken.token := token;
     RefreshToken.userId := userId;
     RefreshToken.expiresAt := AuthService.getRefreshTokenExpiration env;
     RefreshToken.isActive := true;
     RefreshToken.userAgent := userAgent;
     RefreshToken.ipAddress := ipAddress;
     RefreshToken.deletedAt := None |}.

(** The claims carried by a user row. *)
Definition claimsOf (u : User.t) : JWTPayload.t :=
  {| JWTPayload.userId := User.id u;
     JWTPayload.email := User.email u;
     JWTPayload.role := User.role u |}.

(** ** Sample data *)

(** A toy platform: every library function is a simple total function, so
    that the service can be run on concrete inputs. *)
Definition samplePlatform (refreshExpiresIn : string) : Platform :=
  {| config :=
       {| Config.jwt :=
            {| JwtConfig.secret := "s3cret";
               JwtConfig.expiresIn := 900;
               JwtConfig.refreshExpiresIn := refreshExpiresIn |} |};
     LocalTZA := 0;
     DaylightSavingTA := fun _ => 0;
     DaylightSavingTA_range := fun _ => conj (Z.le_refl 0) eq_refl;
     HS256 := fun secret claims =>
                secret ++ "." ++ JWTPayload.userId (jwt.payload claims);
     bcrypt_hash := fun password _ => "$2a$10$" ++ password;
     bcrypt_compare := fun password hash => (hash =? "$2a$10$" ++ password)%string;
     trim := fun s => s;
     isEmail := fun s => match index 0 "@" s with Some _ => true | None => false end;
     normalizeEmail := toLowerCase |}.

#[global] Instance sample : Platform := samplePlatform "30d".

(** 2026-11-02T00:00:00Z. *)
Definition sampleEnv : Env.t :=
  {| Env.now := 1793577600000;
     Env.randomBytes := "c0ffee";
     Env.genSalt := "salt";
     Env.uuid := "u-3" |}.

(** The sample instant moved on by [s] seconds. *)
Definition sampleEnvAfter (s : Z) : Env.t :=
  {| Env.now := Env.now sampleEnv + 1000 * s;
     Env.randomBytes := "decaf";
     Env.genSalt := "salt";
     Env.uuid := "u-4" |}.

Definition jane : User.t :=
  {| User.id := "u-1"; User.name := "Jane"; User.email := "jane@x.com";
     User.password := "$2a$10$secret1"; User.role := ADMIN;
     User.isActive := true; User.deletedAt := None |}.

Definition bob : User.t :=
  {| User.id := "u-2"; User.name := "Bob"; User.email := "bob@x.com";
     User.password := "$2a$10$hunter2"; User.role := USER;
     User.isActive := false; User.deletedAt := None |}.

Definition session (token userId : string) (expiresAt : Z) (isActive : bool)
  : RefreshToken.t :=
  {| RefreshToken.token := token; RefreshToken.userId := userId;
     RefreshToken.expiresAt := TimeValue expiresAt;
     RefreshToken.isActive := isActive;
     RefreshToken.userAgent := None; RefreshToken.ipAddress := None;
     RefreshToken.deletedAt := None |}.

(** Jane holds a live session, an expired one still flagged active and a
    revoked one; Bob holds one session. *)
Definition sampleDb : Database :=
  {| users := [jane; bob];
     refresh_tokens :=
       [ session "live" "u-1" 1800000000000 true;
         session "stale" "u-1" 1700000000000 true;
         session "gone" "u-1" 1800000000000 false;
         session "bobs" "u-2" 1800000000000 true ] |}.

(** A refresh token as a client can put it in a JSON body: it holds the
    character U+0000. *)
Definition nulToken : string := ("live" ++ String Ascii.zero "")%string.

(** A zone five hours behind universal time whose clocks, one hour ahead
    in summer, go back six hours after the sample instant. *)
Definition sampleDaylightSaving (t : Z) : Z :=
  if t <? 1793599200000 then 3600000 else 0.

Definition sampleDaylightSaving_range (t : Z)
  : 0 <= sampleDaylightSaving t < msPerDay :=
  match t <? 1793599200000 as b
        return 0 <= (if b then 3600000 else 0) < msPerDay with
  | true => conj (Z.lt_le_incl 0 3600000 eq_refl) eq_refl
  | false => conj (Z.le_refl 0) eq_refl
  end.

Definition daylightPlatform (refreshExpiresIn : string) : Platform :=
  {| config :=
       {| Config.jwt :=
            {| JwtConfig.secret := "s3cret";
               JwtConfig.expiresIn := 900;
               JwtConfig.refreshExpiresIn := refreshExpiresIn |} |};
     LocalTZA := -18000000;
     DaylightSavingTA := sampleDaylightSaving;
     DaylightSavingTA_range := sampleDaylightSaving_range;
     HS256 := fun secret claims =>
                secret ++ "." ++ JWTPayload.userId (jwt.payload claims);
     bcrypt_hash := fun password _ => "$2a$10$" ++ password;
     bcrypt_compare := fun password hash => (hash =? "$2a$10$" ++ password)%string;
     trim := fun s => s;
     isEmail := fun s => match index 0 "@" s with Some _ => true | None => false end;
     normalizeEmail := toLowerCase |}.

(** How the sample tokens travel: two names for tokens issued at the
    sample instant, anything else is malformed. *)
Definition sampleParse (compact : string) : jwt.Token :=
  if (compact =? "jane.jwt")%string then
    AuthService.generateAccessToken sampleEnv (claimsOf jane)
  else if (compact =? "bob.jwt")%string then
    AuthService.generateAccessToken sampleEnv (claimsOf bob)
  else jwt.Malformed compact.

Definition bearer (compact : string) : AuthRequest.t :=
  {| AuthRequest.authorization := Some ("Bearer " ++ compact);
     AuthRequest.user := None |}.



(** A services database where tokens and primary keys are distinct. *)
Definition WellKeyed (db : Database) : Prop :=
  NoDup (map RefreshToken.token (refresh_tokens db))
  /\ NoDup (map User.id (users db)).

(** The answers of the logout, logout-all and admin handlers. *)
Definition loggedOut : Reply.t :=
  {| Reply.statusCode := 200; Reply.status := "success";
     Reply.message := "Logged out successfully" |}.

Definition loggedOutEverywhere : Reply.t :=
  {| Reply.statusCode := 200; Reply.status := "success";
     Reply.message := "Logged out from all devices successfully" |}.

Definition welcome : Reply.t :=
  {| Reply.statusCode := 200; Reply.status := "success";
     Reply.message := "Welcome to admin area" |}.

(** * Properties *)

(** ** Strings, numbers and dates *)

Example replace_30d : replace "d" "" "30d" = "30".
Proof. reflexivity. Qed.

Example replace_first_only : replace "d" "" "1d2d" = "12d".
Proof. reflexivity. Qed.

Example parseInt_12h : parseInt "12h" = Int 12.
Proof. reflexivity. Qed.

Example parseInt_abc : parseInt "abc" = NaN.
Proof. reflexivity. Qed.

Example parseInt_neg : parseInt "  -7 days" = Int (-7).
Proof. reflexivity. Qed.

(** 2026-11-02 is day 20759 of the epoch, 1970-01-01 is day 0, 2024-02-29
    is day 19782 and 1969-12-31 is day -1. *)
Example dayOfMonth_samples :
  dayOfMonth 20759 = 2 /\ dayOfMonth 0 = 1 /\ dayOfMonth 19782 = 29
  /\ dayOfMonth (-1) = 31.
Proof. repeat split; reflexivity. Qed.

(** [d.setDate(d.getDate() + n)] keeps the local time of day and moves
    the local date by [n] days, whatever the day of the month is. *)
Lemma setDate_getDate (tz : Z) (dst : Z -> Z) (t n : Z) :
  setDate tz dst (TimeValue t) (num_add (getDate tz dst (TimeValue t)) (Int n))
  = TimeClip (UTC tz dst (LocalTime tz dst t + n * msPerDay)).
Proof.
  unfold setDate, getDate, num_add. f_equal. f_equal.
  unfold Day, TimeWithinDay.
  set (lt := LocalTime tz dst t).
  pose proof (Z.div_mod lt msPerDay) as Hdm.
  assert (Hne : msPerDay <> 0) by (unfold msPerDay; lia).
  specialize (Hdm Hne).
  set (d := DateFromTime lt).
  set (q := lt / msPerDay) in *.
  set (r := lt mod msPerDay) in *.
  replace (q - (d - 1) + (d + n) - 1) with (q + n) by ring.
  unfold msPerDay in *. lia.
Qed.

(** In universal time the move is [n] days of 86400000 ms, corrected by
    the change of the daylight-saving adjustment between the two ends. *)
Lemma UTC_LocalTime_plus (tz : Z) (dst : Z -> Z) (t d : Z) :
  UTC tz dst (LocalTime tz dst t + d)
  = t + d + dst t - dst (t + dst t + d).
Proof.
  unfold UTC, LocalTime.
  replace (t + tz + dst t + d - tz) with (t + dst t + d) by ring.
  ring.
Qed.

Lemma setDate_NaN (tz : Z) (dst : Z -> Z) (d : Date) :
  setDate tz dst d NaN = InvalidDate.
Proof. destruct d; reflexivity. Qed.


Lemma TimeClip_out_of_range (t : Z) :
  maxTimeValue < Z.abs t -> TimeClip t = InvalidDate.
Proof.
  intros Hr. unfold TimeClip.
  destruct (Z.leb_spec (Z.abs t) maxTimeValue) as [Hle | _]; [lia | reflexivity].
Qed.

Lemma prefix_empty (s : string) : prefix "" s = true.
Proof. destruct s; reflexivity. Qed.

Lemma substring_full (s : string) : substring 0 (length s) s = s.
Proof. induction s as [| c s IH]; cbn; [reflexivity | now rewrite IH]. Qed.















(** ** The repositories *)

Lemma find_app_none {A : Type} (f : A -> bool) (l1 l2 : list A) :
  find f l1 = None -> find f (l1 ++ l2)%list = find f l2.
Proof.
  induction l1 as [| a l1 IH]; cbn; [reflexivity |].
  destruct (f a); [discriminate | exact IH].
Qed.

Lemma find_app_some {A : Type} (f : A -> bool) (l1 l2 : list A) (x : A) :
  find f l1 = Some x -> find f (l1 ++ l2)%list = Some x.
Proof.
  induction l1 as [| a l1 IH]; cbn; [discriminate |].
  destruct (f a); [trivial | exact IH].
Qed.

Ltac async :=
  unfold bind, ret, throw, exec,
    UserRepository.findByEmail, UserRepository.findById,
    UserRepository.create,
    RefreshTokenRepository.findByToken, RefreshTokenRepository.create,
    RefreshTokenRepository.revokeToken,
    RefreshTokenRepository.revokeAllUserTokens in *;
  cbn [fst snd users refresh_tokens] in *.

Lemma byToken_true (t : string) (r : RefreshToken.t) :
  RefreshTokenRepository.byToken t r = true <-> RefreshToken.token r = t.
Proof. unfold RefreshTokenRepository.byToken. apply String.eqb_eq. Qed.

Lemma activeByToken_true (t : string) (r : RefreshToken.t) :
  RefreshTokenRepository.activeByToken t r = true <->
  RefreshToken.token r = t /\ RefreshToken.isActive r = true
  /\ RefreshToken.deletedAt r = None.
Proof.
  unfold RefreshTokenRepository.activeByToken, isNull.
  rewrite !andb_true_iff, String.eqb_eq.
  destruct (RefreshToken.deletedAt r); intuition congruence.
Qed.

Lemma deactivate_token (r : RefreshToken.t) :
  RefreshToken.token (RefreshToken.deactivate r) = RefreshToken.token r.
Proof. reflexivity. Qed.

Lemma deactivate_inactive (r : RefreshToken.t) :
  RefreshToken.isActive r = false -> RefreshToken.deactivate r = r.
Proof. destruct r as [t u e a ua ip d]; cbn; intros ->; reflexivity. Qed.

(** A row written by [update ... { isActive: false }] is the old row or
    the old row deactivated. *)
Lemma in_update_isActive_false c rows r' :
  In r' (RefreshTokenRepository.update_isActive_false c rows) ->
  exists r, In r rows /\ (r' = r \/ r' = RefreshToken.deactivate r).
Proof.
  unfold RefreshTokenRepository.update_isActive_false.
  rewrite in_map_iff. intros (r & Hr & Hin).
  exists r; split; [assumption |].
  destruct (c r); subst; auto.
Qed.

Lemma find_activeByToken_revoked (t : string) (db : Database) :
  Revoked t db ->
  find (RefreshTokenRepository.activeByToken t) (refresh_tokens db) = None.
Proof.
  intros Hrev.
  destruct (find _ _) as [r |] eqn:Hfind; [| reflexivity].
  apply find_some in Hfind as [Hin Hact].
  apply activeByToken_true in Hact as (Htok & Hactive & _).
  rewrite (Hrev r Hin Htok) in Hactive. discriminate.
Qed.

Lemma update_byToken_revokes (t : string) (rows : list RefreshToken.t) users0 :
  Revoked t {| users := users0;
               refresh_tokens :=
                 RefreshTokenRepository.update_isActive_false
                   (RefreshTokenRepository.byToken t) rows |}.
Proof.
  intros r' Hin Htok. cbn in Hin.
  unfold RefreshTokenRepository.update_isActive_false in Hin.
  apply in_map_iff in Hin as (r & <- & _).
  destruct (RefreshTokenRepository.byToken t r) eqn:Hc; [reflexivity |].
  apply byToken_true in Htok. congruence.
Qed.

Lemma update_fixes_revoked (t : string) (rows : list RefreshToken.t) :
  (forall r, In r rows -> RefreshToken.token r = t ->
             RefreshToken.isActive r = false) ->
  RefreshTokenRepository.update_isActive_false
    (RefreshTokenRepository.byToken t) rows = rows.
Proof.
  intros Hrev. unfold RefreshTokenRepository.update_isActive_false.
  rewrite <- (map_id rows) at 2. apply map_ext_in.
  intros r Hin. destruct (RefreshTokenRepository.byToken t r) eqn:Hc; [| reflexivity].
  apply deactivate_inactive, Hrev; [assumption | now apply byToken_true].
Qed.

(** Presenting a revoked token: the lookup finds nothing. *)
Lemma refresh_revoked {P : Platform} env (t : string) (db : Database) :
  acceptsText t = true ->
  Revoked t db ->
  AuthService.refreshToken env {| RefreshTokenDto.refreshToken := t |} db
  = (Throw (AppError "Invalid refresh token" 401), db).
Proof.
  intros Htext Hrev.
  unfold AuthService.refreshToken, AuthService.verifyRefreshToken. async.
  cbn [RefreshTokenDto.refreshToken].
  rewrite Htext, (find_activeByToken_revoked t db Hrev). reflexivity.
Qed.

(** A query on a token that holds U+0000 fails in the database. *)
Lemma refresh_rejected_text {P : Platform} env (t : string) (db : Database) :
  acceptsText t = false ->
  AuthService.refreshToken env {| RefreshTokenDto.refreshToken := t |} db
  = (Throw (QueryFailedError "invalid byte sequence for encoding UTF8: 0x00"),
     db).
Proof.
  intros Htext.
  unfold AuthService.refreshToken, AuthService.verifyRefreshToken. async.
  cbn [RefreshTokenDto.refreshToken].
  rewrite Htext. reflexivity.
Qed.

(** ** The token codec *)

Lemma verify_sign (hs : string -> jwt.Claims -> string) p secret ttl c0 c1 :
  jwt.verify hs (jwt.sign hs p secret ttl c0) secret c1
  = if c0 + ttl <=? c1 then Throw TokenExpiredError
    else Return {| jwt.payload := p; jwt.iat := c0; jwt.exp := c0 + ttl |}.
Proof.
  unfold jwt.verify, jwt.sign. rewrite String.eqb_refl. reflexivity.
Qed.

Lemma verifyToken_generateAccessToken {P : Platform} (env0 env1 : Env.t)
  (claims : JWTPayload.t) :
  AuthService.verifyToken env1 (AuthService.generateAccessToken env0 claims)
  = if AuthService.clockTimestamp env0 + JwtConfig.expiresIn (Config.jwt config)
       <=? AuthService.clockTimestamp env1
    then Throw (AppError "Invalid or expired token" 401)
    else Return {| jwt.payload := claims;
                   jwt.iat := AuthService.clockTimestamp env0;
                   jwt.exp := AuthService.clockTimestamp env0
                              + JwtConfig.expiresIn (Config.jwt config) |}.
Proof.
  unfold AuthService.verifyToken, AuthService.generateAccessToken.
  rewrite verify_sign.
  destruct (_ <=? _); reflexivity.
Qed.

(** C2. Round trip of the access token.  Issued at [env0] and verified at
    [env1], on the whole-second clock the token library reads: before the
    configured TTL has elapsed, [verifyToken] returns claims whose payload
    is the issued one; once it has elapsed, [verifyToken] throws
    [AppError('Invalid or expired token', 401)]. *)
Theorem access_token_round_trip {P : Platform} (env0 env1 : Env.t)
  (claims : JWTPayload.t) :
  let ttl := JwtConfig.expiresIn (Config.jwt config) in
  let token := AuthService.generateAccessToken env0 claims in
  (AuthService.clockTimestamp env1 < AuthService.clockTimestamp env0 + ttl ->
   exists decoded,
     AuthService.verifyToken env1 token = Return decoded
     /\ jwt.payload decoded = claims)
  /\ (AuthService.clockTimestamp env0 + ttl <= AuthService.clockTimestamp env1 ->
      AuthService.verifyToken env1 token
      = Throw (AppError "Invalid or expired token" 401)).
Proof.
  intros ttl token. subst ttl token.
  rewrite verifyToken_generateAccessToken.
  split; intros Hclock.
  - destruct (Z.leb_spec
                (AuthService.clockTimestamp env0
                 + JwtConfig.expiresIn (Config.jwt config))
                (AuthService.clockTimestamp env1)) as [Hle | Hlt]; [lia |].
    eexists; split; reflexivity.
  - destruct (Z.leb_spec
                (AuthService.clockTimestamp env0
                 + JwtConfig.expiresIn (Config.jwt config))
                (AuthService.clockTimestamp env1)) as [Hle | Hlt]; [reflexivity | lia].
Qed.

(** A token of the sample platform (TTL 900 s) issued at the sample
    instant is accepted 899 s later and refused 900 s later. *)
Lemma access_token_round_trip_witness :
  (exists decoded,
     AuthService.verifyToken (sampleEnvAfter 899)
       (AuthService.generateAccessToken sampleEnv (claimsOf jane))
     = Return decoded
     /\ jwt.payload decoded = claimsOf jane)
  /\ AuthService.verifyToken (sampleEnvAfter 900)
       (AuthService.generateAccessToken sampleEnv (claimsOf jane))
     = Throw (AppError "Invalid or expired token" 401).
Proof.
  split.
  - apply (proj1 (access_token_round_trip sampleEnv (sampleEnvAfter 899)
                    (claimsOf jane))).
    vm_compute. reflexivity.
  - apply (proj2 (access_token_round_trip sampleEnv (sampleEnvAfter 900)
                    (claimsOf jane))).
    vm_compute. discriminate.
Defined.

(** Measured in milliseconds, a token is refused from [ttl] seconds after
    issue on. *)
Lemma access_token_expires_ms {P : Platform} (env0 env1 : Env.t)
  (claims : JWTPayload.t) :
  Env.now env0 + 1000 * JwtConfig.expiresIn (Config.jwt config) <= Env.now env1 ->
  AuthService.verifyToken env1 (AuthService.generateAccessToken env0 claims)
  = Throw (AppError "Invalid or expired token" 401).
Proof.
  intros Hms.
  rewrite verifyToken_generateAccessToken.
  assert (Hclock : AuthService.clockTimestamp env0
                   + JwtConfig.expiresIn (Config.jwt config)
                   <= AuthService.clockTimestamp env1).
  { unfold AuthService.clockTimestamp.
    pose proof (Z.div_le_mono _ _ 1000 ltac:(lia) Hms) as Hdiv.
    rewrite Z.mul_comm, Z.div_add in Hdiv by lia. exact Hdiv. }
  apply Z.leb_le in Hclock. rewrite Hclock. reflexivity.
Qed.

(** ** Refresh *)

Lemma findByToken_text (t : string) (db db' : Database)
  (o : option RefreshToken.loaded) :
  RefreshTokenRepository.findByToken t db = (Return o, db') ->
  acceptsText t = true.
Proof.
  unfold RefreshTokenRepository.findByToken.
  destruct (acceptsText t); [reflexivity | discriminate].
Qed.

Lemma findByToken_accepted (t : string) (db : Database) :
  acceptsText t = true ->
  RefreshTokenRepository.findByToken t db
  = (Return (option_map (RefreshTokenRepository.load db)
               (find (RefreshTokenRepository.activeByToken t)
                  (refresh_tokens db))), db).
Proof.
  intros Htext. unfold RefreshTokenRepository.findByToken.
  rewrite Htext. reflexivity.
Qed.

Lemma revokeToken_accepted (t : string) (db : Database) :
  acceptsText t = true ->
  RefreshTokenRepository.revokeToken t db
  = (Return (affected_positive
               (List.length (filter (RefreshTokenRepository.byToken t)
                               (refresh_tokens db)))),
     {| users := users db;
        refresh_tokens :=
          RefreshTokenRepository.update_isActive_false
            (RefreshTokenRepository.byToken t) (refresh_tokens db) |}).
Proof.
  intros Htext. unfold RefreshTokenRepository.revokeToken.
  rewrite Htext. reflexivity.
Qed.

Lemma findByToken_some (t : string) (db : Database) (l : RefreshToken.loaded) :
  RefreshTokenRepository.findByToken t db = (Return (Some l), db) ->
  In (RefreshToken.row l) (refresh_tokens db)
  /\ RefreshToken.token (RefreshToken.row l) = t
  /\ RefreshToken.isActive (RefreshToken.row l) = true
  /\ RefreshToken.deletedAt (RefreshToken.row l) = None
  /\ RefreshToken.user l
     = find (UserRepository.byId (RefreshToken.userId (RefreshToken.row l)))
         (users db).
Proof.
  intros Heq.
  rewrite (findByToken_accepted t db (findByToken_text _ _ _ _ Heq))
    in Heq.
  destruct (find _ _) as [r |] eqn:Hfind; cbn in Heq; [| discriminate].
  injection Heq as <-. cbn.
  apply find_some in Hfind as [Hin Hact].
  apply activeByToken_true in Hact. intuition.
Qed.

(** C1. Refreshing with a session that the store returns (present, flagged
    active, not soft-deleted), that is not expired and whose owner, as
    stored now, is active: the call returns, the database is untouched,
    the refresh token of the answer is the one presented, and the access
    token is a freshly signed one whose payload is the id, e-mail and role
    of the owner's row. *)
Theorem refresh_reissues_current_claims {P : Platform} (env : Env.t)
  (token : string) (db : Database) (r : RefreshToken.t) (owner : User.t) :
  RefreshTokenRepository.findByToken token db
  = (Return (Some {| RefreshToken.row := r; RefreshToken.user := Some owner |}),
     db) ->
  date_lt (RefreshToken.expiresAt r) (TimeValue (Env.now env)) = false ->
  User.isActive owner = true ->
  AuthService.refreshToken env {| RefreshTokenDto.refreshToken := token |} db
  = (Return
       {| RefreshTokenResponse.token :=
            AuthService.generateAccessToken env (claimsOf owner);
          RefreshTokenResponse.refreshToken := token |}, db)
  /\ (exists signature,
         AuthService.generateAccessToken env (claimsOf owner)
         = jwt.Compact
             {| jwt.payload :=
                  {| JWTPayload.userId := User.id owner;
                     JWTPayload.email := User.email owner;
                     JWTPayload.role := User.role owner |};
                jwt.iat := AuthService.clockTimestamp env;
                jwt.exp := AuthService.clockTimestamp env
                           + JwtConfig.expiresIn (Config.jwt config) |}
             signature)
  /\ find (UserRepository.byId (RefreshToken.userId r)) (users db) = Some owner.
Proof.
  intros Hfind Hfresh Hactive.
  pose proof (findByToken_some _ _ _ Hfind) as (_ & _ & Hrow & _ & Huser).
  cbn in Hrow, Huser.
  split; [| split].
  - unfold AuthService.refreshToken, AuthService.verifyRefreshToken, bind.
    cbn [RefreshTokenDto.refreshToken].
    rewrite Hfind. cbn [RefreshToken.row RefreshToken.user].
    rewrite Hfresh, Hrow, Hactive. reflexivity.
  - eexists. reflexivity.
  - symmetry. exact Huser.
Qed.

(** Jane's live session on the sample database. *)
Lemma refresh_reissues_current_claims_witness :
  fst (AuthService.refreshToken sampleEnv
         {| RefreshTokenDto.refreshToken := "live" |} sampleDb)
  = Return {| RefreshTokenResponse.token :=
                AuthService.generateAccessToken sampleEnv (claimsOf jane);
              RefreshTokenResponse.refreshToken := "live" |}.
Proof.
  rewrite (proj1 (refresh_reissues_current_claims sampleEnv "live" sampleDb
                    (session "live" "u-1" 1800000000000 true) jane
                    eq_refl eq_refl eq_refl)).
  reflexivity.
Defined.

(** The claims follow the stored row: with Jane's role changed in the
    users table the same refresh token yields the new role. *)
Example refresh_sees_role_change :
  let demoted :=
    {| User.id := "u-1"; User.name := "Jane"; User.email := "jane@x.com";
       User.password := "$2a$10$secret1"; User.role := USER;
       User.isActive := true; User.deletedAt := None |} in
  let db' := {| users := [demoted; bob]; refresh_tokens := refresh_tokens sampleDb |} in
  fst (AuthService.refreshToken sampleEnv
         {| RefreshTokenDto.refreshToken := "live" |} db')
  = Return {| RefreshTokenResponse.token :=
                AuthService.generateAccessToken sampleEnv (claimsOf demoted);
              RefreshTokenResponse.refreshToken := "live" |}.
Proof. reflexivity. Qed.

(** C3. Refreshing with a session that the store returns (present and
    flagged active) but whose expiry lies before now: the call throws
    [AppError('Refresh token expired', 401)] and leaves every row carrying
    the token flagged inactive, all else unchanged; any later refresh with
    the token throws an [AppError] with status 401 again and changes
    nothing. *)
Theorem refresh_expired_deactivates {P : Platform} (env : Env.t)
  (token : string) (db : Database) (l : RefreshToken.loaded) :
  RefreshTokenRepository.findByToken token db = (Return (Some l), db) ->
  date_lt (RefreshToken.expiresAt (RefreshToken.row l))
    (TimeValue (Env.now env)) = true ->
  let db1 :=
    {| users := users db;
       refresh_tokens :=
         RefreshTokenRepository.update_isActive_false
           (RefreshTokenRepository.byToken token) (refresh_tokens db) |} in
  AuthService.refreshToken env {| RefreshTokenDto.refreshToken := token |} db
  = (Throw (AppError "Refresh token expired" 401), db1)
  /\ Known token db1
  /\ Revoked token db1
  /\ forall env' : Env.t,
       AuthService.refreshToken env'
         {| RefreshTokenDto.refreshToken := token |} db1
       = (Throw (AppError "Invalid refresh token" 401), db1).
Proof.
  intros Hfind Hexpired db1.
  assert (Hrev : Revoked token db1) by apply update_byToken_revokes.
  pose proof (findByToken_text _ _ _ _ Hfind) as Htext.
  split; [| split; [| split]].
  - unfold AuthService.refreshToken, AuthService.verifyRefreshToken, bind.
    cbn [RefreshTokenDto.refreshToken].
    rewrite Hfind, Hexpired, (revokeToken_accepted _ _ Htext). reflexivity.
  - apply findByToken_some in Hfind as (Hin & Htok & _).
    exists (RefreshToken.deactivate (RefreshToken.row l)). split; [| exact Htok].
    cbn. unfold RefreshTokenRepository.update_isActive_false.
    apply in_map_iff. exists (RefreshToken.row l). split; [| exact Hin].
    apply byToken_true in Htok. rewrite Htok. reflexivity.
  - exact Hrev.
  - intros env'. apply refresh_revoked; [exact Htext | exact Hrev].
Qed.

(** Jane's stale session on the sample database. *)
Lemma refresh_expired_deactivates_witness :
  fst (AuthService.refreshToken sampleEnv
         {| RefreshTokenDto.refreshToken := "stale" |} sampleDb)
  = Throw (AppError "Refresh token expired" 401).
Proof.
  rewrite (proj1 (refresh_expired_deactivates sampleEnv "stale" sampleDb
                    (RefreshTokenRepository.load sampleDb
                       (session "stale" "u-1" 1700000000000 true))
                    eq_refl eq_refl)).
  reflexivity.
Defined.

(** The branch that reports a revoked token is never taken: the store
    hands over active rows only. *)
Lemma revoked_branch_unreachable {P : Platform} (env : Env.t) (token : string)
  (db : Database) :
  fst (AuthService.verifyRefreshToken env token db)
  <> Throw (AppError "Refresh token has been revoked" 401).
Proof.
  unfold AuthService.verifyRefreshToken, bind.
  destruct (acceptsText token) eqn:Htext.
  - rewrite (findByToken_accepted _ _ Htext).
    destruct (find _ _) as [r |] eqn:Hfind; cbn [option_map]; [| cbn; discriminate].
    apply find_some in Hfind as [_ Hact].
    apply activeByToken_true in Hact as (_ & Hactive & _).
    cbn [RefreshToken.row RefreshTokenRepository.load].
    destruct (date_lt _ _).
    + rewrite (revokeToken_accepted _ _ Htext). cbn. discriminate.
    + rewrite Hactive. cbn [negb].
      destruct (RefreshToken.user _) as [u |]; [| cbn; discriminate].
      destruct (User.isActive u); cbn; discriminate.
  - unfold RefreshTokenRepository.findByToken. rewrite Htext. cbn. discriminate.
Qed.

(** C4. A session that is stored but flagged inactive: refreshing with
    Jane's revoked token answers [AppError('Invalid refresh token', 401)],
    the answer given for a token that no row carries, and not
    [AppError('Refresh token has been revoked', 401)]. *)
Theorem refresh_revoked_reports_invalid :
  Known "gone" sampleDb
  /\ Revoked "gone" sampleDb
  /\ AuthService.refreshToken sampleEnv
       {| RefreshTokenDto.refreshToken := "gone" |} sampleDb
     = (Throw (AppError "Invalid refresh token" 401), sampleDb)
  /\ AuthService.refreshToken sampleEnv
       {| RefreshTokenDto.refreshToken := "never-issued" |} sampleDb
     = (Throw (AppError "Invalid refresh token" 401), sampleDb).
Proof.
  split; [| split; [| split]].
  - exists (session "gone" "u-1" 1800000000000 false).
    split; [cbn; tauto | reflexivity].
  - intros r Hin Htok. cbn in Hin.
    destruct Hin as [<- | [<- | [<- | [<- | []]]]];
      cbn in Htok; try discriminate; reflexivity.
  - reflexivity.
  - reflexivity.
Qed.

(** ** Login and register *)

Lemma findByEmail_some (email : string) (db : Database) (u : User.t) :
  UserRepository.findByEmail email db = (Return (Some u), db) ->
  In u (users db) /\ User.email u = email /\ User.deletedAt u = None.
Proof.
  unfold UserRepository.findByEmail. intros Heq.
  injection Heq as Hfind.
  apply find_some in Hfind as [Hin Hby].
  unfold UserRepository.byEmail, isNull in Hby.
  apply andb_true_iff in Hby as [Hemail Hdel].
  apply String.eqb_eq in Hemail.
  destruct (User.deletedAt u); [discriminate | auto].
Qed.

(** A stored, not soft-deleted user with the e-mail makes the lookup
    succeed. *)
Lemma findByEmail_finds (email : string) (db : Database) (u : User.t) :
  In u (users db) -> User.email u = email -> User.deletedAt u = None ->
  exists u', UserRepository.findByEmail email db = (Return (Some u'), db).
Proof.
  intros Hin Hemail Hdel. unfold UserRepository.findByEmail.
  destruct (find (UserRepository.byEmail email) (users db)) as [u' |] eqn:Hfind.
  - exists u'. reflexivity.
  - exfalso. pose proof (find_none _ _ Hfind u Hin) as Hno.
    unfold UserRepository.byEmail, isNull in Hno.
    rewrite Hdel, andb_true_r in Hno.
    apply String.eqb_neq in Hno. contradiction.
Qed.

(** The amended C5. With a registered e-mail whose account is active and a
    password that [bcrypt.compare] rejects, and with an e-mail that the
    lookup does not find, [login] gives the same answer,
    [AppError('Invalid email or password', 401)], and leaves the database
    as it was. *)
Theorem login_failures_indistinguishable {P : Platform} (env1 env2 : Env.t)
  (db : Database) (u : User.t) (attempt1 attempt2 : LoginDto.t)
  (ua1 ip1 ua2 ip2 : option string) :
  UserRepository.findByEmail (LoginDto.email attempt1) db
  = (Return (Some u), db) ->
  User.isActive u = true ->
  bcrypt_compare (LoginDto.password attempt1) (User.password u) = false ->
  UserRepository.findByEmail (LoginDto.email attempt2) db = (Return None, db) ->
  AuthService.login env1 attempt1 ua1 ip1 db
  = (Throw (AppError "Invalid email or password" 401), db)
  /\ AuthService.login env2 attempt2 ua2 ip2 db
     = (Throw (AppError "Invalid email or password" 401), db).
Proof.
  intros Hknown Hactive Hwrong Hunknown.
  unfold AuthService.login, AuthService.comparePassword, bind.
  rewrite Hknown, Hunknown, Hactive, Hwrong. split; reflexivity.
Qed.

(** Jane with a wrong password against an unregistered address. *)
Lemma login_failures_indistinguishable_witness :
  AuthService.login sampleEnv
    {| LoginDto.email := "jane@x.com"; LoginDto.password := "wrong" |}
    None None sampleDb
  = AuthService.login sampleEnv
      {| LoginDto.email := "nobody@x.com"; LoginDto.password := "wrong" |}
      None None sampleDb.
Proof.
  destruct (login_failures_indistinguishable (P := sample)
              sampleEnv sampleEnv sampleDb jane
              {| LoginDto.email := "jane@x.com"; LoginDto.password := "wrong" |}
              {| LoginDto.email := "nobody@x.com"; LoginDto.password := "wrong" |}
              None None None None eq_refl eq_refl eq_refl eq_refl)
    as [-> ->].
  reflexivity.
Defined.

(** C5 as stated fails for a stored user whose account is inactive: Bob's
    address with a wrong password is answered
    [AppError('Account is deactivated', 403)], an unregistered address
    [AppError('Invalid email or password', 401)]. *)
Lemma login_inactive_account_distinguishable :
  In bob (users sampleDb)
  /\ bcrypt_compare "wrong" (User.password bob) = false
  /\ UserRepository.findByEmail "nobody@x.com" sampleDb = (Return None, sampleDb)
  /\ fst (AuthService.login sampleEnv
            {| LoginDto.email := User.email bob; LoginDto.password := "wrong" |}
            None None sampleDb)
     = Throw (AppError "Account is deactivated" 403)
  /\ fst (AuthService.login sampleEnv
            {| LoginDto.email := "nobody@x.com"; LoginDto.password := "wrong" |}
            None None sampleDb)
     = Throw (AppError "Invalid email or password" 401)
  /\ fst (AuthService.login sampleEnv
            {| LoginDto.email := User.email bob; LoginDto.password := "wrong" |}
            None None sampleDb)
     <> fst (AuthService.login sampleEnv
               {| LoginDto.email := "nobody@x.com"; LoginDto.password := "wrong" |}
               None None sampleDb).
Proof.
  repeat split; try reflexivity.
  - cbn. tauto.
  - vm_compute. discriminate.
Qed.

(** What [createRefreshToken] has checked and written when it returns:
    the row can be stored and its token is new. *)
Lemma createRefreshToken_return {P : Platform} env userId ua ip db token db1 :
  AuthService.createRefreshToken env userId ua ip db = (Return token, db1) ->
  token = Env.randomBytes env
  /\ RefreshTokenRepository.storable (issued env token userId ua ip) = true
  /\ existsb (RefreshTokenRepository.byToken token) (refresh_tokens db) = false
  /\ db1 = {| users := users db;
              refresh_tokens :=
                (refresh_tokens db ++ [issued env token userId ua ip])%list |}.
Proof.
  unfold AuthService.createRefreshToken, AuthService.generateRefreshToken. async.
  cbn [RefreshToken.token]. fold (issued env (Env.randomBytes env) userId ua ip).
  destruct (RefreshTokenRepository.storable _) eqn:Hstorable; cbn [negb];
    [| discriminate].
  destruct (existsb _ _) eqn:Hdup; [discriminate |].
  intros Heq. injection Heq as <- <-. auto.
Qed.

(** When the row can be stored and the token is new, it returns. *)
Lemma createRefreshToken_stores {P : Platform} env userId ua ip db :
  RefreshTokenRepository.storable
    (issued env (Env.randomBytes env) userId ua ip) = true ->
  existsb (RefreshTokenRepository.byToken (Env.randomBytes env))
    (refresh_tokens db) = false ->
  AuthService.createRefreshToken env userId ua ip db
  = (Return (Env.randomBytes env),
     {| users := users db;
        refresh_tokens :=
          (refresh_tokens db
           ++ [issued env (Env.randomBytes env) userId ua ip])%list |}).
Proof.
  intros Hstorable Hnew.
  unfold AuthService.createRefreshToken, AuthService.generateRefreshToken. async.
  cbn [RefreshToken.token]. fold (issued env (Env.randomBytes env) userId ua ip).
  rewrite Hstorable, Hnew. reflexivity.
Qed.

(** When it throws, the insert was refused and nothing is written. *)
Lemma createRefreshToken_throws {P : Platform} env userId ua ip db e db1 :
  AuthService.createRefreshToken env userId ua ip db = (Throw e, db1) ->
  db1 = db /\ exists message, e = QueryFailedError message.
Proof.
  unfold AuthService.createRefreshToken, AuthService.generateRefreshToken. async.
  destruct (RefreshTokenRepository.storable _); cbn [negb].
  - destruct (existsb _ _); [| discriminate].
    intros Heq. injection Heq as <- <-. split; [reflexivity | eexists; reflexivity].
  - intros Heq. injection Heq as <- <-. split; [reflexivity | eexists; reflexivity].
Qed.

Lemma login_inversion {P : Platform} env data ua ip db response db1 :
  AuthService.login env data ua ip db = (Return response, db1) ->
  exists u : User.t,
    UserRepository.findByEmail (LoginDto.email data) db = (Return (Some u), db)
    /\ User.isActive u = true
    /\ bcrypt_compare (LoginDto.password data) (User.password u) = true
    /\ RefreshTokenRepository.storable
         (issued env (Env.randomBytes env) (User.id u) ua ip) = true
    /\ existsb (RefreshTokenRepository.byToken (Env.randomBytes env))
         (refresh_tokens db) = false
    /\ response
       = {| AuthResponse.token := AuthService.generateAccessToken env (claimsOf u);
            AuthResponse.refreshToken := Env.randomBytes env;
            AuthResponse.user :=
              {| PublicUser.id := User.id u; PublicUser.name := User.name u;
                 PublicUser.email := User.email u;
                 PublicUser.role := User.role u |} |}
    /\ db1 = {| users := users db;
                refresh_tokens :=
                  (refresh_tokens db
                   ++ [issued env (Env.randomBytes env) (User.id u) ua ip])%list |}.
Proof.
  unfold AuthService.login, AuthService.comparePassword, bind.
  unfold UserRepository.findByEmail at 1.
  destruct (find _ _) as [u |] eqn:Hfind; [| discriminate].
  destruct (User.isActive u) eqn:Hactive; cbn [negb]; [| discriminate].
  destruct (bcrypt_compare _ _) eqn:Hpw; cbn [negb]; [| discriminate].
  destruct (AuthService.createRefreshToken env (User.id u) ua ip db)
    as [[token | e] db2] eqn:Hcreate; [| discriminate].
  apply createRefreshToken_return in Hcreate as (-> & Hstorable & Hdup & ->).
  unfold ret. intros Heq. injection Heq as <- <-.
  exists u. unfold UserRepository.findByEmail. rewrite Hfind.
  repeat split; assumption.
Qed.

Lemma register_inversion {P : Platform} env data ua ip db response db1 :
  AuthService.register env data ua ip db = (Return response, db1) ->
  let user :=
    {| User.id := Env.uuid env;
       User.name := RegisterDto.name data;
       User.email := RegisterDto.email data;
       User.password := bcrypt_hash (RegisterDto.password data) (Env.genSalt env);
       User.role := match RegisterDto.role data with
                    | Some r => r
                    | None => USER
                    end;
       User.isActive := true;
       User.deletedAt := None |} in
  find (UserRepository.byEmail (RegisterDto.email data)) (users db) = None
  /\ UserRepository.emailTaken (RegisterDto.email data) (users db) = false
  /\ RefreshTokenRepository.storable
       (issued env (Env.randomBytes env) (Env.uuid env) ua ip) = true
  /\ existsb (RefreshTokenRepository.byToken (Env.randomBytes env))
       (refresh_tokens db) = false
  /\ response
     = {| AuthResponse.token := AuthService.generateAccessToken env (claimsOf user);
          AuthResponse.refreshToken := Env.randomBytes env;
          AuthResponse.user :=
            {| PublicUser.id := User.id user; PublicUser.name := User.name user;
               PublicUser.email := User.email user;
               PublicUser.role := User.role user |} |}
  /\ db1 = {| users := (users db ++ [user])%list;
              refresh_tokens :=
                (refresh_tokens db
                 ++ [issued env (Env.randomBytes env) (Env.uuid env) ua ip])%list |}.
Proof.
  unfold AuthService.register, AuthService.hashPassword, bind.
  unfold UserRepository.findByEmail at 1, UserRepository.create at 1,
    invalidByteSequence, throw.
  destruct (find _ _) as [u |] eqn:Hfind; [discriminate |].
  cbn [users refresh_tokens].
  destruct (negb _); [discriminate |].
  destruct (UserRepository.emailTaken _ _) eqn:Htaken; [discriminate |].
  cbn [User.id].
  match goal with
  | |- context [AuthService.createRefreshToken env ?uid ua ip ?db'] =>
      destruct (AuthService.createRefreshToken env uid ua ip db')
        as [[token | e] db2] eqn:Hcreate; [| discriminate]
  end.
  apply createRefreshToken_return in Hcreate as (-> & Hstorable & Hdup & ->).
  cbn [users refresh_tokens] in *.
  unfold ret. intros Heq. injection Heq as <- <-. cbn.
  repeat split; assumption.
Qed.

(** After [register] has returned, the e-mail it was given is found. *)
Lemma register_return_findByEmail {P : Platform} (env : Env.t)
  (data : RegisterDto.t) (ua ip : option string) (db db1 : Database)
  (response : AuthResponse.t) :
  AuthService.register env data ua ip db = (Return response, db1) ->
  exists u,
    UserRepository.findByEmail (RegisterDto.email data) db1
    = (Return (Some u), db1)
    /\ User.id u = PublicUser.id (AuthResponse.user response)
    /\ User.email u = RegisterDto.email data.
Proof.
  intros Hregister.
  apply register_inversion in Hregister as (Hnone & _ & _ & _ & -> & ->).
  unfold UserRepository.findByEmail. cbn [users].
  rewrite (find_app_none _ _ _ Hnone). cbn.
  unfold UserRepository.byEmail at 1. cbn.
  rewrite String.eqb_refl. cbn.
  eexists. repeat split.
Qed.

(** C6. Registering an e-mail that a stored, not soft-deleted user
    already has throws [AppError('User with this email already exists',
    409)] and leaves the users and the sessions as they were; hence, of
    two [register] calls made one after the other with the same e-mail,
    the second throws that error whenever the first returned. *)
Theorem register_conflict {P : Platform} (db : Database) :
  (forall (env : Env.t) (data : RegisterDto.t) (ua ip : option string)
          (existing : User.t),
      In existing (users db) ->
      User.email existing = RegisterDto.email data ->
      User.deletedAt existing = None ->
      AuthService.register env data ua ip db
      = (Throw (AppError "User with this email already exists" 409), db))
  /\ (forall (env1 env2 : Env.t) (data1 data2 : RegisterDto.t)
             (ua1 ip1 ua2 ip2 : option string) (response : AuthResponse.t)
             (db1 : Database),
         RegisterDto.email data1 = RegisterDto.email data2 ->
         AuthService.register env1 data1 ua1 ip1 db = (Return response, db1) ->
         AuthService.register env2 data2 ua2 ip2 db1
         = (Throw (AppError "User with this email already exists" 409), db1)).
Proof.
  assert (Hconflict :
            forall env data ua ip db0 u,
              UserRepository.findByEmail (RegisterDto.email data) db0
              = (Return (Some u), db0) ->
              AuthService.register env data ua ip db0
              = (Throw (AppError "User with this email already exists" 409), db0)).
  { intros env data ua ip db0 u Hfound.
    unfold AuthService.register, bind. rewrite Hfound. reflexivity. }
  split.
  - intros env data ua ip existing Hin Hemail Hdel.
    destruct (findByEmail_finds _ _ _ Hin Hemail Hdel) as [u Hfound].
    eapply Hconflict, Hfound.
  - intros env1 env2 data1 data2 ua1 ip1 ua2 ip2 response db1 Hsame Hfirst.
    destruct (register_return_findByEmail _ _ _ _ _ _ _ Hfirst)
      as (u & Hfound & _).
    rewrite Hsame in Hfound. eapply Hconflict, Hfound.
Qed.

(** Registering Jane's address again on the sample database. *)
Lemma register_conflict_witness :
  AuthService.register sampleEnv
    {| RegisterDto.name := "Jane II"; RegisterDto.email := "jane@x.com";
       RegisterDto.password := "secret2"; RegisterDto.role := None |}
    None None sampleDb
  = (Throw (AppError "User with this email already exists" 409), sampleDb).
Proof.
  apply (proj1 (register_conflict sampleDb)) with (existing := jane).
  - cbn. tauto.
  - reflexivity.
  - reflexivity.
Defined.

(** Once Jane is soft-deleted the lookup no longer sees her e-mail, and
    a registration under it gets as far as the insert, which the unique
    column refuses. *)
Example register_over_soft_deleted :
  AuthService.register sampleEnv
    {| RegisterDto.name := "Jane II"; RegisterDto.email := "jane@x.com";
       RegisterDto.password := "secret2"; RegisterDto.role := None |}
    None None (exec (UserRepository.delete 1793577600000 "u-1") sampleDb)
  = (Throw (QueryFailedError "duplicate key value violates unique constraint"),
     exec (UserRepository.delete 1793577600000 "u-1") sampleDb).
Proof. reflexivity. Qed.

(** ** Logout and logout-all *)

Lemma Evolves_refl drawn rows : Evolves drawn rows rows.
Proof.
  exists (fun r => r). split; [auto |]. left. symmetry. apply map_id.
Qed.

Lemma Evolves_update drawn c rows :
  Evolves drawn rows (RefreshTokenRepository.update_isActive_false c rows).
Proof.
  exists (fun r => if c r then RefreshToken.deactivate r else r). split.
  - intros r. destruct (c r); auto.
  - left. reflexivity.
Qed.

Lemma createRefreshToken_evolves {P : Platform} env userId ua ip db :
  users (exec (AuthService.createRefreshToken env userId ua ip) db) = users db
  /\ Evolves (Env.randomBytes env) (refresh_tokens db)
       (refresh_tokens (exec (AuthService.createRefreshToken env userId ua ip) db)).
Proof.
  unfold exec.
  destruct (AuthService.createRefreshToken env userId ua ip db)
    as [[token | e] db1] eqn:Hcreate; cbn [snd].
  - apply createRefreshToken_return in Hcreate as (-> & _ & Hdup & ->).
    cbn [users refresh_tokens]. split; [reflexivity |].
    exists (fun r => r). split; [auto |]. right.
    eexists. rewrite map_id. split; [reflexivity |]. split; [reflexivity | exact Hdup].
  - apply createRefreshToken_throws in Hcreate as [-> _].
    split; [reflexivity | apply Evolves_refl].
Qed.

Lemma serve_evolves {P : Platform} (env : Env.t) (rq : Request) (db : Database) :
  Evolves (Env.randomBytes env) (refresh_tokens db)
    (refresh_tokens (serve env rq db)).
Proof.
  destruct rq as [data ua ip | data ua ip | data | token | userId]; cbn [serve].
  - unfold AuthService.register, exec, bind.
    unfold UserRepository.findByEmail at 1, UserRepository.create at 1.
    destruct (find _ _); cbn; [apply Evolves_refl |].
    destruct (negb _); cbn; [apply Evolves_refl |].
    destruct (UserRepository.emailTaken _ _); cbn; [apply Evolves_refl |].
    match goal with
    | |- context [AuthService.createRefreshToken env ?uid ua ip ?db'] =>
        pose proof (createRefreshToken_evolves env uid ua ip db') as [_ Hev];
        unfold exec in Hev;
        destruct (AuthService.createRefreshToken env uid ua ip db')
          as [[tok | e] db2]
    end; exact Hev.
  - unfold AuthService.login, exec, bind.
    unfold UserRepository.findByEmail at 1.
    destruct (find _ _) as [u |]; cbn; [| apply Evolves_refl].
    destruct (User.isActive u); cbn; [| apply Evolves_refl].
    destruct (AuthService.comparePassword _ _); cbn; [| apply Evolves_refl].
    pose proof (createRefreshToken_evolves env (User.id u) ua ip db) as [_ Hev].
    unfold exec in Hev.
    destruct (AuthService.createRefreshToken env (User.id u) ua ip db)
      as [[tok | e] db2]; exact Hev.
  - unfold AuthService.refreshToken, AuthService.verifyRefreshToken, exec, bind.
    unfold RefreshTokenRepository.findByToken, RefreshTokenRepository.revokeToken.
    destruct (acceptsText _); cbn; [| apply Evolves_refl].
    destruct (find _ _) as [r |]; cbn; [| apply Evolves_refl].
    destruct (date_lt _ _); cbn; [apply Evolves_update |].
    destruct (RefreshToken.isActive r); cbn; [| apply Evolves_refl].
    destruct (find _ _) as [u |]; cbn; [| apply Evolves_refl].
    destruct (User.isActive u); cbn; apply Evolves_refl.
  - unfold AuthService.revokeRefreshToken, RefreshTokenRepository.revokeToken,
      exec.
    destruct (acceptsText token); cbn; [apply Evolves_update | apply Evolves_refl].
  - apply Evolves_update.
Qed.

(** A token that is revoked stays revoked as long as it is known or not
    drawn again. *)
Lemma Evolves_revoked (t drawn : string) (db db' : Database) :
  Evolves drawn (refresh_tokens db) (refresh_tokens db') ->
  Revoked t db -> Known t db \/ drawn <> t -> Revoked t db'.
Proof.
  intros (f & Hf & Hshape) Hrev Hfresh r' Hin Htok.
  assert (Hmapped : forall r0, In r0 (map f (refresh_tokens db)) ->
                               RefreshToken.token r0 = t ->
                               RefreshToken.isActive r0 = false).
  { intros r0 Hin0 Htok0. apply in_map_iff in Hin0 as (r & <- & Hr).
    destruct (Hf r) as [Heq | Heq]; rewrite Heq in *; [| reflexivity].
    apply Hrev; assumption. }
  destruct Hshape as [Heq | (fresh & Heq & Hdrawn & Hnodup)];
    rewrite Heq in Hin.
  - apply Hmapped; assumption.
  - apply in_app_or in Hin as [Hin | [<- | []]]; [apply Hmapped; assumption |].
    exfalso. rewrite Hdrawn in Htok. subst drawn.
    destruct Hfresh as [(r & Hr & Hrt) | Hneq]; [| congruence].
    assert (Hex : existsb (RefreshTokenRepository.byToken t) (refresh_tokens db)
                  = true).
    { apply existsb_exists. exists r. split; [exact Hr |].
      now apply byToken_true. }
    congruence.
Qed.

Lemma Evolves_known (t drawn : string) (db db' : Database) :
  Evolves drawn (refresh_tokens db) (refresh_tokens db') ->
  Known t db -> Known t db'.
Proof.
  intros (f & Hf & Hshape) (r & Hin & Htok).
  exists (f r). split.
  - destruct Hshape as [-> | (fresh & -> & _)];
      [| apply in_or_app; left]; apply in_map; exact Hin.
  - destruct (Hf r) as [-> | ->]; exact Htok.
Qed.

Lemma run_revoked {P : Platform} (t : string) (trace : list (Env.t * Request)) :
  forall db : Database,
    Revoked t db ->
    Known t db \/ Forall (fun step => ~ draws t step) trace ->
    Revoked t (run trace db).
Proof.
  induction trace as [| [env rq] rest IH]; intros db Hrev Hfresh; cbn [run].
  - exact Hrev.
  - pose proof (serve_evolves env rq db) as Hev.
    apply IH.
    + eapply Evolves_revoked; [exact Hev | exact Hrev |].
      destruct Hfresh as [Hk | Hall]; [left; exact Hk |].
      right. inversion Hall as [| step rest' Hstep Hrest]; subst.
      exact Hstep.
    + destruct Hfresh as [Hk | Hall].
      * left. eapply Evolves_known; eassumption.
      * right. inversion Hall; assumption.
Qed.

Lemma nth_error_update c rows i :
  nth_error (RefreshTokenRepository.update_isActive_false c rows) i
  = option_map (fun r => if c r then RefreshToken.deactivate r else r)
      (nth_error rows i).
Proof.
  unfold RefreshTokenRepository.update_isActive_false. apply nth_error_map.
Qed.

(** The amended C7. For a token that the database accepts as text (no
    U+0000), [revokeRefreshToken(token)] returns for every database; it
    leaves the users alone and rewrites the sessions row by row,
    deactivating the rows that carry the token and keeping every other
    row as it is; doing it again changes nothing; and after it, whatever
    calls are served in between, a refresh with the token throws
    [AppError('Invalid refresh token', 401)], provided the token had a row
    or is not drawn again by the random generator. *)
Theorem logout_idempotent_and_final {P : Platform} (token : string)
  (db : Database) :
  acceptsText token = true ->
  let db1 := exec (AuthService.revokeRefreshToken token) db in
  (exists changed,
      AuthService.revokeRefreshToken token db = (Return changed, db1))
  /\ users db1 = users db
  /\ List.length (refresh_tokens db1) = List.length (refresh_tokens db)
  /\ (forall i r,
         nth_error (refresh_tokens db) i = Some r ->
         nth_error (refresh_tokens db1) i
         = Some (if (RefreshToken.token r =? token)%string
                 then RefreshToken.deactivate r else r))
  /\ (exists changed,
         AuthService.revokeRefreshToken token db1 = (Return changed, db1))
  /\ (forall (trace : list (Env.t * Request)) (env : Env.t),
         Known token db \/ Forall (fun step => ~ draws token step) trace ->
         AuthService.refreshToken env
           {| RefreshTokenDto.refreshToken := token |} (run trace db1)
         = (Throw (AppError "Invalid refresh token" 401), run trace db1)).
Proof.
  intros Htext db1. subst db1.
  unfold AuthService.revokeRefreshToken, exec.
  rewrite (revokeToken_accepted _ _ Htext).
  cbn [fst snd users refresh_tokens].
  pose proof (update_byToken_revokes token (refresh_tokens db) (users db)) as Hrev.
  split; [eexists; reflexivity |].
  split; [reflexivity |].
  split; [unfold RefreshTokenRepository.update_isActive_false; apply length_map |].
  split; [| split].
  - intros i r Hi. rewrite nth_error_update, Hi. reflexivity.
  - rewrite (revokeToken_accepted _ _ Htext). cbn [users refresh_tokens].
    rewrite (update_fixes_revoked token
               (RefreshTokenRepository.update_isActive_false
                  (RefreshTokenRepository.byToken token) (refresh_tokens db)) Hrev).
    eexists. reflexivity.
  - intros trace env Hfresh. apply refresh_revoked; [exact Htext |].
    apply run_revoked; [exact Hrev |].
    destruct Hfresh as [Hk | Hall]; [left | right; exact Hall].
    eapply Evolves_known; [| exact Hk]. apply Evolves_update with (drawn := token).
Qed.

(** Logging out Jane's live session, then a login and a logout-all of Bob,
    then a refresh with the revoked token. *)
Lemma logout_idempotent_and_final_witness :
  fst (AuthService.refreshToken (sampleEnvAfter 60)
         {| RefreshTokenDto.refreshToken := "live" |}
         (run [(sampleEnv,
                Login {| LoginDto.email := "jane@x.com";
                         LoginDto.password := "secret1" |} None None);
               (sampleEnvAfter 30, LogoutAll "u-2")]
            (exec (AuthService.revokeRefreshToken "live") sampleDb)))
  = Throw (AppError "Invalid refresh token" 401).
Proof.
  destruct (logout_idempotent_and_final (P := sample) "live" sampleDb eq_refl)
    as (_ & _ & _ & _ & _ & Hfinal).
  rewrite Hfinal; [reflexivity |].
  left. exists (session "live" "u-1" 1800000000000 true).
  split; [cbn; tauto | reflexivity].
Defined.

(** C7 as stated fails twice.  A token that holds U+0000 passes the
    [notEmpty] validator of the logout route, the update is refused by the
    database and the route answers 500.  And a logout of a token that no
    row carries is not final: once a login has drawn that token for a new
    session, the refresh with it returns. *)
Lemma logout_errors_and_is_not_final :
  AuthRoutes.notEmpty nulToken = true
  /\ AuthService.revokeRefreshToken nulToken sampleDb
     = (Throw (QueryFailedError "invalid byte sequence for encoding UTF8: 0x00"),
        sampleDb)
  /\ AuthRoutes.logout (sampleEnvAfter 60) sampleParse (bearer "jane.jwt")
       {| RefreshTokenDto.refreshToken := nulToken |} sampleDb
     = (Throw (QueryFailedError "invalid byte sequence for encoding UTF8: 0x00"),
        sampleDb)
  /\ Reply.statusCode
       (ErrorHandler.errorHandler
          (QueryFailedError "invalid byte sequence for encoding UTF8: 0x00"))
     = 500
  /\ AuthService.revokeRefreshToken "c0ffee" sampleDb = (Return false, sampleDb)
  /\ fst (AuthService.refreshToken (sampleEnvAfter 5)
            {| RefreshTokenDto.refreshToken := "c0ffee" |}
            (run [(sampleEnv,
                   Login {| LoginDto.email := "jane@x.com";
                            LoginDto.password := "secret1" |} None None)]
               (exec (AuthService.revokeRefreshToken "c0ffee") sampleDb)))
     = Return {| RefreshTokenResponse.token :=
                   AuthService.generateAccessToken (sampleEnvAfter 5)
                     (claimsOf jane);
                 RefreshTokenResponse.refreshToken := "c0ffee" |}
  /\ fst (AuthService.revokeRefreshToken nulToken sampleDb)
     <> Return true
  /\ fst (AuthService.revokeRefreshToken nulToken sampleDb)
     <> Return false.
Proof.
  repeat split; try reflexivity; vm_compute; discriminate.
Qed.

(** C8. [revokeAllUserTokens(userId)] returns, leaves the users alone and
    rewrites the sessions row by row: a row owned by [userId] ends up
    inactive, a row owned by anybody else is kept as it is, and so is a
    row that was inactive already. *)
Theorem logoutAll_frame (userId : string) (db : Database) :
  let db1 := exec (AuthService.revokeAllUserTokens userId) db in
  (exists changed,
      AuthService.revokeAllUserTokens userId db = (Return changed, db1))
  /\ users db1 = users db
  /\ List.length (refresh_tokens db1) = List.length (refresh_tokens db)
  /\ (forall i r,
         nth_error (refresh_tokens db) i = Some r ->
         exists r',
           nth_error (refresh_tokens db1) i = Some r'
           /\ (r' = r \/ r' = RefreshToken.deactivate r)
           /\ (RefreshToken.userId r = userId ->
               RefreshToken.isActive r' = false)
           /\ (RefreshToken.userId r <> userId -> r' = r)
           /\ (RefreshToken.isActive r = false -> r' = r)).
Proof.
  intros db1. subst db1.
  unfold AuthService.revokeAllUserTokens,
    RefreshTokenRepository.revokeAllUserTokens, exec.
  cbn [fst snd users refresh_tokens].
  split; [eexists; reflexivity |].
  split; [reflexivity |].
  split; [unfold RefreshTokenRepository.update_isActive_false; apply length_map |].
  intros i r Hi. rewrite nth_error_update, Hi. cbn [option_map].
  eexists. split; [reflexivity |].
  unfold RefreshTokenRepository.activeByUserId.
  destruct (String.eqb_spec (RefreshToken.userId r) userId) as [Hown | Hother];
    destruct (RefreshToken.isActive r) eqn:Hact; cbn [andb];
    repeat split; auto; try congruence; intros; congruence.
Qed.

(** Logging Jane out everywhere on the sample database: her live session
    (row 0) ends up inactive, Bob's session (row 3) is kept. *)
Lemma logoutAll_frame_witness :
  (exists r',
      nth_error (refresh_tokens
                   (exec (AuthService.revokeAllUserTokens "u-1") sampleDb)) 0
      = Some r'
      /\ RefreshToken.isActive r' = false)
  /\ nth_error (refresh_tokens
                  (exec (AuthService.revokeAllUserTokens "u-1") sampleDb)) 3
     = Some (session "bobs" "u-2" 1800000000000 true).
Proof.
  destruct (logoutAll_frame "u-1" sampleDb) as (_ & _ & _ & Hrows).
  split.
  - destruct (Hrows 0%nat (session "live" "u-1" 1800000000000 true) eq_refl)
      as (r' & Hnth & _ & Hown & _).
    exists r'. split; [exact Hnth | apply Hown; reflexivity].
  - destruct (Hrows 3%nat (session "bobs" "u-2" 1800000000000 true) eq_refl)
      as (r' & Hnth & _ & _ & Hother & _).
    rewrite Hnth. f_equal. apply Hother. cbn. discriminate.
Defined.

(** ** Expiry of a new session *)

Lemma getRefreshTokenExpiration_days {P : Platform} (env : Env.t) :
  AuthService.getRefreshTokenExpiration env
  = match parseInt (replace "d" ""
                      (JwtConfig.refreshExpiresIn (Config.jwt config))) with
    | Int n =>
        TimeClip (UTC LocalTZA DaylightSavingTA
                    (LocalTime LocalTZA DaylightSavingTA (Env.now env)
                     + n * msPerDay))
    | NaN => InvalidDate
    end.
Proof.
  unfold AuthService.getRefreshTokenExpiration.
  destruct (parseInt _) as [| n].
  - reflexivity.
  - apply setDate_getDate.
Qed.

(** The same local time of day [n] days later, in universal time. *)
Lemma local_days_later {P : Platform} (t n : Z) :
  UTC LocalTZA DaylightSavingTA
    (LocalTime LocalTZA DaylightSavingTA t + n * msPerDay)
  = t + n * 86400000 + DaylightSavingTA t
    - DaylightSavingTA (t + DaylightSavingTA t + n * 86400000).
Proof. rewrite UTC_LocalTime_plus. unfold msPerDay. reflexivity. Qed.

Lemma local_days_later_bounds {P : Platform} (t n : Z) :
  t + (n - 1) * 86400000
  < t + n * 86400000 + DaylightSavingTA t
    - DaylightSavingTA (t + DaylightSavingTA t + n * 86400000)
  < t + (n + 1) * 86400000.
Proof.
  pose proof (DaylightSavingTA_range t) as H0.
  pose proof (DaylightSavingTA_range (t + DaylightSavingTA t + n * 86400000))
    as H1.
  unfold msPerDay in *. lia.
Qed.

Lemma expiry_of_parse {P : Platform} (env : Env.t) (n : Z) :
  parseInt (replace "d" "" (JwtConfig.refreshExpiresIn (Config.jwt config)))
  = Int n ->
  AuthService.getRefreshTokenExpiration env
  = TimeClip (Env.now env + n * 86400000 + DaylightSavingTA (Env.now env)
              - DaylightSavingTA
                  (Env.now env + DaylightSavingTA (Env.now env) + n * 86400000)).
Proof.
  intros Hparse.
  rewrite getRefreshTokenExpiration_days, Hparse, local_days_later.
  reflexivity.
Qed.


(** A row that the table holds has a valid expiry. *)
Lemma stored_expiry {P : Platform} env token userId ua ip :
  RefreshTokenRepository.storable (issued env token userId ua ip) = true ->
  exists x, AuthService.getRefreshTokenExpiration env = TimeValue x.
Proof.
  unfold RefreshTokenRepository.storable, issued.
  cbn [RefreshToken.token RefreshToken.expiresAt RefreshToken.userAgent
       RefreshToken.ipAddress].
  destruct (AuthService.getRefreshTokenExpiration env) as [| x].
  - rewrite andb_false_r. discriminate.
  - intros _. exists x. reflexivity.
Qed.


Lemma login_return {P : Platform} env data ua ip db response db1 :
  AuthService.login env data ua ip db = (Return response, db1) ->
  users db1 = users db
  /\ refresh_tokens db1
     = (refresh_tokens db
        ++ [issued env (AuthResponse.refreshToken response)
              (PublicUser.id (AuthResponse.user response)) ua ip])%list
  /\ exists x, AuthService.getRefreshTokenExpiration env = TimeValue x.
Proof.
  intros Hlogin.
  apply login_inversion in Hlogin
    as (u & _ & _ & _ & Hstorable & _ & -> & ->).
  apply stored_expiry in Hstorable. cbn. auto.
Qed.




Example expiry_30d :
  AuthService.getRefreshTokenExpiration (P := samplePlatform "30d") sampleEnv
  = TimeValue 1796169600000.
Proof. reflexivity. Qed.

(** Across the end of daylight saving one day is twenty-five hours. *)
Example expiry_1d_daylight_saving :
  AuthService.getRefreshTokenExpiration (P := daylightPlatform "1d") sampleEnv
  = TimeValue (Env.now sampleEnv + 25 * 3600000).
Proof. reflexivity. Qed.

Example expiry_unparsable :
  AuthService.getRefreshTokenExpiration (P := samplePlatform "two weeks") sampleEnv
  = InvalidDate.
Proof. reflexivity. Qed.

Example expiry_out_of_range :
  AuthService.getRefreshTokenExpiration (P := samplePlatform "100000000d") sampleEnv
  = InvalidDate.
Proof. reflexivity. Qed.

(** With an unparsable TTL no session can be stored: Jane's login with
    the right password fails in the database. *)
Example login_unparsable_ttl :
  AuthService.login (P := samplePlatform "two weeks") sampleEnv
    {| LoginDto.email := "jane@x.com"; LoginDto.password := "secret1" |}
    None None sampleDb
  = (Throw (QueryFailedError "invalid input value for a column"), sampleDb).
Proof. reflexivity. Qed.

(** ** E-mail normalization *)

Lemma sample_case_insensitive : CaseInsensitiveEmail sample.
Proof. intros a b Hab. exact Hab. Qed.

(** The repository compares e-mails exactly. *)
Lemma findByEmail_exact (email : string) (db : Database) (u : User.t) :
  UserRepository.findByEmail email db = (Return (Some u), db) ->
  User.email u = email.
Proof. intros Hfound. apply findByEmail_some in Hfound. tauto. Qed.

Example findByEmail_other_case :
  UserRepository.findByEmail "jane@x.com" sampleDb = (Return (Some jane), sampleDb)
  /\ UserRepository.findByEmail "Jane@X.com" sampleDb = (Return None, sampleDb).
Proof. split; reflexivity. Qed.

(** What the register route hands to the service. *)
Lemma route_register_return {P : Platform} env body ua ip db response db1 :
  AuthRoutes.register env body ua ip db = (Return response, db1) ->
  AuthService.register env
    {| RegisterDto.name := trim (RegisterDto.name body);
       RegisterDto.email := normalizeEmail (trim (RegisterDto.email body));
       RegisterDto.password := RegisterDto.password body;
       RegisterDto.role := RegisterDto.role body |} ua ip db
  = (Return response, db1).
Proof.
  unfold AuthRoutes.register, AuthRoutes.nameChain, AuthRoutes.emailChain.
  destruct (AuthRoutes.validateRequest _) as [[] | e]; [trivial | discriminate].
Qed.

(** The row that a [register] which returned has stored is the one the
    lookup by its e-mail finds. *)
Lemma register_return_user {P : Platform} env data ua ip db response db1 :
  AuthService.register env data ua ip db = (Return response, db1) ->
  exists u : User.t,
    UserRepository.findByEmail (RegisterDto.email data) db1
    = (Return (Some u), db1)
    /\ User.id u = PublicUser.id (AuthResponse.user response)
    /\ User.email u = RegisterDto.email data
    /\ User.isActive u = true
    /\ User.password u
       = bcrypt_hash (RegisterDto.password data) (Env.genSalt env)
    /\ AuthResponse.user response
       = {| PublicUser.id := User.id u; PublicUser.name := User.name u;
            PublicUser.email := User.email u;
            PublicUser.role := User.role u |}.
Proof.
  intros Hregister.
  apply register_inversion in Hregister as (Hnone & _ & _ & _ & -> & ->).
  unfold UserRepository.findByEmail. cbn [users].
  rewrite (find_app_none _ _ _ Hnone). cbn [find].
  unfold UserRepository.byEmail at 1. cbn [User.email User.deletedAt isNull].
  rewrite String.eqb_refl. cbn [andb].
  eexists. repeat split.
Qed.

(** What the login route hands to the service. *)
Lemma route_login_valid {P : Platform} env body ua ip db :
  snd (AuthRoutes.emailChain (LoginDto.email body)) = [] ->
  AuthRoutes.notEmpty (LoginDto.password body) = true ->
  AuthRoutes.login env body ua ip db
  = AuthService.login env
      {| LoginDto.email := normalizeEmail (trim (LoginDto.email body));
         LoginDto.password := LoginDto.password body |} ua ip db.
Proof.
  unfold AuthRoutes.login, AuthRoutes.emailChain. cbn [snd].
  intros -> ->. reflexivity.
Qed.

(** C9. The register route stores the e-mail as normalized by its chain
    ([normalizeEmail] after [trim]); the repository compares e-mails
    exactly; and, the sanitizers being blind to letter case, the login
    route given any casing variant of the registered e-mail (one that its
    validators let through) looks up the stored e-mail and finds the user
    that was registered: with the password of the registration it returns
    that user's identity, with a password that [bcrypt.compare] rejects it
    answers 401 as the service does for the stored e-mail. *)
Theorem email_normalized_at_boundary {P : Platform} (env : Env.t)
  (body : RegisterDto.t) (ua ip : option string) (db db1 : Database)
  (response : AuthResponse.t) :
  CaseInsensitiveEmail P ->
  AuthRoutes.register env body ua ip db = (Return response, db1) ->
  exists u : User.t,
    In u (users db1)
    /\ User.id u = PublicUser.id (AuthResponse.user response)
    /\ User.email u = normalizeEmail (trim (RegisterDto.email body))
    /\ UserRepository.findByEmail (User.email u) db1 = (Return (Some u), db1)
    /\ (forall (env' : Env.t) (variant password : string)
               (ua' ip' : option string),
           toLowerCase variant = toLowerCase (RegisterDto.email body) ->
           snd (AuthRoutes.emailChain variant) = [] ->
           AuthRoutes.notEmpty password = true ->
           let attempt :=
             {| LoginDto.email := variant; LoginDto.password := password |} in
           AuthRoutes.login env' attempt ua' ip' db1
           = AuthService.login env'
               {| LoginDto.email := User.email u;
                  LoginDto.password := password |} ua' ip' db1
           /\ (bcrypt_compare password
                 (bcrypt_hash (RegisterDto.password body) (Env.genSalt env))
               = true ->
               RefreshTokenRepository.storable
                 (issued env' (Env.randomBytes env') (User.id u) ua' ip') = true ->
               existsb (RefreshTokenRepository.byToken (Env.randomBytes env'))
                 (refresh_tokens db1) = false ->
               exists response',
                 AuthRoutes.login env' attempt ua' ip' db1
                 = (Return response',
                    {| users := users db1;
                       refresh_tokens :=
                         (refresh_tokens db1
                          ++ [issued env' (Env.randomBytes env') (User.id u)
                                ua' ip'])%list |})
                 /\ AuthResponse.user response' = AuthResponse.user response)
           /\ (bcrypt_compare password
                 (bcrypt_hash (RegisterDto.password body) (Env.genSalt env))
               = false ->
               AuthRoutes.login env' attempt ua' ip' db1
               = (Throw (AppError "Invalid email or password" 401), db1)))
    /\ (forall (email : string) (found : User.t),
           UserRepository.findByEmail email db1 = (Return (Some found), db1) ->
           User.email found = email).
Proof.
  intros Hcase Hroute.
  apply route_register_return in Hroute.
  destruct (register_return_user _ _ _ _ _ _ _ Hroute)
    as (u & Hfound & Hid & Hemail & Hactive & Hpassword & Hpublic).
  cbn [RegisterDto.email RegisterDto.password] in Hfound, Hemail, Hpassword.
  exists u. split; [| split; [| split; [| split; [| split]]]].
  - apply findByEmail_some in Hfound. tauto.
  - exact Hid.
  - exact Hemail.
  - rewrite Hemail. exact Hfound.
  - intros env' variant password ua' ip' Hvariant Hvalid Hpw attempt.
    assert (Hlogin :
              AuthRoutes.login env' attempt ua' ip' db1
              = AuthService.login env'
                  {| LoginDto.email := User.email u;
                     LoginDto.password := password |} ua' ip' db1).
    { subst attempt. rewrite route_login_valid by assumption.
      cbn [LoginDto.email LoginDto.password].
      rewrite (Hcase _ _ Hvariant), Hemail. reflexivity. }
    split; [exact Hlogin |].
    rewrite Hlogin. rewrite <- Hemail in Hfound.
    unfold AuthService.login, AuthService.comparePassword, bind.
    cbn [LoginDto.email LoginDto.password].
    rewrite Hfound, Hactive, Hpassword. cbn [negb].
    split.
    + intros Hcompare Hstorable Hnew. rewrite Hcompare. cbn [negb].
      rewrite (createRefreshToken_stores _ _ _ _ _ Hstorable Hnew).
      eexists. split; [reflexivity |].
      cbn [AuthResponse.user]. symmetry. exact Hpublic.
    + intros Hcompare. rewrite Hcompare. reflexivity.
  - intros email found. apply findByEmail_exact.
Qed.

(** Carol registers as [Carol@X.com] and logs in as [CAROL@x.COM]. *)
Lemma email_normalized_at_boundary_witness :
  exists response',
    fst (AuthRoutes.login (sampleEnvAfter 5)
           {| LoginDto.email := "CAROL@x.COM"; LoginDto.password := "secret3" |}
           None None
           (exec (AuthRoutes.register sampleEnv
                    {| RegisterDto.name := "Carol";
                       RegisterDto.email := "Carol@X.com";
                       RegisterDto.password := "secret3";
                       RegisterDto.role := None |} None None) sampleDb))
    = Return response'
    /\ PublicUser.email (AuthResponse.user response') = "carol@x.com".
Proof.
  destruct (email_normalized_at_boundary (P := sample) sampleEnv
              {| RegisterDto.name := "Carol";
                 RegisterDto.email := "Carol@X.com";
                 RegisterDto.password := "secret3";
                 RegisterDto.role := None |} None None sampleDb _ _
              (fun a b Hab => Hab) eq_refl)
    as (u & _ & _ & _ & _ & Hlogin & _).
  destruct (Hlogin (sampleEnvAfter 5) "CAROL@x.COM" "secret3" None None
              eq_refl eq_refl eq_refl) as (_ & Hreturns & _).
  destruct (Hreturns eq_refl eq_refl eq_refl) as (response' & Heq & Huser).
  exists response'. split.
  - exact (f_equal fst Heq).
  - rewrite Huser. reflexivity.
Defined.

(** The normalization is made by the routes, not by the service: an
    e-mail handed to the service in mixed case is stored as it is, and the
    login route, which looks up the lower-case form, does not find it. *)
Example service_register_stores_as_given :
  let db1 :=
    exec (AuthService.register sampleEnv
            {| RegisterDto.name := "Carol"; RegisterDto.email := "Carol@X.com";
               RegisterDto.password := "secret3"; RegisterDto.role := None |}
            None None) sampleDb in
  UserRepository.findByEmail "carol@x.com" db1 = (Return None, db1)
  /\ fst (AuthRoutes.login (sampleEnvAfter 5)
            {| LoginDto.email := "Carol@X.com"; LoginDto.password := "secret3" |}
            None None db1)
     = Throw (AppError "Invalid email or password" 401).
Proof. split; reflexivity. Qed.

(** ** Login followed by refresh *)

Lemma find_byId_unique (us : list User.t) (u : User.t) :
  NoDup (map User.id us) -> In u us -> User.deletedAt u = None ->
  find (UserRepository.byId (User.id u)) us = Some u.
Proof.
  induction us as [| a rest IH]; intros Hnodup Hin Hdel; [destruct Hin |].
  cbn in Hnodup |- *. inversion Hnodup as [| ? ? Hnotin Hrest]; subst.
  unfold UserRepository.byId at 1.
  destruct Hin as [-> | Hin].
  - rewrite String.eqb_refl, Hdel. reflexivity.
  - destruct (String.eqb_spec (User.id a) (User.id u)) as [Hsame | _].
    + exfalso. apply Hnotin. rewrite Hsame. apply in_map. exact Hin.
    + cbn. apply IH; assumption.
Qed.

Lemma storable_text (r : RefreshToken.t) :
  RefreshTokenRepository.storable r = true ->
  acceptsText (RefreshToken.token r) = true.
Proof.
  unfold RefreshTokenRepository.storable. rewrite !andb_true_iff. tauto.
Qed.

Lemma find_activeByToken_new (token : string) (rows : list RefreshToken.t) :
  existsb (RefreshTokenRepository.byToken token) rows = false ->
  find (RefreshTokenRepository.activeByToken token) rows = None.
Proof.
  intros Hnew.
  destruct (find _ _) as [r |] eqn:Hr; [| reflexivity].
  apply find_some in Hr as [Hrin Hract].
  apply activeByToken_true in Hract as (Htok & _).
  assert (existsb (RefreshTokenRepository.byToken token) rows = true) as Hex.
  { apply existsb_exists. exists r. split; [exact Hrin |].
    now apply byToken_true. }
  congruence.
Qed.

(** The session that a login has stored is the one its token finds. *)
Lemma findByToken_after_login {P : Platform} env data ua ip db response db1 :
  AuthService.login env data ua ip db = (Return response, db1) ->
  RefreshTokenRepository.findByToken (AuthResponse.refreshToken response) db1
  = (Return (Some (RefreshTokenRepository.load db1
                     (issued env (AuthResponse.refreshToken response)
                        (PublicUser.id (AuthResponse.user response)) ua ip))),
     db1).
Proof.
  intros Hlogin.
  apply login_inversion in Hlogin
    as (u & _ & _ & _ & Hstorable & Hdup & -> & ->).
  cbn [AuthResponse.refreshToken AuthResponse.user PublicUser.id].
  apply storable_text in Hstorable. cbn [issued RefreshToken.token] in Hstorable.
  rewrite (findByToken_accepted _ _ Hstorable). cbn [refresh_tokens].
  rewrite (find_app_none _ _ _ (find_activeByToken_new _ _ Hdup)). cbn [find].
  unfold RefreshTokenRepository.activeByToken at 1, issued at 1.
  cbn [RefreshToken.token RefreshToken.isActive RefreshToken.deletedAt].
  rewrite String.eqb_refl. reflexivity.
Qed.

(** A refresh with the token that [login] has just returned, made while
    the new session is not expired: it returns an access token whose
    payload is the logged-in identity.  Primary keys of users are
    distinct. *)
Lemma refresh_after_login {P : Platform} (env env' : Env.t) (data : LoginDto.t)
  (ua ip : option string) (db db1 : Database) (response : AuthResponse.t) :
  NoDup (map User.id (users db)) ->
  AuthService.login env data ua ip db = (Return response, db1) ->
  date_lt (AuthService.getRefreshTokenExpiration env)
    (TimeValue (Env.now env')) = false ->
  AuthService.refreshToken env'
    {| RefreshTokenDto.refreshToken := AuthResponse.refreshToken response |} db1
  = (Return
       {| RefreshTokenResponse.token :=
            AuthService.generateAccessToken env'
              {| JWTPayload.userId := PublicUser.id (AuthResponse.user response);
                 JWTPayload.email := PublicUser.email (AuthResponse.user response);
                 JWTPayload.role := PublicUser.role (AuthResponse.user response) |};
          RefreshTokenResponse.refreshToken := AuthResponse.refreshToken response |},
     db1).
Proof.
  intros Hkeys Hlogin Hfresh.
  pose proof (findByToken_after_login _ _ _ _ _ _ _ Hlogin) as Hfind.
  apply login_inversion in Hlogin
    as (u & Hfound & Hactive & _ & _ & _ & -> & ->).
  apply findByEmail_some in Hfound as (Hin & _ & Hdel).
  cbn [AuthResponse.refreshToken AuthResponse.user PublicUser.id
       PublicUser.email PublicUser.role] in *.
  unfold AuthService.refreshToken, AuthService.verifyRefreshToken, bind.
  cbn [RefreshTokenDto.refreshToken].
  rewrite Hfind.
  cbn [RefreshTokenRepository.load RefreshToken.row
       RefreshToken.user RefreshToken.expiresAt RefreshToken.isActive
       RefreshToken.userId issued negb users].
  rewrite Hfresh.
  rewrite (find_byId_unique _ _ Hkeys Hin Hdel).
  rewrite Hactive. reflexivity.
Qed.

Example login_then_refresh_sample :
  fst (AuthService.refreshToken (sampleEnvAfter 5)
         {| RefreshTokenDto.refreshToken := "c0ffee" |}
         (exec (AuthService.login sampleEnv
                  {| LoginDto.email := "jane@x.com";
                     LoginDto.password := "secret1" |} None None) sampleDb))
  = Return {| RefreshTokenResponse.token :=
                AuthService.generateAccessToken (sampleEnvAfter 5) (claimsOf jane);
              RefreshTokenResponse.refreshToken := "c0ffee" |}.
Proof. reflexivity. Qed.

(** * Further properties of the session store *)

Lemma NoDup_map_injective {A B : Type} (f : A -> B) (l : list A) (a b : A) :
  NoDup (map f l) -> In a l -> In b l -> f a = f b -> a = b.
Proof.
  induction l as [| x l IH]; intros Hnd Ha Hb Hab; [destruct Ha |].
  cbn in Hnd. inversion Hnd as [| ? ? Hnotin Hrest]; subst.
  destruct Ha as [-> | Ha], Hb as [-> | Hb]; trivial.
  - exfalso. apply Hnotin. rewrite Hab. now apply in_map.
  - exfalso. apply Hnotin. rewrite <- Hab. now apply in_map.
  - now apply IH.
Qed.

Lemma date_lt_mono (d : Date) (t t' : Z) :
  date_lt d (TimeValue t) = true -> t <= t' -> date_lt d (TimeValue t') = true.
Proof.
  destruct d as [| x]; cbn; [discriminate |].
  rewrite !Z.ltb_lt. lia.
Qed.

(** X1. [deleteExpiredTokens] removes the rows that are both inactive and
    expired, keeps every other row (so never an active one, whatever its
    expiry), leaves the users alone and answers the number of rows it
    removed. *)
Theorem purge_removes_expired_inactive_only (now : Z) (db : Database) :
  let db1 := exec (RefreshTokenRepository.deleteExpiredTokens now) db in
  users db1 = users db
  /\ (forall r,
         In r (refresh_tokens db1) <->
         In r (refresh_tokens db)
         /\ (RefreshToken.isActive r = true
             \/ date_lt (RefreshToken.expiresAt r) (TimeValue now) = false))
  /\ (exists removed : nat,
         fst (RefreshTokenRepository.deleteExpiredTokens now db) = Return removed
         /\ (removed + List.length (refresh_tokens db1)
             = List.length (refresh_tokens db))%nat).
Proof.
  intros db1. subst db1.
  unfold RefreshTokenRepository.deleteExpiredTokens, exec.
  cbn [fst snd users refresh_tokens].
  split; [reflexivity |]. split.
  - intros r. rewrite filter_In.
    unfold RefreshTokenRepository.expiredInactive.
    destruct (RefreshToken.isActive r), (date_lt _ _); cbn; intuition congruence.
  - eexists. split; [reflexivity |]. apply filter_length.
Qed.

(** X2. Lazy expiry makes a session purgeable: with distinct tokens, a
    refresh with an expired session followed by [deleteExpiredTokens] at
    the same or a later instant leaves no row under that token. *)
Theorem expired_refresh_then_purge {P : Platform} (env : Env.t) (now' : Z)
  (token : string) (db : Database) (l : RefreshToken.loaded) :
  NoDup (map RefreshToken.token (refresh_tokens db)) ->
  RefreshTokenRepository.findByToken token db = (Return (Some l), db) ->
  date_lt (RefreshToken.expiresAt (RefreshToken.row l))
    (TimeValue (Env.now env)) = true ->
  Env.now env <= now' ->
  ~ Known token
      (exec (RefreshTokenRepository.deleteExpiredTokens now')
         (exec (AuthService.refreshToken env
                  {| RefreshTokenDto.refreshToken := token |}) db)).
Proof.
  intros Hnd Hfind Hexpired Hlater (r' & Hin & Htok).
  unfold exec, AuthService.refreshToken, AuthService.verifyRefreshToken, bind in Hin.
  cbn [RefreshTokenDto.refreshToken] in Hin.
  rewrite Hfind, Hexpired,
    (revokeToken_accepted _ _ (findByToken_text _ _ _ _ Hfind)) in Hin.
  cbn in Hin.
  apply filter_In in Hin as [Hin Hkept].
  apply findByToken_some in Hfind as (Hrow & Hrowtok & _).
  unfold RefreshTokenRepository.update_isActive_false in Hin.
  apply in_map_iff in Hin as (r & Hr' & Hr).
  assert (Hrt : RefreshToken.token r = token).
  { destruct (RefreshTokenRepository.byToken token r) eqn:Hby.
    - now apply byToken_true.
    - congruence. }
  assert (r = RefreshToken.row l) as ->.
  { eapply NoDup_map_injective; eauto. congruence. }
  apply byToken_true in Hrt. rewrite Hrt in Hr'. subst r'.
  unfold RefreshTokenRepository.expiredInactive in Hkept. cbn in Hkept.
  rewrite (date_lt_mono _ _ _ Hexpired Hlater) in Hkept. discriminate.
Qed.

(** Jane's stale session is gone after a refresh and a purge. *)
Lemma expired_refresh_then_purge_witness :
  ~ Known "stale"
      (exec (RefreshTokenRepository.deleteExpiredTokens (Env.now sampleEnv))
         (exec (AuthService.refreshToken sampleEnv
                  {| RefreshTokenDto.refreshToken := "stale" |}) sampleDb)).
Proof.
  apply (expired_refresh_then_purge (P := sample) sampleEnv (Env.now sampleEnv)
           "stale" sampleDb
           (RefreshTokenRepository.load sampleDb
              (session "stale" "u-1" 1700000000000 true))).
  - cbn. repeat constructor; cbn; intuition discriminate.
  - reflexivity.
  - reflexivity.
  - apply Z.le_refl.
Defined.

Lemma filter_update_other (p c : RefreshToken.t -> bool)
  (rows : list RefreshToken.t) :
  (forall r, c r = true -> p r = false) ->
  (forall r, c r = true -> p (RefreshToken.deactivate r) = false) ->
  filter p (RefreshTokenRepository.update_isActive_false c rows) = filter p rows.
Proof.
  intros Hold Hnew. unfold RefreshTokenRepository.update_isActive_false.
  induction rows as [| r rows IH]; cbn; [reflexivity |].
  rewrite IH. destruct (c r) eqn:Hc; [| reflexivity].
  rewrite (Hold r Hc), (Hnew r Hc). reflexivity.
Qed.

(** X3. [findByUserId] lists the active, not soft-deleted rows of the
    user and nothing else; after [revokeAllUserTokens(userId)] the list of
    that user is empty and the list of any other user is what it was. *)
Theorem logoutAll_empties_findByUserId (userId other : string) (db : Database) :
  let db1 := exec (AuthService.revokeAllUserTokens userId) db in
  (exists l,
      RefreshTokenRepository.findByUserId userId db = (Return l, db)
      /\ forall r,
          In r l <->
          In r (refresh_tokens db)
          /\ RefreshToken.userId r = userId
          /\ RefreshToken.isActive r = true
          /\ RefreshToken.deletedAt r = None)
  /\ RefreshTokenRepository.findByUserId userId db1 = (Return [], db1)
  /\ (other <> userId ->
      fst (RefreshTokenRepository.findByUserId other db1)
      = fst (RefreshTokenRepository.findByUserId other db)).
Proof.
  intros db1. subst db1.
  unfold RefreshTokenRepository.findByUserId, AuthService.revokeAllUserTokens,
    RefreshTokenRepository.revokeAllUserTokens, exec.
  cbn [fst snd users refresh_tokens].
  split; [| split].
  - eexists. split; [reflexivity |].
    intros r. rewrite <- in_rev, filter_In.
    unfold RefreshTokenRepository.activeOfUser, isNull.
    rewrite !andb_true_iff, String.eqb_eq.
    destruct (RefreshToken.deletedAt r); intuition congruence.
  - f_equal. f_equal.
    replace (filter _ _) with (@nil RefreshToken.t); [reflexivity |].
    symmetry. unfold RefreshTokenRepository.update_isActive_false.
    induction (refresh_tokens db) as [| r rows IH]; cbn [map filter];
      [reflexivity |].
    rewrite IH.
    unfold RefreshTokenRepository.activeOfUser,
      RefreshTokenRepository.activeByUserId.
    destruct (RefreshToken.userId r =? userId)%string eqn:Hu;
      destruct (RefreshToken.isActive r) eqn:Ha; cbn;
      rewrite ?Hu, ?Ha; reflexivity.
  - intros Hother. cbn [fst]. f_equal. f_equal.
    apply filter_update_other; intros r Hc;
      unfold RefreshTokenRepository.activeByUserId in Hc;
      apply andb_true_iff in Hc as [Hu _];
      apply String.eqb_eq in Hu;
      unfold RefreshTokenRepository.activeOfUser; cbn;
      rewrite Hu;
      destruct (String.eqb_spec userId other); try congruence; reflexivity.
Qed.

(** Logging Jane out everywhere: her list is empty, Bob's is kept. *)
Lemma logoutAll_empties_findByUserId_witness :
  fst (RefreshTokenRepository.findByUserId "u-2"
         (exec (AuthService.revokeAllUserTokens "u-1") sampleDb))
  = Return [session "bobs" "u-2" 1800000000000 true].
Proof.
  rewrite (proj2 (proj2 (logoutAll_empties_findByUserId "u-1" "u-2" sampleDb))).
  - reflexivity.
  - discriminate.
Defined.

Lemma find_activeByToken_deleted (token : string) (rows : list RefreshToken.t) :
  (forall r, In r rows -> RefreshToken.token r = token ->
             RefreshToken.deletedAt r <> None) ->
  find (RefreshTokenRepository.activeByToken token) rows = None.
Proof.
  intros Hdel.
  destruct (find _ _) as [r |] eqn:Hfind; [| reflexivity].
  apply find_some in Hfind as [Hin Hact].
  apply activeByToken_true in Hact as (Htok & _ & Hnull).
  exfalso. exact (Hdel r Hin Htok Hnull).
Qed.

(** X4. For a token that the database accepts as text, after
    [RefreshTokenRepository.delete(token)] the rows under other tokens are
    what they were, a refresh with the token throws
    [AppError('Invalid refresh token', 401)] although the rows keep their
    [isActive] flag, and, when the token had a row, a new session cannot
    be stored under it: [create] throws on the unique column.  For a token
    that holds U+0000 the delete is refused by the database, nothing is
    written, and so is the lookup of a refresh. *)
Theorem soft_deleted_session_is_dead {P : Platform} (env : Env.t) (now : Z)
  (token : string) (db : Database) :
  let db1 := exec (RefreshTokenRepository.delete now token) db in
  (acceptsText token = true ->
   users db1 = users db
   /\ (forall i r,
          nth_error (refresh_tokens db) i = Some r ->
          exists r',
            nth_error (refresh_tokens db1) i = Some r'
            /\ RefreshToken.isActive r' = RefreshToken.isActive r
            /\ (RefreshToken.token r <> token -> r' = r)
            /\ (RefreshToken.token r = token ->
                RefreshToken.deletedAt r' = Some now))
   /\ AuthService.refreshToken env
        {| RefreshTokenDto.refreshToken := token |} db1
      = (Throw (AppError "Invalid refresh token" 401), db1)
   /\ (Known token db ->
       forall tokenData,
         RefreshToken.token tokenData = token ->
         exists message,
           RefreshTokenRepository.create tokenData db1
           = (Throw (QueryFailedError message), db1)))
  /\ (acceptsText token = false ->
      RefreshTokenRepository.delete now token db
      = (Throw (QueryFailedError "invalid byte sequence for encoding UTF8: 0x00"),
         db)
      /\ AuthService.refreshToken env
           {| RefreshTokenDto.refreshToken := token |} db1
         = (Throw (QueryFailedError
                     "invalid byte sequence for encoding UTF8: 0x00"), db1)).
Proof.
  intros db1. subst db1.
  unfold RefreshTokenRepository.delete, exec.
  split; intros Htext; rewrite Htext; cbn [negb fst snd users refresh_tokens].
  - split; [reflexivity |]. split; [| split].
    + intros i r Hi. rewrite nth_error_map, Hi. cbn [option_map].
      eexists. split; [reflexivity |].
      destruct (RefreshTokenRepository.byToken token r) eqn:Hby.
      * apply byToken_true in Hby. repeat split; try reflexivity. congruence.
      * assert (RefreshToken.token r <> token).
        { intros Heq. apply byToken_true in Heq. congruence. }
        repeat split; congruence.
    + unfold AuthService.refreshToken, AuthService.verifyRefreshToken, bind.
      cbn [RefreshTokenDto.refreshToken].
      rewrite (findByToken_accepted _ _ Htext). cbn [refresh_tokens].
      rewrite find_activeByToken_deleted; [reflexivity |].
      intros r' Hin Htok. apply in_map_iff in Hin as (r & <- & _).
      destruct (RefreshTokenRepository.byToken token r) eqn:Hby;
        [cbn; discriminate |].
      apply byToken_true in Htok. congruence.
    + intros (r & Hin & Htok) tokenData Hdata.
      unfold RefreshTokenRepository.create. cbn [refresh_tokens].
      destruct (negb (RefreshTokenRepository.storable tokenData));
        [eexists; reflexivity |].
      replace (existsb _ _) with true; [eexists; reflexivity |].
      symmetry. apply existsb_exists.
      exists (RefreshTokenRepository.markDeleted now r). split.
      * apply in_map_iff. exists r. split; [| exact Hin].
        apply byToken_true in Htok. rewrite Htok. reflexivity.
      * rewrite Hdata. apply byToken_true. exact Htok.
  - split; [reflexivity |]. apply refresh_rejected_text. exact Htext.
Qed.

(** Soft-deleting Jane's live session. *)
Lemma soft_deleted_session_is_dead_witness :
  exists message,
    RefreshTokenRepository.create (session "live" "u-2" 1900000000000 true)
      (exec (RefreshTokenRepository.delete 1793577600000 "live") sampleDb)
    = (Throw (QueryFailedError message),
       exec (RefreshTokenRepository.delete 1793577600000 "live") sampleDb).
Proof.
  destruct (proj1 (soft_deleted_session_is_dead (P := sample) sampleEnv
                     1793577600000 "live" sampleDb) eq_refl)
    as (_ & _ & _ & Hcreate).
  apply Hcreate.
  - exists (session "live" "u-1" 1800000000000 true).
    split; [cbn; tauto | reflexivity].
  - reflexivity.
Defined.

(** * Further properties of the user store *)

Lemma find_byId_map (f : User.t -> User.t) (id : string) (us : list User.t) :
  (forall u, User.id (f u) = User.id u) ->
  (forall u, User.deletedAt (f u) = User.deletedAt u) ->
  find (UserRepository.byId id) (map f us)
  = option_map f (find (UserRepository.byId id) us).
Proof.
  intros Hid Hdel. induction us as [| u us IH]; cbn; [reflexivity |].
  unfold UserRepository.byId at 1 3. rewrite Hid, Hdel.
  destruct (_ && _); [reflexivity | exact IH].
Qed.

Lemma in_users_after_delete (now : Z) (id : string) (db : Database) (u' : User.t) :
  In u' (users (exec (UserRepository.delete now id) db)) ->
  User.id u' = id -> User.deletedAt u' = Some now.
Proof.
  unfold UserRepository.delete, exec. cbn [snd users].
  intros Hin Hid. apply in_map_iff in Hin as (u & <- & _).
  destruct (String.eqb_spec (User.id u) id) as [_ | Hne]; [reflexivity |].
  contradiction.
Qed.

(** X5. After [UserRepository.delete(id)] no lookup returns a user with
    that id, no login returns that identity, and a refresh with a session
    of that user throws 401 (expired) or 403, although the sessions table
    itself is left as it was. *)
Theorem deleted_user_is_locked_out {P : Platform} (env : Env.t) (now : Z)
  (id : string) (db : Database) :
  let db1 := exec (UserRepository.delete now id) db in
  refresh_tokens db1 = refresh_tokens db
  /\ UserRepository.findById id db1 = (Return None, db1)
  /\ (forall email u,
         UserRepository.findByEmail email db1 = (Return (Some u), db1) ->
         User.id u <> id)
  /\ (forall data ua ip response db2,
         AuthService.login env data ua ip db1 = (Return response, db2) ->
         PublicUser.id (AuthResponse.user response) <> id)
  /\ (forall token l,
         RefreshTokenRepository.findByToken token db1 = (Return (Some l), db1) ->
         RefreshToken.userId (RefreshToken.row l) = id ->
         fst (AuthService.refreshToken env
                {| RefreshTokenDto.refreshToken := token |} db1)
         = Throw (AppError "Refresh token expired" 401)
         \/ fst (AuthService.refreshToken env
                   {| RefreshTokenDto.refreshToken := token |} db1)
            = Throw (AppError "User account is deactivated" 403)).
Proof.
  intros db1.
  assert (Hgone : forall u', In u' (users db1) -> User.id u' = id ->
                             User.deletedAt u' = Some now)
    by apply in_users_after_delete.
  assert (HbyId : find (UserRepository.byId id) (users db1) = None).
  { destruct (find _ _) as [u |] eqn:Hfind; [| reflexivity].
    apply find_some in Hfind as [Hin Hby].
    unfold UserRepository.byId in Hby.
    apply andb_true_iff in Hby as [Hid Hnull].
    apply String.eqb_eq in Hid. rewrite (Hgone u Hin Hid) in Hnull.
    discriminate. }
  split; [reflexivity |]. split; [| split; [| split]].
  - unfold UserRepository.findById. rewrite HbyId. reflexivity.
  - intros email u Hfound Hid.
    apply findByEmail_some in Hfound as (Hin & _ & Hdel).
    rewrite (Hgone u Hin Hid) in Hdel. discriminate.
  - intros data ua ip response db2 Hlogin Hid.
    apply login_inversion in Hlogin as (u & Hfound & _ & _ & _ & _ & -> & _).
    cbn in Hid.
    apply findByEmail_some in Hfound as (Hin & _ & Hdel).
    rewrite (Hgone u Hin Hid) in Hdel. discriminate.
  - intros token l Hfind Howner.
    pose proof (findByToken_some _ _ _ Hfind) as (_ & _ & Hactive & _ & Huser).
    rewrite Howner, HbyId in Huser.
    unfold AuthService.refreshToken, AuthService.verifyRefreshToken, bind.
    cbn [RefreshTokenDto.refreshToken]. rewrite Hfind.
    destruct (date_lt _ _).
    + left.
      rewrite (revokeToken_accepted _ _ (findByToken_text _ _ _ _ Hfind)).
      reflexivity.
    + right. rewrite Hactive, Huser. reflexivity.
Qed.

(** Deleting Jane: her live session answers 403. *)
Lemma deleted_user_is_locked_out_witness :
  fst (AuthService.refreshToken sampleEnv
         {| RefreshTokenDto.refreshToken := "live" |}
         (exec (UserRepository.delete 1793577600000 "u-1") sampleDb))
  = Throw (AppError "User account is deactivated" 403).
Proof.
  destruct (deleted_user_is_locked_out (P := sample) sampleEnv 1793577600000
              "u-1" sampleDb) as (_ & _ & _ & _ & Hrefresh).
  destruct (Hrefresh "live"
              (RefreshTokenRepository.load
                 (exec (UserRepository.delete 1793577600000 "u-1") sampleDb)
                 (session "live" "u-1" 1800000000000 true))
              eq_refl eq_refl) as [Hexp | Hdeact].
  - vm_compute in Hexp. discriminate.
  - exact Hdeact.
Defined.

Lemma emailCollides_true (id : string) (userData : UserData.t)
  (rows : list User.t) :
  UserRepository.emailCollides id userData rows = true <->
  exists email target other,
    UserData.email userData = Some email
    /\ In target rows /\ User.id target = id
    /\ In other rows /\ User.id other <> id /\ User.email other = email.
Proof.
  unfold UserRepository.emailCollides.
  destruct (UserData.email userData) as [email |].
  - rewrite andb_true_iff, !existsb_exists. split.
    + intros [(target & Hin & Hid) (other & Hin' & Hother)].
      apply String.eqb_eq in Hid. apply andb_true_iff in Hother as [Hne Hem].
      apply negb_true_iff, String.eqb_neq in Hne. apply String.eqb_eq in Hem.
      exists email, target, other. repeat split; assumption.
    + intros (email' & target & other & Heq & Hin & Hid & Hin' & Hne & Hem).
      injection Heq as <-. split.
      * exists target. split; [exact Hin | now apply String.eqb_eq].
      * exists other. split; [exact Hin' |]. apply andb_true_iff. split.
        -- apply negb_true_iff, String.eqb_neq. exact Hne.
        -- now apply String.eqb_eq.
  - split; [discriminate |].
    intros (email & _ & _ & Heq & _). discriminate.
Qed.

Lemma update_accepted (id : string) (userData : UserData.t) (db : Database) :
  UserData.acceptsTexts userData = true ->
  UserRepository.emailCollides id userData (users db) = false ->
  UserRepository.update id userData db
  = (Return (option_map (UserData.write userData)
               (find (UserRepository.byId id) (users db))),
     {| users :=
          map (fun u => if (User.id u =? id)%string
                        then UserData.write userData u else u) (users db);
        refresh_tokens := refresh_tokens db |}).
Proof.
  intros Htexts Hfree.
  unfold UserRepository.update, UserRepository.findById, bind.
  rewrite Htexts, Hfree. cbn [negb users]. f_equal. f_equal. clear Hfree.
  induction (users db) as [| u us IH]; cbn; [reflexivity |].
  unfold UserRepository.byId at 1 3.
  destruct (User.id u =? id)%string eqn:Hid; cbn.
  - rewrite Hid. cbn.
    destruct (isNull (User.deletedAt u)); [reflexivity | exact IH].
  - rewrite Hid. cbn. exact IH.
Qed.

Lemma update_refused (id : string) (userData : UserData.t) (db : Database) :
  UserData.acceptsTexts userData = true ->
  UserRepository.emailCollides id userData (users db) = true ->
  UserRepository.update id userData db
  = (Throw (QueryFailedError "duplicate key value violates unique constraint"),
     db).
Proof.
  intros Htexts Hcollides. unfold UserRepository.update, bind.
  rewrite Htexts, Hcollides. reflexivity.
Qed.

Lemma update_rejected_text (id : string) (userData : UserData.t)
  (db : Database) :
  UserData.acceptsTexts userData = false ->
  UserRepository.update id userData db
  = (Throw (QueryFailedError "invalid byte sequence for encoding UTF8: 0x00"),
     db).
Proof.
  intros Htexts. unfold UserRepository.update, bind.
  rewrite Htexts. reflexivity.
Qed.

(** X6. [UserRepository.update(id, userData)] is refused by the
    database, with nothing written, when one of the texts to write holds
    U+0000, and otherwise by the unique e-mail column exactly when it
    would write over a row under the key the e-mail that a row under
    another key has.  When it is not refused it writes the given columns
    over the rows under the key and leaves every other row as it is; it
    answers the row that [findById] then finds, which is the updated row
    when the key had a visible row and null when it had none; so when no
    row has the key, nothing is written. *)
Theorem user_update_reads_back (id : string) (userData : UserData.t)
  (db : Database) :
  let db1 := exec (UserRepository.update id userData) db in
  refresh_tokens db1 = refresh_tokens db
  /\ (UserData.acceptsTexts userData = false ->
      UserRepository.update id userData db
      = (Throw (QueryFailedError
                  "invalid byte sequence for encoding UTF8: 0x00"), db))
  /\ (UserRepository.emailCollides id userData (users db) = true <->
      exists email target other,
        UserData.email userData = Some email
        /\ In target (users db) /\ User.id target = id
        /\ In other (users db) /\ User.id other <> id
        /\ User.email other = email)
  /\ (UserData.acceptsTexts userData = true ->
      (UserRepository.emailCollides id userData (users db) = true ->
       UserRepository.update id userData db
       = (Throw (QueryFailedError
                   "duplicate key value violates unique constraint"), db))
      /\ (UserRepository.emailCollides id userData (users db) = false ->
          (forall i u,
              nth_error (users db) i = Some u ->
              nth_error (users db1) i
              = Some (if (User.id u =? id)%string
                      then UserData.write userData u else u))
          /\ UserRepository.update id userData db
             = (Return (option_map (UserData.write userData)
                          (find (UserRepository.byId id) (users db))), db1))
      /\ ((forall u, In u (users db) -> User.id u <> id) ->
          UserRepository.update id userData db = (Return None, db))).
Proof.
  intros db1. subst db1. unfold exec.
  split; [| split; [| split; [| intros Htexts; split; [| split]]]].
  - destruct (UserData.acceptsTexts userData) eqn:Htexts;
      [| rewrite (update_rejected_text _ _ _ Htexts); reflexivity].
    destruct (UserRepository.emailCollides id userData (users db)) eqn:Hc.
    + rewrite (update_refused _ _ _ Htexts Hc). reflexivity.
    + rewrite (update_accepted _ _ _ Htexts Hc). reflexivity.
  - apply update_rejected_text.
  - apply emailCollides_true.
  - apply update_refused. exact Htexts.
  - intros Hfree. rewrite (update_accepted _ _ _ Htexts Hfree). cbn [snd users].
    split; [| reflexivity].
    intros i u Hi. rewrite nth_error_map, Hi. reflexivity.
  - intros Hnone.
    assert (Hfree : UserRepository.emailCollides id userData (users db) = false).
    { destruct (UserRepository.emailCollides id userData (users db)) eqn:Hc;
        [| reflexivity].
      apply emailCollides_true in Hc
        as (email & target & other & _ & Hin & Hid & _).
      exfalso. exact (Hnone target Hin Hid). }
    rewrite (update_accepted _ _ _ Htexts Hfree).
    assert (Hsame : map (fun u => if (User.id u =? id)%string
                                  then UserData.write userData u else u)
                      (users db) = users db).
    { rewrite <- (map_id (users db)) at 2. apply map_ext_in.
      intros u Hin. destruct (String.eqb_spec (User.id u) id) as [Heq | _];
        [exfalso; exact (Hnone u Hin Heq) | reflexivity]. }
    rewrite Hsame.
    replace (find (UserRepository.byId id) (users db)) with (@None User.t).
    + destruct db; reflexivity.
    + symmetry. destruct (find _ _) as [u |] eqn:Hfind; [| reflexivity].
      apply find_some in Hfind as [Hin Hby].
      unfold UserRepository.byId in Hby. apply andb_true_iff in Hby as [Hid _].
      apply String.eqb_eq in Hid. exfalso. exact (Hnone u Hin Hid).
Qed.

(** Giving Jane the e-mail of Bob is refused; updating a key that no row
    has writes nothing. *)
Lemma user_update_reads_back_witness :
  UserRepository.update "u-1"
    {| UserData.name := None; UserData.email := Some "bob@x.com";
       UserData.password := None; UserData.role := None;
       UserData.isActive := None |} sampleDb
  = (Throw (QueryFailedError "duplicate key value violates unique constraint"),
     sampleDb)
  /\ UserRepository.update "u-9"
       {| UserData.name := None; UserData.email := Some "bob@x.com";
          UserData.password := None; UserData.role := Some ADMIN;
          UserData.isActive := None |} sampleDb
     = (Return None, sampleDb).
Proof.
  split.
  - apply (proj1 (proj2 (proj2 (proj2
             (user_update_reads_back "u-1"
                {| UserData.name := None; UserData.email := Some "bob@x.com";
                   UserData.password := None; UserData.role := None;
                   UserData.isActive := None |} sampleDb))) eq_refl)).
    reflexivity.
  - apply (proj2 (proj2 (proj2 (proj2 (proj2
             (user_update_reads_back "u-9"
                {| UserData.name := None; UserData.email := Some "bob@x.com";
                   UserData.password := None; UserData.role := Some ADMIN;
                   UserData.isActive := None |} sampleDb))) eq_refl))).
    intros u Hin. cbn in Hin.
    destruct Hin as [<- | [<- | []]]; cbn; discriminate.
Defined.

(** X7. A change written with [UserRepository.update] is what the next
    refresh sees: with a live session of the user, and an update that the
    database lets through (no text holding U+0000, no e-mail of another
    row), the refresh answers an access token carrying the updated e-mail
    and role when the updated row is active, and throws 403 when the
    update deactivated the account.  When the update is refused, the
    refresh carries the claims of the row as it was. *)
Theorem user_update_then_refresh {P : Platform} (env : Env.t)
  (userData : UserData.t) (token : string) (db : Database)
  (r : RefreshToken.t) (owner : User.t) :
  RefreshTokenRepository.findByToken token db
  = (Return (Some {| RefreshToken.row := r; RefreshToken.user := Some owner |}),
     db) ->
  date_lt (RefreshToken.expiresAt r) (TimeValue (Env.now env)) = false ->
  let db1 := exec (UserRepository.update (User.id owner) userData) db in
  let updated := UserData.write userData owner in
  let answer (u : User.t) :=
    if User.isActive u
    then Return {| RefreshTokenResponse.token :=
                     AuthService.generateAccessToken env (claimsOf u);
                   RefreshTokenResponse.refreshToken := token |}
    else Throw (AppError "User account is deactivated" 403) in
  (UserData.acceptsTexts userData = true ->
   UserRepository.emailCollides (User.id owner) userData (users db) = false ->
   fst (AuthService.refreshToken env
          {| RefreshTokenDto.refreshToken := token |} db1)
   = answer updated)
  /\ (UserData.acceptsTexts userData = false
      \/ UserRepository.emailCollides (User.id owner) userData (users db) = true ->
      db1 = db
      /\ fst (AuthService.refreshToken env
                {| RefreshTokenDto.refreshToken := token |} db1)
         = answer owner).
Proof.
  intros Hfind Hfresh db1 updated answer.
  pose proof (findByToken_text _ _ _ _ Hfind) as Htext.
  pose proof (findByToken_some _ _ _ Hfind) as (_ & _ & Hactive & _ & Huser).
  cbn in Hactive, Huser.
  assert (Hrefresh :
            forall (db' : Database) (u : User.t),
              RefreshTokenRepository.findByToken token db'
              = (Return (Some {| RefreshToken.row := r;
                                 RefreshToken.user := Some u |}), db') ->
              fst (AuthService.refreshToken env
                     {| RefreshTokenDto.refreshToken := token |} db')
              = answer u).
  { intros db' u Hfind'.
    unfold AuthService.refreshToken, AuthService.verifyRefreshToken, bind.
    cbn [RefreshTokenDto.refreshToken].
    rewrite Hfind'. cbn [RefreshToken.row RefreshToken.user].
    rewrite Hfresh, Hactive. cbn [negb]. subst answer. cbv beta.
    destruct (User.isActive u); reflexivity. }
  split; [intros Htexts Hcollides | intros Hrefused].
  - apply Hrefresh. subst db1. unfold exec.
    rewrite (update_accepted _ _ _ Htexts Hcollides). cbn [snd].
    rewrite (findByToken_accepted token db Htext) in Hfind.
    rewrite (findByToken_accepted _ _ Htext).
    cbn [refresh_tokens].
    injection Hfind as Hrow.
    destruct (find (RefreshTokenRepository.activeByToken token) (refresh_tokens db))
      as [r0 |]; [| discriminate].
    cbn in Hrow |- *. injection Hrow as -> Hu.
    unfold RefreshTokenRepository.load. cbn.
    rewrite find_byId_map with
      (f := fun u => if (User.id u =? User.id owner)%string
                     then UserData.write userData u else u).
    + rewrite Hu. cbn. rewrite String.eqb_refl. reflexivity.
    + intros u. destruct (_ =? _)%string; reflexivity.
    + intros u. destruct (_ =? _)%string; reflexivity.
  - assert (Hsame : db1 = db).
    { subst db1. unfold exec.
      destruct (UserData.acceptsTexts userData) eqn:Htexts.
      - destruct Hrefused as [Hno | Hcollides]; [discriminate |].
        rewrite (update_refused _ _ _ Htexts Hcollides). reflexivity.
      - rewrite (update_rejected_text _ _ _ Htexts). reflexivity. }
    split; [exact Hsame |]. rewrite Hsame. apply Hrefresh. exact Hfind.
Qed.

(** Jane is demoted to a plain user; her live session follows. *)
Lemma user_update_then_refresh_witness :
  exists token,
    fst (AuthService.refreshToken sampleEnv
           {| RefreshTokenDto.refreshToken := "live" |}
           (exec (UserRepository.update "u-1"
                    {| UserData.name := None; UserData.email := None;
                       UserData.password := None; UserData.role := Some USER;
                       UserData.isActive := None |}) sampleDb))
    = Return {| RefreshTokenResponse.token := token;
                RefreshTokenResponse.refreshToken := "live" |}
    /\ exists claims signature,
        token = jwt.Compact claims signature
        /\ JWTPayload.role (jwt.payload claims) = USER.
Proof.
  eexists. split.
  - apply (proj1 (user_update_then_refresh (P := sample) sampleEnv
                    {| UserData.name := None; UserData.email := None;
                       UserData.password := None; UserData.role := Some USER;
                       UserData.isActive := None |} "live" sampleDb
                    (session "live" "u-1" 1800000000000 true) jane
                    eq_refl eq_refl)); reflexivity.
  - eexists. eexists. split; reflexivity.
Defined.

(** * Properties of the middlewares *)

Lemma bearer_header (compact : string) :
  ("Bearer " ++ compact =? "")%string = false
  /\ prefix "Bearer " ("Bearer " ++ compact) = true
  /\ substring 7 (length ("Bearer " ++ compact) - 7) ("Bearer " ++ compact)
     = compact.
Proof.
  split; [reflexivity |]. split.
  - cbn. apply prefix_empty.
  - cbn. rewrite Nat.sub_0_r. apply substring_full.
Qed.

Lemma verifyToken_throws_AppError {P : Platform} env token e :
  AuthService.verifyToken env token = Throw e ->
  e = AppError "Invalid or expired token" 401.
Proof.
  unfold AuthService.verifyToken.
  destruct (jwt.verify _ _ _ _); intros Heq; [discriminate | congruence].
Qed.

(** X8. [authenticate] refuses a request without an [Authorization]
    header, or with one that does not start with ["Bearer "], by
    [AppError('No token provided', 401)]; whatever the request, it either
    hands on the same request with [req.user] set to what [verifyToken]
    decoded from the text after the prefix, or fails with one of two
    errors, both of status 401. *)
Theorem authenticate_outcomes {P : Platform}
  (parseCompact : string -> jwt.Token) (env : Env.t) (req : AuthRequest.t) :
  (match AuthRequest.authorization req with
   | None => True
   | Some authHeader => prefix "Bearer " authHeader = false
   end ->
   AuthMiddleware.authenticate parseCompact env req
   = Throw (AppError "No token provided" 401))
  /\ match AuthMiddleware.authenticate parseCompact env req with
     | Return req' =>
         exists authHeader decoded,
           AuthRequest.authorization req = Some authHeader
           /\ prefix "Bearer " authHeader = true
           /\ AuthService.verifyToken env
                (parseCompact
                   (substring 7 (length authHeader - 7) authHeader))
              = Return decoded
           /\ req' = {| AuthRequest.authorization := Some authHeader;
                        AuthRequest.user := Some decoded |}
     | Throw e =>
         e = AppError "No token provided" 401
         \/ e = AppError "Invalid or expired token" 401
     end.
Proof.
  unfold AuthMiddleware.authenticate.
  destruct (AuthRequest.authorization req) as [authHeader |]; [| auto].
  destruct (prefix "Bearer " authHeader) eqn:Hprefix.
  - split; [discriminate |].
    assert (Hne : (authHeader =? "")%string = false).
    { destruct authHeader; [discriminate | reflexivity]. }
    rewrite Hne. cbn [orb negb].
    destruct (AuthService.verifyToken env _) as [decoded | e] eqn:Hverify.
    + exists authHeader, decoded. auto.
    + apply verifyToken_throws_AppError in Hverify. subst e. auto.
  - rewrite orb_true_r. auto.
Qed.

(** A request without a header, on the sample platform. *)
Lemma authenticate_outcomes_witness :
  AuthMiddleware.authenticate sampleParse sampleEnv
    {| AuthRequest.authorization := Some "Basic amFuZQ==";
       AuthRequest.user := None |}
  = Throw (AppError "No token provided" 401).
Proof.
  apply (proj1 (authenticate_outcomes (P := sample) sampleParse sampleEnv
                  {| AuthRequest.authorization := Some "Basic amFuZQ==";
                     AuthRequest.user := None |})).
  reflexivity.
Defined.

Lemma authenticate_issued_token {P : Platform}
  (parseCompact : string -> jwt.Token) (env0 env1 : Env.t)
  (claims : JWTPayload.t) (compact : string) (user : option jwt.Claims) :
  parseCompact compact = AuthService.generateAccessToken env0 claims ->
  let req := {| AuthRequest.authorization := Some ("Bearer " ++ compact);
                AuthRequest.user := user |} in
  let ttl := JwtConfig.expiresIn (Config.jwt config) in
  AuthMiddleware.authenticate parseCompact env1 req
  = if AuthService.clockTimestamp env0 + ttl <=? AuthService.clockTimestamp env1
    then Throw (AppError "Invalid or expired token" 401)
    else Return
           {| AuthRequest.authorization := Some ("Bearer " ++ compact);
              AuthRequest.user :=
                Some {| jwt.payload := claims;
                        jwt.iat := AuthService.clockTimestamp env0;
                        jwt.exp := AuthService.clockTimestamp env0 + ttl |} |}.
Proof.
  intros Hparse req ttl. subst req ttl.
  unfold AuthMiddleware.authenticate. cbn [AuthRequest.authorization].
  destruct (bearer_header compact) as (-> & -> & ->).
  cbn [orb negb]. rewrite Hparse, verifyToken_generateAccessToken.
  destruct (_ <=? _); reflexivity.
Qed.

(** X9. An access token issued by [generateAccessToken] and presented as
    ["Bearer " + token] authenticates with the issued claims as
    [req.user] while its TTL has not elapsed on the token clock, and is
    refused with [AppError('Invalid or expired token', 401)] afterwards. *)
Theorem authenticate_accepts_issued_token {P : Platform}
  (parseCompact : string -> jwt.Token) (env0 env1 : Env.t)
  (claims : JWTPayload.t) (compact : string) (user : option jwt.Claims) :
  parseCompact compact = AuthService.generateAccessToken env0 claims ->
  let req := {| AuthRequest.authorization := Some ("Bearer " ++ compact);
                AuthRequest.user := user |} in
  let ttl := JwtConfig.expiresIn (Config.jwt config) in
  (AuthService.clockTimestamp env1 < AuthService.clockTimestamp env0 + ttl ->
   exists decoded,
     AuthMiddleware.authenticate parseCompact env1 req
     = Return {| AuthRequest.authorization := Some ("Bearer " ++ compact);
                 AuthRequest.user := Some decoded |}
     /\ jwt.payload decoded = claims)
  /\ (AuthService.clockTimestamp env0 + ttl <= AuthService.clockTimestamp env1 ->
      AuthMiddleware.authenticate parseCompact env1 req
      = Throw (AppError "Invalid or expired token" 401)).
Proof.
  intros Hparse req ttl. subst req ttl.
  rewrite (authenticate_issued_token parseCompact env0 env1 claims compact user
             Hparse).
  split; intros Hclock.
  - apply Z.leb_gt in Hclock. rewrite Hclock. eexists. split; reflexivity.
  - apply Z.leb_le in Hclock. rewrite Hclock. reflexivity.
Qed.

(** Jane's token, ten minutes and sixteen minutes after issue. *)
Lemma authenticate_accepts_issued_token_witness :
  (exists decoded,
      AuthMiddleware.authenticate sampleParse (sampleEnvAfter 600)
        (bearer "jane.jwt")
      = Return {| AuthRequest.authorization := Some "Bearer jane.jwt";
                  AuthRequest.user := Some decoded |}
      /\ jwt.payload decoded = claimsOf jane)
  /\ AuthMiddleware.authenticate sampleParse (sampleEnvAfter 960)
       (bearer "jane.jwt")
     = Throw (AppError "Invalid or expired token" 401).
Proof.
  split.
  - apply (proj1 (authenticate_accepts_issued_token (P := sample) sampleParse
                    sampleEnv (sampleEnvAfter 600) (claimsOf jane) "jane.jwt"
                    None eq_refl)).
    vm_compute. reflexivity.
  - apply (proj2 (authenticate_accepts_issued_token (P := sample) sampleParse
                    sampleEnv (sampleEnvAfter 960) (claimsOf jane) "jane.jwt"
                    None eq_refl)).
    vm_compute. discriminate.
Defined.

Lemma runChain_requireAuth_roles {P : Platform}
  (parseCompact : string -> jwt.Token) (env : Env.t)
  (roles : list UserRole) (req : AuthRequest.t) :
  AuthMiddleware.runChain
    (AuthMiddleware.requireAuth parseCompact env (Some roles)) req
  = match AuthMiddleware.authenticate parseCompact env req with
    | Throw e => Throw e
    | Return req' =>
        match AuthRequest.user req' with
        | Some decoded =>
            if existsb (UserRole_eqb (JWTPayload.role (jwt.payload decoded)))
                 roles
            then Return req'
            else Throw (AppError
                          "You do not have permission to access this resource"
                          403)
        | None => Throw (AppError "Authentication required" 401)
        end
    end.
Proof.
  cbn [AuthMiddleware.requireAuth AuthMiddleware.runChain].
  destruct (AuthMiddleware.authenticate parseCompact env req) as [req' | e];
    [| reflexivity].
  unfold AuthMiddleware.authorize.
  destruct (AuthRequest.user req') as [decoded |]; [| reflexivity].
  destruct (existsb _ roles); reflexivity.
Qed.

(** X10. [requireAuth(roles)] lets a request through exactly when
    [authenticate] does and, when roles are given, the role of the token
    is among them; an authenticated request with another role is refused
    with status 403.  So [requireAuth([])] lets nobody through, while
    [requireAuth()] asks for authentication only. *)
Theorem requireAuth_checks_role {P : Platform}
  (parseCompact : string -> jwt.Token) (env : Env.t)
  (roles : list UserRole) (req : AuthRequest.t) :
  AuthMiddleware.runChain (AuthMiddleware.requireAuth parseCompact env None) req
  = AuthMiddleware.authenticate parseCompact env req
  /\ AuthMiddleware.runChain
       (AuthMiddleware.requireAuth parseCompact env (Some roles)) req
     = match AuthMiddleware.authenticate parseCompact env req with
       | Throw e => Throw e
       | Return req' =>
           match AuthRequest.user req' with
           | Some decoded =>
               if existsb (UserRole_eqb (JWTPayload.role (jwt.payload decoded)))
                    roles
               then Return req'
               else Throw (AppError
                             "You do not have permission to access this resource"
                             403)
           | None => Throw (AppError "Authentication required" 401)
           end
       end
  /\ (forall req',
         AuthMiddleware.runChain
           (AuthMiddleware.requireAuth parseCompact env (Some roles)) req
         = Return req' ->
         exists decoded,
           AuthRequest.user req' = Some decoded
           /\ In (JWTPayload.role (jwt.payload decoded)) roles)
  /\ (exists e,
         AuthMiddleware.runChain
           (AuthMiddleware.requireAuth parseCompact env (Some [])) req
         = Throw e).
Proof.
  pose proof (runChain_requireAuth_roles parseCompact env) as Hsome.
  split; [| split; [| split]].
  - cbn [AuthMiddleware.requireAuth AuthMiddleware.runChain].
    destruct (AuthMiddleware.authenticate parseCompact env req); reflexivity.
  - apply Hsome.
  - intros req' Hpass. rewrite Hsome in Hpass.
    destruct (AuthMiddleware.authenticate parseCompact env req) as [req1 | e];
      [| discriminate].
    destruct (AuthRequest.user req1) as [decoded |] eqn:Huser; [| discriminate].
    destruct (existsb _ roles) eqn:Hex; [| discriminate].
    injection Hpass as <-. exists decoded. split; [exact Huser |].
    apply existsb_exists in Hex as (role & Hin & Heq).
    destruct (JWTPayload.role (jwt.payload decoded)), role;
      try discriminate; exact Hin.
  - rewrite Hsome.
    destruct (AuthMiddleware.authenticate parseCompact env req) as [req1 | e];
      [| eexists; reflexivity].
    destruct (AuthRequest.user req1); cbn; eexists; reflexivity.
Qed.

(** Jane is an admin, so a guard for moderators refuses her token. *)
Lemma requireAuth_checks_role_witness :
  AuthMiddleware.runChain
    (AuthMiddleware.requireAuth sampleParse (sampleEnvAfter 60)
       (Some [MODERATOR])) (bearer "jane.jwt")
  = Throw (AppError "You do not have permission to access this resource" 403).
Proof.
  rewrite (proj1 (proj2 (requireAuth_checks_role (P := sample) sampleParse
                           (sampleEnvAfter 60) [MODERATOR] (bearer "jane.jwt")))).
  reflexivity.
Defined.

(** * Properties of the routes *)

Lemma notEmpty_false (s : string) : AuthRoutes.notEmpty s = false <-> s = "".
Proof.
  unfold AuthRoutes.notEmpty. destruct s; cbn; split; congruence.
Qed.

Lemma validateRequest_throws (errors : list string) :
  errors <> [] ->
  AuthRoutes.validateRequest errors
  = Throw (AppError ("Validation failed: " ++ concat ", " errors) 400).
Proof. destruct errors; [congruence | reflexivity]. Qed.

(** X11. The register route calls the service only with a body that
    passes every validator: a trimmed name of 2 to 255 characters, a
    trimmed e-mail that is not empty and is an e-mail, a password of at
    least 6 characters.  Otherwise it throws an [AppError] of status 400
    whose message lists the failed validators, and the database is not
    touched. *)
Theorem register_route_validates {P : Platform} (env : Env.t)
  (body : RegisterDto.t) (ua ip : option string) (db : Database) :
  let name := trim (RegisterDto.name body) in
  let email := trim (RegisterDto.email body) in
  let password := RegisterDto.password body in
  let valid :=
    AuthRoutes.notEmpty name && AuthRoutes.isLength 2 (Some 255%nat) name
    && AuthRoutes.notEmpty email && isEmail email
    && AuthRoutes.notEmpty password && AuthRoutes.isLength 6 None password in
  (valid = false ->
   exists errors,
     errors <> []
     /\ AuthRoutes.register env body ua ip db
        = (Throw (AppError ("Validation failed: " ++ concat ", " errors) 400),
           db))
  /\ (valid = true ->
      AuthRoutes.register env body ua ip db
      = AuthService.register env
          {| RegisterDto.name := name;
             RegisterDto.email := normalizeEmail email;
             RegisterDto.password := password;
             RegisterDto.role := RegisterDto.role body |} ua ip db).
Proof.
  intros name email password valid. subst valid name email password.
  unfold AuthRoutes.register, AuthRoutes.nameChain, AuthRoutes.emailChain.
  set (n := trim (RegisterDto.name body)).
  set (e := trim (RegisterDto.email body)).
  set (pw := RegisterDto.password body).
  destruct (AuthRoutes.notEmpty n), (AuthRoutes.isLength 2 (Some 255%nat) n),
    (AuthRoutes.notEmpty e), (isEmail e), (AuthRoutes.notEmpty pw),
    (AuthRoutes.isLength 6 None pw);
    cbn [andb AuthRoutes.check app];
    (split; intros Hvalid; try discriminate Hvalid);
    try reflexivity;
    (eexists; split; [| rewrite validateRequest_throws; [reflexivity |]];
     discriminate).
Qed.

(** A five-character password on the sample platform. *)
Lemma register_route_validates_witness :
  exists errors,
    AuthRoutes.register sampleEnv
      {| RegisterDto.name := "Carol"; RegisterDto.email := "carol@x.com";
         RegisterDto.password := "12345"; RegisterDto.role := None |}
      None None sampleDb
    = (Throw (AppError ("Validation failed: " ++ concat ", " errors) 400),
       sampleDb).
Proof.
  destruct (proj1 (register_route_validates (P := sample) sampleEnv
                     {| RegisterDto.name := "Carol";
                        RegisterDto.email := "carol@x.com";
                        RegisterDto.password := "12345";
                        RegisterDto.role := None |} None None sampleDb)
              eq_refl) as (errors & _ & Heq).
  exists errors. exact Heq.
Defined.

(** A name that holds U+0000 passes the validators; the insert of the
    user is refused by the database. *)
Example register_route_nul_name :
  AuthRoutes.register sampleEnv
    {| RegisterDto.name := String "C" (String Ascii.zero "arol");
       RegisterDto.email := "carol@x.com";
       RegisterDto.password := "secret3"; RegisterDto.role := None |}
    None None sampleDb
  = (Throw (QueryFailedError "invalid byte sequence for encoding UTF8: 0x00"),
     sampleDb).
Proof. reflexivity. Qed.

Example register_route_short_password :
  AuthRoutes.register sampleEnv
    {| RegisterDto.name := "Carol"; RegisterDto.email := "carol@x.com";
       RegisterDto.password := "12345"; RegisterDto.role := None |}
    None None sampleDb
  = (Throw (AppError
              "Validation failed: Password must be at least 6 characters long"
              400), sampleDb).
Proof. reflexivity. Qed.

(** X12. The logout route validates before it authenticates and never
    asks whose session it revokes: an empty refresh token is refused with
    status 400 whatever the [Authorization] header; otherwise a failed
    authentication is passed on with the database untouched; and for any
    authenticated caller and any token that the database accepts as text
    the route answers 200 and leaves the database as [revokeRefreshToken]
    of the presented token leaves it, every row under the token inactive.
    A token that holds U+0000 passes the validator, the update is refused
    by the database, nothing is written and the error handler answers
    500. *)
Theorem logout_route_order {P : Platform} (parseCompact : string -> jwt.Token)
  (env : Env.t) (req : AuthRequest.t) (body : RefreshTokenDto.t)
  (db : Database) :
  let token := RefreshTokenDto.refreshToken body in
  (token = "" ->
   AuthRoutes.logout env parseCompact req body db
   = (Throw (AppError "Validation failed: Refresh token is required" 400), db))
  /\ (token <> "" ->
      forall e,
        AuthMiddleware.authenticate parseCompact env req = Throw e ->
        AuthRoutes.logout env parseCompact req body db = (Throw e, db))
  /\ (token <> "" ->
      forall req',
        AuthMiddleware.authenticate parseCompact env req = Return req' ->
        (acceptsText token = true ->
         AuthRoutes.logout env parseCompact req body db
         = (Return loggedOut, exec (AuthService.revokeRefreshToken token) db)
         /\ Revoked token (exec (AuthService.revokeRefreshToken token) db))
        /\ (acceptsText token = false ->
            AuthRoutes.logout env parseCompact req body db
            = (Throw (QueryFailedError
                        "invalid byte sequence for encoding UTF8: 0x00"), db)
            /\ Reply.statusCode
                 (ErrorHandler.errorHandler
                    (QueryFailedError
                       "invalid byte sequence for encoding UTF8: 0x00"))
               = 500)).
Proof.
  intros token. subst token. unfold AuthRoutes.logout.
  destruct (AuthRoutes.notEmpty (RefreshTokenDto.refreshToken body)) eqn:Hne.
  - assert (Hnz : RefreshTokenDto.refreshToken body <> "").
    { intros Heq. apply notEmpty_false in Heq. congruence. }
    cbn [AuthRoutes.check AuthRoutes.validateRequest].
    split; [intros Heq; contradiction |].
    split; intros _ x Hauth; rewrite Hauth; [reflexivity |].
    unfold AuthService.revokeRefreshToken, bind, exec.
    split; intros Htext.
    + rewrite (revokeToken_accepted _ _ Htext). cbn [snd].
      split; [reflexivity | apply update_byToken_revokes].
    + unfold RefreshTokenRepository.revokeToken. rewrite Htext.
      split; reflexivity.
  - apply notEmpty_false in Hne.
    cbn [AuthRoutes.check AuthRoutes.validateRequest].
    split; [intros _; reflexivity |].
    split; intros Hnz; contradiction.
Qed.

(** Bob's access token revokes Jane's live session. *)
Lemma logout_route_order_witness :
  AuthRoutes.logout (sampleEnvAfter 60) sampleParse (bearer "bob.jwt")
    {| RefreshTokenDto.refreshToken := "live" |} sampleDb
  = (Return loggedOut, exec (AuthService.revokeRefreshToken "live") sampleDb)
  /\ Revoked "live" (exec (AuthService.revokeRefreshToken "live") sampleDb).
Proof.
  refine (proj1 (proj2 (proj2 (logout_route_order (P := sample) sampleParse
                                 (sampleEnvAfter 60) (bearer "bob.jwt")
                                 {| RefreshTokenDto.refreshToken := "live" |}
                                 sampleDb)) _ _ eq_refl) eq_refl).
  discriminate.
Defined.

(** X13. The logout-all route acts on the user id that the access token
    carries, without reading the users table: with a token issued for
    [claims], presented before its TTL has elapsed, it answers 200 and
    revokes the sessions of [claims.userId], every row of another user
    staying as it is; presented later it is refused with status 401 and
    nothing is revoked. *)
Theorem logoutAll_route_uses_token_identity {P : Platform}
  (parseCompact : string -> jwt.Token) (env0 env1 : Env.t)
  (claims : JWTPayload.t) (compact : string) (db : Database) :
  parseCompact compact = AuthService.generateAccessToken env0 claims ->
  let req := {| AuthRequest.authorization := Some ("Bearer " ++ compact);
                AuthRequest.user := None |} in
  let ttl := JwtConfig.expiresIn (Config.jwt config) in
  let db1 := exec (AuthRoutes.logoutAll env1 parseCompact req) db in
  (AuthService.clockTimestamp env0 + ttl <= AuthService.clockTimestamp env1 ->
   AuthRoutes.logoutAll env1 parseCompact req db
   = (Throw (AppError "Invalid or expired token" 401), db))
  /\ (AuthService.clockTimestamp env1 < AuthService.clockTimestamp env0 + ttl ->
      AuthRoutes.logoutAll env1 parseCompact req db
      = (Return loggedOutEverywhere,
         exec (AuthService.revokeAllUserTokens (JWTPayload.userId claims)) db)
      /\ users db1 = users db
      /\ forall i r,
          nth_error (refresh_tokens db) i = Some r ->
          exists r',
            nth_error (refresh_tokens db1) i = Some r'
            /\ (RefreshToken.userId r = JWTPayload.userId claims ->
                RefreshToken.isActive r' = false)
            /\ (RefreshToken.userId r <> JWTPayload.userId claims -> r' = r)).
Proof.
  intros Hparse req ttl db1. subst db1.
  unfold AuthRoutes.logoutAll.
  subst req ttl.
  rewrite (authenticate_issued_token parseCompact env0 env1 claims
             compact None Hparse).
  split; intros Hclock.
  - apply Z.leb_le in Hclock. rewrite Hclock. reflexivity.
  - apply Z.leb_gt in Hclock. rewrite Hclock.
    cbn [AuthRequest.user jwt.payload].
    unfold AuthService.revokeAllUserTokens,
      RefreshTokenRepository.revokeAllUserTokens, exec, bind, ret.
    cbn [fst snd users refresh_tokens].
    split; [reflexivity |]. split; [reflexivity |].
    intros i r Hi. rewrite nth_error_update, Hi. cbn [option_map].
    eexists. split; [reflexivity |].
    unfold RefreshTokenRepository.activeByUserId.
    destruct (String.eqb_spec (RefreshToken.userId r) (JWTPayload.userId claims))
      as [Hown | Hother];
      destruct (RefreshToken.isActive r) eqn:Hact; cbn [andb];
      split; intros; try congruence; reflexivity.
Qed.

(** Jane logs out everywhere with her access token, one minute after
    issue. *)
Lemma logoutAll_route_uses_token_identity_witness :
  AuthRoutes.logoutAll (sampleEnvAfter 60) sampleParse (bearer "jane.jwt") sampleDb
  = (Return loggedOutEverywhere,
     exec (AuthService.revokeAllUserTokens "u-1") sampleDb).
Proof.
  apply (proj2 (logoutAll_route_uses_token_identity (P := sample) sampleParse
                  sampleEnv (sampleEnvAfter 60) (claimsOf jane) "jane.jwt"
                  sampleDb eq_refl)).
  vm_compute. reflexivity.
Defined.

Lemma verifyRefreshToken_outcomes {P : Platform} env token db :
  match AuthService.verifyRefreshToken env token db with
  | (Return _, db1) => db1 = db /\ acceptsText token = true
  | (Throw e, db1) =>
      (acceptsText token = true
       /\ ((e = AppError "Invalid refresh token" 401 /\ db1 = db)
           \/ (e = AppError "Refresh token expired" 401
               /\ db1 = exec (RefreshTokenRepository.revokeToken token) db)
           \/ (e = AppError "User account is deactivated" 403 /\ db1 = db)))
      \/ (acceptsText token = false
          /\ e = QueryFailedError "invalid byte sequence for encoding UTF8: 0x00"
          /\ db1 = db)
  end.
Proof.
  unfold AuthService.verifyRefreshToken, bind.
  destruct (acceptsText token) eqn:Htext.
  - rewrite (findByToken_accepted _ _ Htext).
    destruct (find _ _) as [r |] eqn:Hfind; cbn [option_map]; [| cbn; auto 10].
    apply find_some in Hfind as [_ Hact].
    apply activeByToken_true in Hact as (_ & Hactive & _).
    cbn [RefreshToken.row RefreshTokenRepository.load].
    destruct (date_lt _ _).
    + unfold exec. rewrite (revokeToken_accepted _ _ Htext). cbn. auto 10.
    + rewrite Hactive. cbn [negb].
      destruct (RefreshToken.user _) as [u |]; [| cbn; auto 10].
      destruct (User.isActive u); cbn; auto 10.
  - unfold RefreshTokenRepository.findByToken. rewrite Htext. cbn. auto 10.
Qed.

(** X14. What the refresh route can answer.  An empty token is refused
    with status 400.  With a token that the database accepts as text the
    route never answers with a server error: it either returns the
    presented refresh token with a new access token and leaves the
    database untouched, or throws an [AppError] of status 401 or 403,
    which the error handler renders with that status and the body status
    ["fail"]; the only write it can make is the deactivation of the rows
    under the presented token.  A token that holds U+0000 passes the
    validator and makes the lookup fail in the database: the route throws
    a [QueryFailedError], nothing is written and the error handler answers
    500. *)
Theorem refresh_route_outcomes {P : Platform} (env : Env.t)
  (body : RefreshTokenDto.t) (db : Database) :
  let token := RefreshTokenDto.refreshToken body in
  (acceptsText token = true ->
   match AuthRoutes.refresh env body db with
   | (Return response, db1) =>
       db1 = db
       /\ RefreshTokenResponse.refreshToken response = token
       /\ token <> ""
   | (Throw e, db1) =>
       (exists message statusCode,
           e = AppError message statusCode
           /\ (statusCode = 400 \/ statusCode = 401 \/ statusCode = 403)
           /\ ErrorHandler.errorHandler e
              = {| Reply.statusCode := statusCode;
                   Reply.status := "fail";
                   Reply.message := message |})
       /\ (db1 = db \/ db1 = exec (AuthService.revokeRefreshToken token) db)
   end)
  /\ (acceptsText token = false ->
      AuthRoutes.refresh env body db
      = (Throw (QueryFailedError "invalid byte sequence for encoding UTF8: 0x00"),
         db)
      /\ ErrorHandler.errorHandler
           (QueryFailedError "invalid byte sequence for encoding UTF8: 0x00")
         = {| Reply.statusCode := 500;
              Reply.status := "error";
              Reply.message :=
                "invalid byte sequence for encoding UTF8: 0x00" |}).
Proof.
  intros token. subst token. split.
  - intros Htext. unfold AuthRoutes.refresh.
    destruct (AuthRoutes.notEmpty (RefreshTokenDto.refreshToken body)) eqn:Hne;
      cbn [AuthRoutes.check AuthRoutes.validateRequest].
    + assert (Hnz : RefreshTokenDto.refreshToken body <> "").
      { intros Heq. apply notEmpty_false in Heq. congruence. }
      unfold AuthService.refreshToken, bind.
      pose proof (verifyRefreshToken_outcomes env
                    (RefreshTokenDto.refreshToken body) db) as Hout.
      destruct (AuthService.verifyRefreshToken env
                  (RefreshTokenDto.refreshToken body) db) as [[payload | e] db1].
      * cbn. destruct Hout as [-> _]. auto.
      * destruct Hout as [[_ Hout] | [Hno _]]; [| congruence].
        destruct Hout as [[-> ->] | [[-> ->] | [-> ->]]];
          (split; [do 2 eexists; split; [reflexivity |]; split;
                   [intuition | reflexivity] | auto]).
    + cbn. split; [| auto].
      do 2 eexists. split; [reflexivity |]. split; [auto | reflexivity].
  - intros Htext. split; [| reflexivity].
    unfold AuthRoutes.refresh.
    assert (Hne : AuthRoutes.notEmpty (RefreshTokenDto.refreshToken body) = true).
    { destruct (RefreshTokenDto.refreshToken body); [discriminate | reflexivity]. }
    rewrite Hne. cbn [AuthRoutes.check AuthRoutes.validateRequest].
    pose proof (refresh_rejected_text env _ db Htext) as Hthrows.
    destruct body as [t]. exact Hthrows.
Qed.

(** Jane's stale session and a token that holds U+0000 on the refresh
    route. *)
Lemma refresh_route_outcomes_witness :
  AuthRoutes.refresh sampleEnv {| RefreshTokenDto.refreshToken := nulToken |}
    sampleDb
  = (Throw (QueryFailedError "invalid byte sequence for encoding UTF8: 0x00"),
     sampleDb)
  /\ match AuthRoutes.refresh sampleEnv
             {| RefreshTokenDto.refreshToken := "stale" |} sampleDb with
     | (Return _, _) => False
     | (Throw e, db1) =>
         e = AppError "Refresh token expired" 401
         /\ db1 = exec (AuthService.revokeRefreshToken "stale") sampleDb
     end.
Proof.
  split.
  - apply (proj2 (refresh_route_outcomes (P := sample) sampleEnv
                    {| RefreshTokenDto.refreshToken := nulToken |} sampleDb)).
    reflexivity.
  - vm_compute. split; reflexivity.
Defined.

(** X15. The register route grants the role its body asks for: the
    access token it returns, presented to the admin route before its TTL
    has elapsed, is welcomed when the body asked for [ADMIN] and refused
    with status 403 when it asked for another role or for none (the role
    is then [USER]). *)
Theorem register_grants_requested_role {P : Platform}
  (parseCompact : string -> jwt.Token) (env0 env1 : Env.t)
  (body : RegisterDto.t) (ua ip : option string) (db db1 : Database)
  (response : AuthResponse.t) (compact : string) :
  AuthRoutes.register env0 body ua ip db = (Return response, db1) ->
  parseCompact compact = AuthResponse.token response ->
  AuthService.clockTimestamp env1
  < AuthService.clockTimestamp env0 + JwtConfig.expiresIn (Config.jwt config) ->
  let granted := match RegisterDto.role body with Some r => r | None => USER end in
  PublicUser.role (AuthResponse.user response) = granted
  /\ match AuthRoutes.admin env1 parseCompact
             {| AuthRequest.authorization := Some ("Bearer " ++ compact);
                AuthRequest.user := None |} with
     | Return (reply, Some decoded) =>
         granted = ADMIN /\ reply = welcome
         /\ JWTPayload.role (jwt.payload decoded) = ADMIN
         /\ JWTPayload.userId (jwt.payload decoded)
            = PublicUser.id (AuthResponse.user response)
     | Return (_, None) => False
     | Throw e =>
         granted <> ADMIN
         /\ e = AppError "You do not have permission to access this resource" 403
     end.
Proof.
  intros Hroute Hparse Hclock granted. subst granted.
  apply route_register_return in Hroute.
  apply register_inversion in Hroute as (_ & _ & _ & _ & -> & _).
  cbn [AuthResponse.token AuthResponse.user PublicUser.role PublicUser.id
       User.role User.id RegisterDto.role] in *.
  split; [reflexivity |].
  unfold AuthRoutes.admin.
  rewrite runChain_requireAuth_roles.
  rewrite (authenticate_issued_token parseCompact env0 env1 _ compact
             None Hparse).
  apply Z.leb_gt in Hclock. rewrite Hclock.
  cbn [AuthRequest.user jwt.payload claimsOf JWTPayload.role User.role
       JWTPayload.userId User.id existsb].
  destruct (RegisterDto.role body) as [[| |] |]; cbn;
    repeat split; try discriminate; reflexivity.
Qed.

(** Carol registers as an administrator and is welcomed. *)
Lemma register_grants_requested_role_witness :
  exists decoded,
    AuthRoutes.admin (sampleEnvAfter 60)
      (fun _ => AuthService.generateAccessToken sampleEnv
                  {| JWTPayload.userId := "u-3";
                     JWTPayload.email := "carol@x.com";
                     JWTPayload.role := ADMIN |})
      (bearer "carol.jwt")
    = Return (welcome, Some decoded)
    /\ JWTPayload.role (jwt.payload decoded) = ADMIN.
Proof.
  pose proof (register_grants_requested_role (P := sample)
                (fun _ => AuthService.generateAccessToken sampleEnv
                            {| JWTPayload.userId := "u-3";
                               JWTPayload.email := "carol@x.com";
                               JWTPayload.role := ADMIN |})
                sampleEnv (sampleEnvAfter 60)
                {| RegisterDto.name := "Carol";
                   RegisterDto.email := "Carol@X.com";
                   RegisterDto.password := "secret3";
                   RegisterDto.role := Some ADMIN |} None None sampleDb _ _
                "carol.jwt" eq_refl eq_refl eq_refl) as [_ Hadmin].
  unfold bearer.
  destruct (AuthRoutes.admin _ _ _) as [[reply [decoded |]] | e].
  - destruct Hadmin as (_ & -> & Hrole & _). exists decoded. split; trivial.
  - destruct Hadmin.
  - destruct Hadmin as [Hne _]. exfalso. apply Hne. reflexivity.
Defined.

(** * Invariants of the service calls *)

Lemma map_token_evolved (f : RefreshToken.t -> RefreshToken.t)
  (rows : list RefreshToken.t) :
  (forall r, f r = r \/ f r = RefreshToken.deactivate r) ->
  map RefreshToken.token (map f rows) = map RefreshToken.token rows.
Proof.
  intros Hf. rewrite map_map. apply map_ext.
  intros r. destruct (Hf r) as [-> | ->]; reflexivity.
Qed.

Lemma Evolves_NoDup (drawn : string) (before after : list RefreshToken.t) :
  Evolves drawn before after ->
  NoDup (map RefreshToken.token before) ->
  NoDup (map RefreshToken.token after).
Proof.
  intros (f & Hf & [-> | (fresh & -> & Hdrawn & Hnew)]) Hnd.
  - now rewrite map_token_evolved.
  - rewrite map_app, map_token_evolved by assumption. cbn [map].
    apply NoDup_app; [assumption | repeat constructor; intros [] |].
    intros t Hin [<- | []].
    apply in_map_iff in Hin as (r & Htok & Hr).
    assert (existsb (RefreshTokenRepository.byToken drawn) before = true) as Hex.
    { apply existsb_exists. exists r. split; [exact Hr |].
      apply byToken_true. congruence. }
    congruence.
Qed.

(** X16. Whatever calls are served, the tokens of the sessions table stay
    pairwise distinct if they were: [create] refuses a token that a row
    already carries and no call rewrites a token. *)
Theorem tokens_stay_distinct {P : Platform} (trace : list (Env.t * Request))
  (db : Database) :
  NoDup (map RefreshToken.token (refresh_tokens db)) ->
  NoDup (map RefreshToken.token (refresh_tokens (run trace db))).
Proof.
  revert db. induction trace as [| [env rq] rest IH]; intros db Hnd; cbn [run].
  - exact Hnd.
  - apply IH. eapply Evolves_NoDup; [apply serve_evolves | exact Hnd].
Qed.

(** Two logins that draw the same token: the second is refused and the
    tokens stay distinct. *)
Lemma tokens_stay_distinct_witness :
  NoDup (map RefreshToken.token
           (refresh_tokens
              (run [(sampleEnv,
                     Login {| LoginDto.email := "jane@x.com";
                              LoginDto.password := "secret1" |} None None);
                    (sampleEnv,
                     Login {| LoginDto.email := "jane@x.com";
                              LoginDto.password := "secret1" |} None None)]
                 sampleDb))).
Proof.
  apply (tokens_stay_distinct (P := sample)).
  cbn. repeat constructor; cbn; intuition discriminate.
Defined.

Lemma Evolves_nth (drawn : string) (before after : list RefreshToken.t)
  (i : nat) (r : RefreshToken.t) :
  Evolves drawn before after ->
  nth_error before i = Some r ->
  exists r', nth_error after i = Some r'
             /\ (r' = r \/ r' = RefreshToken.deactivate r).
Proof.
  intros (f & Hf & Hshape) Hi.
  assert (Hmap : nth_error (map f before) i = Some (f r))
    by (rewrite nth_error_map, Hi; reflexivity).
  exists (f r). split; [| apply Hf].
  destruct Hshape as [-> | (fresh & -> & _)]; [exact Hmap |].
  rewrite nth_error_app1; [exact Hmap |].
  apply nth_error_Some. congruence.
Qed.

(** X17. No service call removes a session, moves it, changes its token,
    owner, expiry, client data or delete date, or sets it active again:
    after any sequence of calls the row at a position is the row that
    was there, possibly deactivated. *)
Theorem sessions_only_deactivate {P : Platform} (trace : list (Env.t * Request))
  (db : Database) (i : nat) (r : RefreshToken.t) :
  nth_error (refresh_tokens db) i = Some r ->
  exists r',
    nth_error (refresh_tokens (run trace db)) i = Some r'
    /\ (r' = r \/ r' = RefreshToken.deactivate r).
Proof.
  revert db r. induction trace as [| [env rq] rest IH]; intros db r Hi; cbn [run].
  - exists r. auto.
  - destruct (Evolves_nth _ _ _ i r (serve_evolves env rq db) Hi)
      as (r1 & Hi1 & Hr1).
    destruct (IH _ _ Hi1) as (r2 & Hi2 & Hr2).
    exists r2. split; [exact Hi2 |].
    destruct Hr1 as [-> | ->], Hr2 as [-> | ->]; auto.
Qed.

(** Jane's revoked session after a refresh with it and a login. *)
Lemma sessions_only_deactivate_witness :
  nth_error
    (refresh_tokens
       (run [(sampleEnv, Refresh {| RefreshTokenDto.refreshToken := "gone" |});
             (sampleEnv,
              Login {| LoginDto.email := "jane@x.com";
                       LoginDto.password := "secret1" |} None None)]
          sampleDb)) 2
  = Some (session "gone" "u-1" 1800000000000 false).
Proof.
  destruct (sessions_only_deactivate (P := sample)
              [(sampleEnv, Refresh {| RefreshTokenDto.refreshToken := "gone" |});
               (sampleEnv,
                Login {| LoginDto.email := "jane@x.com";
                         LoginDto.password := "secret1" |} None None)]
              sampleDb 2%nat (session "gone" "u-1" 1800000000000 false) eq_refl)
    as (r' & Hnth & [-> | ->]); exact Hnth.
Defined.

Lemma serve_users {P : Platform} (env : Env.t) (rq : Request) (db : Database) :
  users (serve env rq db) = users db
  \/ exists data ua ip u,
      rq = Register data ua ip
      /\ users (serve env rq db) = (users db ++ [u])%list
      /\ User.id u = Env.uuid env
      /\ User.email u = RegisterDto.email data
      /\ find (UserRepository.byEmail (RegisterDto.email data)) (users db) = None.
Proof.
  destruct rq as [data ua ip | data ua ip | data | token | userId]; cbn [serve].
  - unfold AuthService.register, exec, bind.
    unfold UserRepository.findByEmail, UserRepository.create.
    destruct (find _ _) eqn:Hfind; cbn; [left; reflexivity |].
    destruct (negb _); cbn; [left; reflexivity |].
    destruct (UserRepository.emailTaken _ _); cbn; [left; reflexivity |].
    match goal with
    | |- context [AuthService.createRefreshToken env ?uid ua ip ?db'] =>
        pose proof (createRefreshToken_evolves env uid ua ip db') as [Hu _];
        unfold exec in Hu;
        destruct (AuthService.createRefreshToken env uid ua ip db')
          as [[tok | e] db2]
    end;
      (right; exists data, ua, ip; eexists;
       split; [reflexivity |]; cbn in Hu |- *; rewrite Hu;
       repeat split; solve [reflexivity | exact Hfind]).
  - left. unfold AuthService.login, exec, bind.
    unfold UserRepository.findByEmail at 1.
    destruct (find _ _) as [u |]; cbn; [| reflexivity].
    destruct (User.isActive u); cbn; [| reflexivity].
    destruct (AuthService.comparePassword _ _); cbn; [| reflexivity].
    pose proof (createRefreshToken_evolves env (User.id u) ua ip db) as [Hu _].
    unfold exec in Hu.
    destruct (AuthService.createRefreshToken env (User.id u) ua ip db)
      as [[tok | e] db2]; exact Hu.
  - left.
    pose proof (verifyRefreshToken_outcomes env
                  (RefreshTokenDto.refreshToken data) db) as Hout.
    unfold AuthService.refreshToken, exec, bind.
    destruct (AuthService.verifyRefreshToken env _ db) as [[payload | e] db1].
    + cbn. destruct Hout as [-> _]. reflexivity.
    + cbn.
      destruct Hout as [[_ [[_ ->] | [[_ ->] | [_ ->]]]] | (_ & _ & ->)];
        try reflexivity.
      unfold exec, RefreshTokenRepository.revokeToken.
      destruct (acceptsText _); reflexivity.
  - left. unfold AuthService.revokeRefreshToken, exec,
      RefreshTokenRepository.revokeToken.
    destruct (acceptsText token); reflexivity.
  - left. reflexivity.
Qed.

(** X18. The service calls never rewrite or remove a user: after any
    sequence of registrations, logins, refreshes and logouts every user
    row is where it was and as it was; only a registration adds a row,
    one at a time, at the end, under an e-mail that no visible row had. *)
Theorem users_only_appended {P : Platform} (trace : list (Env.t * Request))
  (db : Database) :
  (forall i u,
      nth_error (users db) i = Some u ->
      nth_error (users (run trace db)) i = Some u)
  /\ (forall env rq,
         users (serve env rq db) <> users db ->
         exists data ua ip u,
           rq = Register data ua ip
           /\ users (serve env rq db) = (users db ++ [u])%list
           /\ User.email u = RegisterDto.email data
           /\ forall old, In old (users db) ->
                          User.email old = RegisterDto.email data ->
                          User.deletedAt old <> None).
Proof.
  split.
  - revert db. induction trace as [| [env rq] rest IH]; intros db i u Hi;
      cbn [run]; [exact Hi |].
    apply IH.
    destruct (serve_users env rq db) as [-> | (data & ua & ip & new & _ & -> & _)];
      [exact Hi |].
    rewrite nth_error_app1; [exact Hi |].
    apply nth_error_Some. congruence.
  - intros env rq Hchanged.
    destruct (serve_users env rq db)
      as [Hsame | (data & ua & ip & new & -> & Hnew & _ & Hemail & Hnone)];
      [contradiction |].
    exists data, ua, ip, new. repeat split; try assumption.
    intros old Hin Hold Hdel.
    pose proof (find_none _ _ Hnone old Hin) as Hby.
    unfold UserRepository.byEmail, isNull in Hby.
    rewrite Hold, String.eqb_refl, Hdel in Hby. discriminate.
Qed.

(** Jane's row after a registration and a logout-all. *)
Lemma users_only_appended_witness :
  nth_error
    (users
       (run [(sampleEnv,
              Register {| RegisterDto.name := "Carol";
                          RegisterDto.email := "carol@x.com";
                          RegisterDto.password := "secret3";
                          RegisterDto.role := None |} None None);
             (sampleEnv, LogoutAll "u-1")] sampleDb)) 0
  = Some jane.
Proof.
  apply (proj1 (users_only_appended (P := sample) _ sampleDb)).
  reflexivity.
Defined.

(** * Registration, login and the refresh TTL *)

(** What the sessions table accepts of the row of a new session. *)
Lemma storable_issued {P : Platform} env token userId ua ip :
  RefreshTokenRepository.storable (issued env token userId ua ip) = true <->
  acceptsText token = true
  /\ (exists x, AuthService.getRefreshTokenExpiration env = TimeValue x)
  /\ (forall userAgent,
         ua = Some userAgent ->
         acceptsText userAgent = true /\ (length userAgent <= 255)%nat)
  /\ (forall ipAddress,
         ip = Some ipAddress ->
         acceptsText ipAddress = true /\ (length ipAddress <= 45)%nat).
Proof.
  unfold RefreshTokenRepository.storable, issued.
  cbn [RefreshToken.token RefreshToken.expiresAt RefreshToken.userAgent
       RefreshToken.ipAddress].
  rewrite !andb_true_iff. split.
  - intros [[[Htext Hexpiry] Hua] Hip]. split; [exact Htext |]. split; [| split].
    + destruct (AuthService.getRefreshTokenExpiration env) as [| x];
        [discriminate | exists x; reflexivity].
    + intros userAgent ->. apply andb_true_iff in Hua as [Hua Hlen].
      split; [exact Hua | apply Nat.leb_le; exact Hlen].
    + intros ipAddress ->. apply andb_true_iff in Hip as [Hip Hlen].
      split; [exact Hip | apply Nat.leb_le; exact Hlen].
  - intros (Htext & [x Hx] & Hua & Hip). rewrite Hx.
    repeat split; try assumption.
    + destruct ua as [userAgent |]; [| reflexivity].
      destruct (Hua userAgent eq_refl) as [Hok Hlen].
      apply andb_true_iff. split; [exact Hok | apply Nat.leb_le; exact Hlen].
    + destruct ip as [ipAddress |]; [| reflexivity].
      destruct (Hip ipAddress eq_refl) as [Hok Hlen].
      apply andb_true_iff. split; [exact Hok | apply Nat.leb_le; exact Hlen].
Qed.

(** X19. After [register] has returned, a login with the same e-mail and
    a password that [bcrypt.compare] accepts against the hash made at
    registration returns the same public identity and stores one more
    session, provided the sessions table accepts the row (a text token, a
    valid expiry, as user agent a text of at most 255 characters and as
    address one of at most 45) and the token drawn is new; when the table does not accept
    the row, for instance for a longer user agent, the login throws a
    [QueryFailedError] and stores nothing.  A password that
    [bcrypt.compare] rejects against that hash is answered 401 with
    nothing stored. *)
Theorem register_then_login {P : Platform} (env0 env1 : Env.t)
  (data : RegisterDto.t) (ua ip ua' ip' : option string) (db db1 : Database)
  (response : AuthResponse.t) :
  AuthService.register env0 data ua ip db = (Return response, db1) ->
  let hash := bcrypt_hash (RegisterDto.password data) (Env.genSalt env0) in
  let row :=
    issued env1 (Env.randomBytes env1)
      (PublicUser.id (AuthResponse.user response)) ua' ip' in
  (RefreshTokenRepository.storable row = true <->
   acceptsText (Env.randomBytes env1) = true
   /\ (exists x, AuthService.getRefreshTokenExpiration env1 = TimeValue x)
   /\ (forall userAgent,
          ua' = Some userAgent ->
          acceptsText userAgent = true /\ (length userAgent <= 255)%nat)
   /\ (forall ipAddress,
          ip' = Some ipAddress ->
          acceptsText ipAddress = true /\ (length ipAddress <= 45)%nat))
  /\ (bcrypt_compare (RegisterDto.password data) hash = true ->
      RefreshTokenRepository.storable row = true ->
      existsb (RefreshTokenRepository.byToken (Env.randomBytes env1))
        (refresh_tokens db1) = false ->
      exists response',
        AuthService.login env1
          {| LoginDto.email := RegisterDto.email data;
             LoginDto.password := RegisterDto.password data |} ua' ip' db1
        = (Return response',
           {| users := users db1;
              refresh_tokens := (refresh_tokens db1 ++ [row])%list |})
        /\ AuthResponse.user response' = AuthResponse.user response
        /\ AuthResponse.refreshToken response' = Env.randomBytes env1)
  /\ (bcrypt_compare (RegisterDto.password data) hash = true ->
      RefreshTokenRepository.storable row = false ->
      AuthService.login env1
        {| LoginDto.email := RegisterDto.email data;
           LoginDto.password := RegisterDto.password data |} ua' ip' db1
      = (Throw (QueryFailedError "invalid input value for a column"), db1))
  /\ (forall password,
         bcrypt_compare password hash = false ->
         AuthService.login env1
           {| LoginDto.email := RegisterDto.email data;
              LoginDto.password := password |} ua' ip' db1
         = (Throw (AppError "Invalid email or password" 401), db1)).
Proof.
  intros Hregister hash row. subst hash row.
  destruct (register_return_user _ _ _ _ _ _ _ Hregister)
    as (u & Hfound & Hid & Hemail & Hactive & Hpassword & Hpublic).
  rewrite <- Hid.
  split; [apply storable_issued |].
  unfold AuthService.login, AuthService.comparePassword, bind.
  cbn [LoginDto.email LoginDto.password].
  rewrite Hfound, Hactive, Hpassword. cbn [negb].
  split; [| split].
  - intros Hcompare Hstorable Hnew. rewrite Hcompare. cbn [negb].
    rewrite (createRefreshToken_stores _ _ _ _ _ Hstorable Hnew).
    eexists. split; [reflexivity |]. split; [| reflexivity].
    cbn [AuthResponse.user]. symmetry. exact Hpublic.
  - intros Hcompare Hrefused. rewrite Hcompare. cbn [negb].
    unfold AuthService.createRefreshToken, AuthService.generateRefreshToken.
    async. fold (issued env1 (Env.randomBytes env1) (User.id u) ua' ip').
    rewrite Hrefused. reflexivity.
  - intros password Hcompare. rewrite Hcompare. reflexivity.
Qed.

(** Carol registers and logs in on the sample platform. *)
Lemma register_then_login_witness :
  exists response',
    fst (AuthService.login (sampleEnvAfter 5)
           {| LoginDto.email := "carol@x.com"; LoginDto.password := "secret3" |}
           None None
           (exec (AuthService.register sampleEnv
                    {| RegisterDto.name := "Carol";
                       RegisterDto.email := "carol@x.com";
                       RegisterDto.password := "secret3";
                       RegisterDto.role := None |} None None) sampleDb))
    = Return response'
    /\ PublicUser.id (AuthResponse.user response') = "u-3".
Proof.
  destruct (proj1 (proj2 (register_then_login (P := sample) sampleEnv
                            (sampleEnvAfter 5)
                            {| RegisterDto.name := "Carol";
                               RegisterDto.email := "carol@x.com";
                               RegisterDto.password := "secret3";
                               RegisterDto.role := None |}
                            None None None None sampleDb _ _ eq_refl))
              eq_refl eq_refl eq_refl) as (response' & Hlogin & Huser & _).
  exists response'. split.
  - exact (f_equal fst Hlogin).
  - rewrite Huser. reflexivity.
Defined.

(** A user agent of 300 characters: the login of Jane with the right
    password fails in the database. *)
Example login_long_user_agent :
  AuthService.login sampleEnv
    {| LoginDto.email := "jane@x.com"; LoginDto.password := "secret1" |}
    (Some (string_of_list_ascii (repeat "a"%char 300))) None sampleDb
  = (Throw (QueryFailedError "invalid input value for a column"), sampleDb).
Proof. vm_compute. reflexivity. Qed.

(** X20. A refresh TTL that [parseInt] reads as a negative number of days
    makes every session expired from the start: the refresh token that
    [login] returns is refused, at the same instant or later, with
    [AppError('Refresh token expired', 401)]. *)
Theorem negative_ttl_sessions_born_expired {P : Platform} (env env' : Env.t)
  (n : Z) (data : LoginDto.t) (ua ip : option string) (db db1 : Database)
  (response : AuthResponse.t) :
  parseInt (replace "d" "" (JwtConfig.refreshExpiresIn (Config.jwt config)))
  = Int n ->
  n < 0 ->
  - maxTimeValue <= Env.now env + n * msPerDay ->
  Env.now env <= maxTimeValue ->
  Env.now env <= Env.now env' ->
  AuthService.login env data ua ip db = (Return response, db1) ->
  fst (AuthService.refreshToken env'
         {| RefreshTokenDto.refreshToken := AuthResponse.refreshToken response |}
         db1)
  = Throw (AppError "Refresh token expired" 401).
Proof.
  intros Hparse Hneg Hlow Hhigh Hlater Hlogin.
  pose proof (login_return _ _ _ _ _ _ _ Hlogin) as (_ & _ & x & Hx).
  apply findByToken_after_login in Hlogin.
  pose proof (findByToken_text _ _ _ _ Hlogin) as Htext.
  assert (Hbefore : x < Env.now env').
  { rewrite (expiry_of_parse env n Hparse) in Hx. unfold TimeClip in Hx.
    destruct (_ <=? _); [| discriminate]. injection Hx as <-.
    pose proof (local_days_later_bounds (Env.now env) n). lia. }
  unfold AuthService.refreshToken, AuthService.verifyRefreshToken, bind.
  cbn [RefreshTokenDto.refreshToken].
  rewrite Hlogin.
  cbn [RefreshToken.row RefreshTokenRepository.load issued RefreshToken.expiresAt].
  rewrite Hx. cbn [date_lt].
  apply Z.ltb_lt in Hbefore. rewrite Hbefore.
  rewrite (revokeToken_accepted _ _ Htext). reflexivity.
Qed.

(** With the TTL ["-1d"], Jane's new refresh token is expired at once. *)
Lemma negative_ttl_sessions_born_expired_witness :
  fst (AuthService.refreshToken (P := samplePlatform "-1d") sampleEnv
         {| RefreshTokenDto.refreshToken := "c0ffee" |}
         (exec (AuthService.login (P := samplePlatform "-1d") sampleEnv
                  {| LoginDto.email := "jane@x.com";
                     LoginDto.password := "secret1" |} None None) sampleDb))
  = Throw (AppError "Refresh token expired" 401).
Proof.
  apply (negative_ttl_sessions_born_expired (P := samplePlatform "-1d")
           sampleEnv sampleEnv (-1)
           {| LoginDto.email := "jane@x.com"; LoginDto.password := "secret1" |}
           None None sampleDb _
           {| AuthResponse.token :=
                AuthService.generateAccessToken (P := samplePlatform "-1d")
                  sampleEnv (claimsOf jane);
              AuthResponse.refreshToken := "c0ffee";
              AuthResponse.user :=
                {| PublicUser.id := "u-1"; PublicUser.name := "Jane";
                   PublicUser.email := "jane@x.com"; PublicUser.role := ADMIN |} |}).
  - reflexivity.
  - reflexivity.
  - vm_compute. discriminate.
  - vm_compute. discriminate.
  - apply Z.le_refl.
  - reflexivity.
Defined.

(** ** The documented TTL format *)



(** * Task statistics *)

Lemma status_partition (tasks : list Task.t) :
  List.length tasks
  = (List.length (filter (TaskRepository.hasStatus completed) tasks)
     + List.length (filter (TaskRepository.hasStatus pending) tasks)
     + List.length (filter (TaskRepository.hasStatus in_progress) tasks)
     + List.length (filter (TaskRepository.hasStatus cancelled) tasks))%nat.
Proof.
  unfold TaskRepository.hasStatus.
  induction tasks as [| t tasks IH]; cbn [filter List.length]; [reflexivity |].
  destruct (Task.status t); cbn [TaskStatus_eqb List.length]; lia.
Qed.

(** X22. In [getPlayerTaskStats] the total counts the player's tasks that
    are not soft-deleted; completed, pending and in-progress tasks are
    counted apart, and they fall short of the total by exactly the number
    of cancelled tasks, which no counter reports; tasks of other players
    and soft-deleted tasks change nothing. *)
Theorem task_stats_sum (playerId : string) (table : list Task.t) :
  let stats := TaskRepository.getPlayerTaskStats playerId table in
  let mine := filter (TaskRepository.ofPlayer playerId) table in
  TaskStats.total stats
  = (TaskStats.completed stats + TaskStats.pending stats
     + TaskStats.inProgress stats
     + List.length (filter (TaskRepository.hasStatus cancelled) mine))%nat
  /\ (TaskStats.total stats <= List.length table)%nat
  /\ (forall t,
         Task.playerId t <> playerId \/ Task.deletedAt t <> None ->
         TaskRepository.getPlayerTaskStats playerId (t :: table) = stats)
  /\ (forall t,
         Task.playerId t = playerId -> Task.deletedAt t = None ->
         Task.status t = cancelled ->
         TaskStats.total
           (TaskRepository.getPlayerTaskStats playerId (t :: table))
         = S (TaskStats.total stats)
         /\ TaskStats.completed
              (TaskRepository.getPlayerTaskStats playerId (t :: table))
            = TaskStats.completed stats
         /\ TaskStats.pending
              (TaskRepository.getPlayerTaskStats playerId (t :: table))
            = TaskStats.pending stats
         /\ TaskStats.inProgress
              (TaskRepository.getPlayerTaskStats playerId (t :: table))
            = TaskStats.inProgress stats).
Proof.
  intros stats mine. subst stats mine.
  unfold TaskRepository.getPlayerTaskStats.
  cbn [TaskStats.total TaskStats.completed TaskStats.pending TaskStats.inProgress].
  split; [apply status_partition |].
  split; [apply filter_length_le |].
  split.
  - intros t Hforeign. cbn [filter].
    replace (TaskRepository.ofPlayer playerId t) with false; [reflexivity |].
    symmetry. unfold TaskRepository.ofPlayer, isNull.
    destruct Hforeign as [Hother | Hdeleted].
    + apply String.eqb_neq in Hother. rewrite Hother. reflexivity.
    + destruct (Task.deletedAt t); [apply andb_false_r | congruence].
  - intros t Hmine Hlive Hcancelled. cbn [filter].
    replace (TaskRepository.ofPlayer playerId t) with true.
    + unfold TaskRepository.hasStatus. cbn [filter List.length].
      rewrite Hcancelled. cbn [TaskStatus_eqb]. auto.
    + symmetry. unfold TaskRepository.ofPlayer, isNull.
      rewrite Hmine, String.eqb_refl, Hlive. reflexivity.
Qed.

(** A cancelled task of player [p-1]. *)
Lemma task_stats_sum_witness :
  TaskStats.total
    (TaskRepository.getPlayerTaskStats "p-1"
       [{| Task.playerId := "p-1"; Task.title := "Warm-up";
           Task.status := cancelled; Task.priority := 0;
           Task.deletedAt := None |}])
  = 1%nat
  /\ TaskStats.completed
       (TaskRepository.getPlayerTaskStats "p-1"
          [{| Task.playerId := "p-1"; Task.title := "Warm-up";
              Task.status := cancelled; Task.priority := 0;
              Task.deletedAt := None |}])
     = 0%nat.
Proof.
  destruct (proj2 (proj2 (proj2 (task_stats_sum "p-1" [])))
              {| Task.playerId := "p-1"; Task.title := "Warm-up";
                 Task.status := cancelled; Task.priority := 0;
                 Task.deletedAt := None |} eq_refl eq_refl eq_refl)
    as (Htotal & Hcompleted & _).
  split; [exact Htotal | exact Hcompleted].
Defined.
